(** * Dungeon-Adventure: the simulation core of [src/model/Game.py] and the
    tile map of [src/model/tiles.py], embedded as state-passing functions.

    Conventions of the embedding.
    - A Python object that is shared between several attributes (a hero is
      reachable from [_heroes], [_active_hero] and the sprite groups) lives in
      an object store and is named by a reference.
    - A method of [Game] is a computation over the [Game] record that either
      returns a value or raises a Python exception; in both cases the record
      as mutated so far is kept, which is what a caller that catches the
      exception observes.
    - Pixel coordinates, sizes and health are integers ([Z]); times and the
      smoothed camera are rationals ([Q]). Where the source stores a value
      read from a save file in such an attribute, the embedding follows the
      run when the value is an [int] and leaves it otherwise (see
      [outcome]); it makes no statement about such a run.
    - [print] calls and all drawing are omitted.
    - Classes of the repository whose source is not part of this development
      (heroes, the boss, the dungeon, transition, projectile, platform,
      minimap and save managers) are taken as an interface, [Externals]. *)

From Stdlib Require Import ZArith QArith String List Bool Lia.
From stdpp Require Import gmap strings list fin_maps.

Set Warnings "-register-all".
Open Scope string_scope.
Open Scope Z_scope.

(** ** Python values and exceptions *)

(** The values that cross the persistence boundary and the ones a caller may
    hand to the validating entry points. *)
Inductive PyVal :=
| PNone
| PBool (b : bool)
| PInt (z : Z)
| PFloat (q : Q)
| PStr (s : string)
| PSeq (items : list PyVal)        (* a tuple or a list *)
| PEnum (cls : string) (member : string). (* a member of an Enum class *)

Inductive exn :=
| ValueError (msg : string)
| KeyError (key : string)
| TypeError (msg : string)
| AttributeError (msg : string)
| RuntimeError (msg : string)
| OtherError (msg : string).

Inductive result (A : Type) :=
| Ok (a : A)
| Err (e : exn).
Arguments Ok {A} a.
Arguments Err {A} e.

(** How a method of [Game] ends: it returns, it raises, or the run has left
    the embedding. A run leaves the embedding when it follows a reference
    that names no object, which cannot arise in Python, or when it stores in
    an attribute a value that the embedding, typing the attribute more
    narrowly than Python does, cannot hold. Such a run is kept apart from
    the exceptions a handler catches, and nothing is stated about what the
    source does on it. *)
Inductive outcome (A : Type) :=
| Returns (a : A)
| Raises (e : exn)
| Dangling.
Arguments Returns {A} a.
Arguments Raises {A} e.
Arguments Dangling {A}.

Definition of_result {A} (r : result A) : outcome A :=
  match r with
  | Ok a => Returns a
  | Err e => Raises e
  end.

(** ** Enumerations of [Game.py] *)

Inductive HeroType := KNIGHT | ARCHER | CLERIC.

Inductive GameState := MENU | PLAYING | PAUSED | GAME_OVER | VICTORY | HERO_SELECT.

(** Modelled from the spec: [DungeonTemplate] of RoomDungeonSystem, an
    enumeration; [Game.py] names its members SQUARE and DEMO. *)
Inductive DungeonTemplate := SQUARE | DEMO.

(** Modelled from the spec: [TransitionType] of RoomTransitionManager;
    [Game.py] only uses FADE. *)
Inductive TransitionType := FADE.

Inductive Key := K_SPACE | K_q | K_e | K_LEFT | K_RIGHT | K_UP | K_DOWN.

#[global] Instance HeroType_eq_dec : EqDecision HeroType.
Proof. solve_decision. Defined.
#[global] Instance GameState_eq_dec : EqDecision GameState.
Proof. solve_decision. Defined.
#[global] Instance DungeonTemplate_eq_dec : EqDecision DungeonTemplate.
Proof. solve_decision. Defined.

(** [member.name] *)
Definition HeroType_name (t : HeroType) : string :=
  match t with KNIGHT => "KNIGHT" | ARCHER => "ARCHER" | CLERIC => "CLERIC" end.

Definition DungeonTemplate_name (t : DungeonTemplate) : string :=
  match t with SQUARE => "SQUARE" | DEMO => "DEMO" end.

(** [HeroType[v]]: lookup of a member by name; anything that is not the name
    of a member raises KeyError. *)
Definition HeroType_getitem (v : PyVal) : result HeroType :=
  match v with
  | PStr s =>
      if String.eqb s "KNIGHT" then Ok KNIGHT
      else if String.eqb s "ARCHER" then Ok ARCHER
      else if String.eqb s "CLERIC" then Ok CLERIC
      else Err (KeyError s)
  | _ => Err (KeyError "hero_type")
  end.

Definition DungeonTemplate_getitem (v : PyVal) : result DungeonTemplate :=
  match v with
  | PStr s =>
      if String.eqb s "SQUARE" then Ok SQUARE
      else if String.eqb s "DEMO" then Ok DEMO
      else Err (KeyError s)
  | _ => Err (KeyError "dungeon_template")
  end.

(** [isinstance(v, HeroType)] together with the member it denotes. *)
Definition as_HeroType (v : PyVal) : option HeroType :=
  match v with
  | PEnum cls m =>
      if String.eqb cls "HeroType" then
        if String.eqb m "KNIGHT" then Some KNIGHT
        else if String.eqb m "ARCHER" then Some ARCHER
        else if String.eqb m "CLERIC" then Some CLERIC
        else None
      else None
  | _ => None
  end.

Definition of_HeroType (t : HeroType) : PyVal := PEnum "HeroType" (HeroType_name t).

(** [isinstance(v, (int, float))]; [bool] is a subclass of [int]. *)
Definition is_number (v : PyVal) : bool :=
  match v with
  | PInt _ | PFloat _ | PBool _ => true
  | _ => false
  end.

(** ** Entities *)

(** A [pygame.Rect]. *)
Record Rect := { rect_x : Z; rect_y : Z; rect_w : Z; rect_h : Z }.

(** [Rect.colliderect] of pygame 2: a rect of zero width or height collides
    with nothing; otherwise the horizontal and the vertical spans of the two
    rects must overlap, edges excluded. A negative size spans to the left or
    upwards. *)
Definition colliderect (a b : Rect) : bool :=
  negb ((rect_w a =? 0) || (rect_h a =? 0) || (rect_w b =? 0) || (rect_h b =? 0)) &&
  (Z.min (rect_x a) (rect_x a + rect_w a) <? Z.max (rect_x b) (rect_x b + rect_w b)) &&
  (Z.min (rect_y a) (rect_y a + rect_h a) <? Z.max (rect_y b) (rect_y b + rect_h b)) &&
  (Z.min (rect_x b) (rect_x b + rect_w b) <? Z.max (rect_x a) (rect_x a + rect_w a)) &&
  (Z.min (rect_y b) (rect_y b + rect_h b) <? Z.max (rect_y a) (rect_y a + rect_h a)).

(** Modelled from the spec: the attributes of a hero (Knight, Archer, Cleric)
    that [Game.py] reads and writes. [velocity_y] is optional: the source
    probes for it with [hasattr]. [hit_targets] holds references to enemies.
    [has_projectile_manager] records the assignment
    [hero.projectile_manager = self.projectile_manager]. *)
Record Hero := {
  hero_type : HeroType;
  x : Z;
  y : Z;
  width : Z;
  height : Z;
  health : Z;
  max_health : Z;
  is_alive : bool;
  ground_y : Z;
  velocity_y : option Z;
  is_attacking : bool;
  attack_cooldown_remaining : Q;
  special_cooldown_remaining : Q;
  hit_targets : list nat;
  has_projectile_manager : bool
}.

Definition hero_set_x (v : Z) (h : Hero) : Hero :=
  {|
     hero_type := hero_type h; x := v; y := y h; width := width h; height := height h;
     health := health h; max_health := max_health h; is_alive := is_alive h;
     ground_y := ground_y h; velocity_y := velocity_y h; is_attacking := is_attacking h;
     attack_cooldown_remaining := attack_cooldown_remaining h;
     special_cooldown_remaining := special_cooldown_remaining h;
     hit_targets := hit_targets h; has_projectile_manager := has_projectile_manager h
  |}.

Definition hero_set_y (v : Z) (h : Hero) : Hero :=
  {|
     hero_type := hero_type h; x := x h; y := v; width := width h; height := height h;
     health := health h; max_health := max_health h; is_alive := is_alive h;
     ground_y := ground_y h; velocity_y := velocity_y h; is_attacking := is_attacking h;
     attack_cooldown_remaining := attack_cooldown_remaining h;
     special_cooldown_remaining := special_cooldown_remaining h;
     hit_targets := hit_targets h; has_projectile_manager := has_projectile_manager h
  |}.

Definition hero_set_health (v : Z) (h : Hero) : Hero :=
  {|
     hero_type := hero_type h; x := x h; y := y h; width := width h; height := height h;
     health := v; max_health := max_health h; is_alive := is_alive h;
     ground_y := ground_y h; velocity_y := velocity_y h; is_attacking := is_attacking h;
     attack_cooldown_remaining := attack_cooldown_remaining h;
     special_cooldown_remaining := special_cooldown_remaining h;
     hit_targets := hit_targets h; has_projectile_manager := has_projectile_manager h
  |}.

Definition hero_set_ground_y (v : Z) (h : Hero) : Hero :=
  {|
     hero_type := hero_type h; x := x h; y := y h; width := width h; height := height h;
     health := health h; max_health := max_health h; is_alive := is_alive h;
     ground_y := v; velocity_y := velocity_y h; is_attacking := is_attacking h;
     attack_cooldown_remaining := attack_cooldown_remaining h;
     special_cooldown_remaining := special_cooldown_remaining h;
     hit_targets := hit_targets h; has_projectile_manager := has_projectile_manager h
  |}.

Definition hero_set_velocity_y (v : option Z) (h : Hero) : Hero :=
  {|
     hero_type := hero_type h; x := x h; y := y h; width := width h; height := height h;
     health := health h; max_health := max_health h; is_alive := is_alive h;
     ground_y := ground_y h; velocity_y := v; is_attacking := is_attacking h;
     attack_cooldown_remaining := attack_cooldown_remaining h;
     special_cooldown_remaining := special_cooldown_remaining h;
     hit_targets := hit_targets h; has_projectile_manager := has_projectile_manager h
  |}.

Definition hero_set_has_projectile_manager (v : bool) (h : Hero) : Hero :=
  {|
     hero_type := hero_type h; x := x h; y := y h; width := width h; height := height h;
     health := health h; max_health := max_health h; is_alive := is_alive h;
     ground_y := ground_y h; velocity_y := velocity_y h; is_attacking := is_attacking h;
     attack_cooldown_remaining := attack_cooldown_remaining h;
     special_cooldown_remaining := special_cooldown_remaining h;
     hit_targets := hit_targets h; has_projectile_manager := v
  |}.

(** [hero.hit_targets.add(enemy)] *)
Definition hero_add_hit_target (e : nat) (h : Hero) : Hero :=
  {|
     hero_type := hero_type h; x := x h; y := y h; width := width h; height := height h;
     health := health h; max_health := max_health h; is_alive := is_alive h;
     ground_y := ground_y h; velocity_y := velocity_y h; is_attacking := is_attacking h;
     attack_cooldown_remaining := attack_cooldown_remaining h;
     special_cooldown_remaining := special_cooldown_remaining h;
     hit_targets := (if bool_decide (e ∈ hit_targets h) then hit_targets h
                     else hit_targets h ++ [e]);
     has_projectile_manager := has_projectile_manager h
  |}.

(** Modelled from the spec: the attributes of an enemy. [is_boss] tells a
    [DemonBoss] from a regular monster; [enemy_hitbox] is optional
    ([hasattr(enemy, 'hitbox')]). *)
Record Enemy := {
  is_boss : bool;
  enemy_x : Z;
  enemy_y : Z;
  enemy_width : Z;
  enemy_height : Z;
  enemy_health : Z;
  enemy_max_health : Z;
  enemy_is_alive : bool;
  is_invulnerable : bool;
  enemy_hitbox : option Rect
}.

(** Modelled from the spec: a projectile. *)
Record Projectile := {
  proj_x : Z;
  proj_y : Z;
  proj_dx : Z;
  proj_is_fireball : bool;
  proj_active : bool
}.

(** Modelled from the spec: the room kind tag and the attributes of a room
    that [Game.py] reads ([width], [height], [floor_y], [is_boss_room()],
    [is_start_room()]). *)
Inductive RoomKind := START | NORMAL | BOSS.

Record Room := {
  grid_pos : Z * Z;
  room_width : Z;
  room_height : Z;
  floor_y : Z;
  room_kind : RoomKind
}.

Definition is_boss_room (r : Room) : bool :=
  match room_kind r with BOSS => true | _ => false end.

Definition is_start_room (r : Room) : bool :=
  match room_kind r with START => true | _ => false end.

(** An object reference held by a sprite group. *)
Inductive SpriteRef := HeroRef (r : nat) | EnemyRef (r : nat).

#[global] Instance SpriteRef_eq_dec : EqDecision SpriteRef.
Proof. solve_decision. Defined.

(** [Group.add]: a group holds a sprite once. *)
Definition group_add (s : SpriteRef) (grp : list SpriteRef) : list SpriteRef :=
  if bool_decide (s ∈ grp) then grp else grp ++ [s].

(** The module-level generator behind [random.randint]: an endless supply of
    raw draws and how many were consumed. *)
Record Rng := { draws : nat -> Z; consumed : nat }.

(** [random.randint(a, b)]: ValueError on an empty range. *)
Definition randint (a b : Z) (g : Rng) : result Z * Rng :=
  if b <? a then (Err (ValueError "empty range for randrange()"), g)
  else (Ok (a + draws g (consumed g) mod (b - a + 1)),
        {| draws := draws g; consumed := S (consumed g) |}).

(** What one [RoomTransitionManager.update] did: either the registered
    callback was not invoked, or it was invoked once, with the manager in
    state [at_callback], and the update finished in state [after]. *)
Inductive TransitionStep (TM : Type) :=
| Quiet (after : TM)
| Fired (at_callback after : TM).
Arguments Quiet {TM} after.
Arguments Fired {TM} at_callback after.

(** The ten [pygame.sprite.Group]s of [Game.__init__]. *)
Record SpriteGroups := {
  all_sprites : list SpriteRef;
  hero_sprites : list SpriteRef;
  enemy_sprites : list SpriteRef;
  projectile_sprites : list SpriteRef;
  platform_sprites : list SpriteRef;
  background_sprites : list SpriteRef;
  midground_sprites : list SpriteRef;
  foreground_sprites : list SpriteRef;
  damageable_sprites : list SpriteRef;
  solid_sprites : list SpriteRef
}.

(** Every group after [Group.empty()]. *)
Definition no_sprites : SpriteGroups :=
  {| all_sprites := []; hero_sprites := []; enemy_sprites := []; projectile_sprites := [];
     platform_sprites := []; background_sprites := []; midground_sprites := [];
     foreground_sprites := []; damageable_sprites := []; solid_sprites := [] |}.

Definition set_all_sprites (v : list SpriteRef) (s : SpriteGroups) : SpriteGroups :=
  {|
     all_sprites := v; hero_sprites := hero_sprites s; enemy_sprites := enemy_sprites s;
     projectile_sprites := projectile_sprites s; platform_sprites := platform_sprites s;
     background_sprites := background_sprites s;
     midground_sprites := midground_sprites s;
     foreground_sprites := foreground_sprites s;
     damageable_sprites := damageable_sprites s; solid_sprites := solid_sprites s
  |}.

Definition set_hero_sprites (v : list SpriteRef) (s : SpriteGroups) : SpriteGroups :=
  {|
     all_sprites := all_sprites s; hero_sprites := v; enemy_sprites := enemy_sprites s;
     projectile_sprites := projectile_sprites s; platform_sprites := platform_sprites s;
     background_sprites := background_sprites s;
     midground_sprites := midground_sprites s;
     foreground_sprites := foreground_sprites s;
     damageable_sprites := damageable_sprites s; solid_sprites := solid_sprites s
  |}.

Definition set_enemy_sprites (v : list SpriteRef) (s : SpriteGroups) : SpriteGroups :=
  {|
     all_sprites := all_sprites s; hero_sprites := hero_sprites s; enemy_sprites := v;
     projectile_sprites := projectile_sprites s; platform_sprites := platform_sprites s;
     background_sprites := background_sprites s;
     midground_sprites := midground_sprites s;
     foreground_sprites := foreground_sprites s;
     damageable_sprites := damageable_sprites s; solid_sprites := solid_sprites s
  |}.

Definition set_midground_sprites (v : list SpriteRef) (s : SpriteGroups) : SpriteGroups :=
  {|
     all_sprites := all_sprites s; hero_sprites := hero_sprites s;
     enemy_sprites := enemy_sprites s; projectile_sprites := projectile_sprites s;
     platform_sprites := platform_sprites s; background_sprites := background_sprites s;
     midground_sprites := v; foreground_sprites := foreground_sprites s;
     damageable_sprites := damageable_sprites s; solid_sprites := solid_sprites s
  |}.

Definition set_damageable_sprites (v : list SpriteRef) (s : SpriteGroups) : SpriteGroups :=
  {|
     all_sprites := all_sprites s; hero_sprites := hero_sprites s;
     enemy_sprites := enemy_sprites s; projectile_sprites := projectile_sprites s;
     platform_sprites := platform_sprites s; background_sprites := background_sprites s;
     midground_sprites := midground_sprites s;
     foreground_sprites := foreground_sprites s; damageable_sprites := v;
     solid_sprites := solid_sprites s
  |}.

(** Modelled from the spec: the projectile manager owns the list of live
    projectiles; [Game.py] clears and reads its [projectiles] attribute. *)
Record ProjectileManager := { projectiles : list Projectile }.

(** ** The collaborators of [Game]

    Classes of the repository that [Game.py] imports and whose source is not
    part of this development. Each method is a function of the receiver and
    its arguments that returns the updated receiver; a constructor or method
    that may fail returns a [result]. *)
Class Externals := {
  (** [src.model.RoomDungeonSystem.DungeonManager] *)
  DungeonManager : Type;
  DungeonManager_new : Z * Z -> string -> string -> DungeonTemplate -> result DungeonManager;
  get_current_room : DungeonManager -> option Room;
  get_current_room_position : DungeonManager -> Z * Z;
  get_player_spawn_position_for_current_room : DungeonManager -> Z -> Z -> Z * Z;
  set_current_room_by_coordinates : DungeonManager -> list PyVal -> result DungeonManager;
  update_current_room_interactions : DungeonManager -> Z -> Z -> Z -> Z -> DungeonManager;
  try_enter_walkthrough_door : DungeonManager -> Z -> Z -> bool * DungeonManager;
  try_enter_interactive_door : DungeonManager -> Z -> Z -> bool -> bool * DungeonManager;
  check_pillar_collection : DungeonManager -> Z -> Z -> Z -> Z -> DungeonManager;
  update_pillars : DungeonManager -> Q -> DungeonManager;
  (** [src.utils.RoomTransitionManager.RoomTransitionManager]; the callback
      it is given is always [Game._complete_room_transition]. *)
  RoomTransitionManager : Type;
  transition_update : RoomTransitionManager -> Q -> TransitionStep RoomTransitionManager;
  is_transitioning : RoomTransitionManager -> bool;
  start_transition : RoomTransitionManager -> TransitionType -> Q -> RoomTransitionManager;
  (** [Knight], [Archer], [Cleric]; a hero that was handed the game's
      projectile manager may add projectiles to it. *)
  Knight : PyVal -> PyVal -> Hero;
  Archer : PyVal -> PyVal -> Hero;
  Cleric : PyVal -> PyVal -> Hero;
  activate_attack : Hero -> ProjectileManager -> Hero * ProjectileManager;
  activate_special_ability : Hero -> ProjectileManager -> Hero * ProjectileManager;
  handle_input : Hero -> (Key -> bool) -> bool -> ProjectileManager -> Hero * ProjectileManager;
  hero_update : Hero -> Q -> ProjectileManager -> Hero * ProjectileManager;
  get_attack_hitbox : Hero -> option Rect;
  calculate_damage : Hero -> Enemy -> Z;
  (** [src.model.DemonBoss.DemonBoss] *)
  DemonBoss : Z -> Z -> Enemy;
  enemy_update : Enemy -> Q -> Enemy;
  move_towards_target : Enemy -> Z -> Z -> Q -> Enemy;
  enemy_attack : Enemy -> Hero -> Enemy * Hero;
  take_damage : Enemy -> Z -> bool * Enemy;
  (** [src.model.ProjectileManager.ProjectileManager] *)
  projectiles_update : ProjectileManager -> Q -> ProjectileManager;
  projectiles_check_collisions :
    ProjectileManager -> list Enemy -> ProjectileManager * list Enemy;
  (** [src.model.Platform.PlatformManager] *)
  PlatformManager : Type;
  platforms_update : PlatformManager -> Q -> PlatformManager;
  platforms_check_collisions : PlatformManager -> Hero -> PlatformManager * Hero;
  (** [src.view.DungeonMinimap]: the minimap and its integration *)
  Minimap : Type;
  clear_all_rooms : Minimap -> Minimap;
  sync_with_dungeon_manager : Minimap -> DungeonManager -> Minimap;
  update_player_position : Minimap -> DungeonManager -> Minimap;
  (** [saves.SaveLoadManager.SaveLoadSystem] *)
  SaveLoadSystem : Type;
  sl_save_game : SaveLoadSystem -> gmap string PyVal -> string -> bool * SaveLoadSystem;
  sl_load_game_state : SaveLoadSystem -> string -> result (option (gmap string PyVal))
}.

Section GameModel.
Context `{E : Externals}.

(** ** The [Game] object

    [game_width] and [game_height] are [self.width] and [self.height].
    [hero_objects], [enemy_objects] and [next_ref] are the object store;
    [rng] is the state of the [random] module. *)
Record Game := MkGame {
  state : GameState;
  game_width : Z;
  game_height : Z;
  sprites : SpriteGroups;
  projectile_manager : ProjectileManager;
  platform_manager : PlatformManager;
  _transition_manager : RoomTransitionManager;
  _pending_door : PyVal;
  _heroes : list (HeroType * nat);
  _enemies : list nat;
  _active_hero : option nat;
  _camera_x : Q;
  _camera_y : Q;
  _selected_hero_type : option HeroType;
  _hero_selection_made : bool;
  _dungeon_manager : option DungeonManager;
  _current_room : option Room;
  _play_time : PyVal;
  _dungeon_template : DungeonTemplate;
  minimap : Minimap;
  saveloadmanager : SaveLoadSystem;
  hero_objects : gmap nat Hero;
  enemy_objects : gmap nat Enemy;
  next_ref : nat;
  rng : Rng
}.

Definition set_state (v : GameState) (g : Game) : Game :=
  {|
     state := v; game_width := game_width g; game_height := game_height g;
     sprites := sprites g; projectile_manager := projectile_manager g;
     platform_manager := platform_manager g;
     _transition_manager := _transition_manager g; _pending_door := _pending_door g;
     _heroes := _heroes g; _enemies := _enemies g; _active_hero := _active_hero g;
     _camera_x := _camera_x g; _camera_y := _camera_y g;
     _selected_hero_type := _selected_hero_type g;
     _hero_selection_made := _hero_selection_made g;
     _dungeon_manager := _dungeon_manager g; _current_room := _current_room g;
     _play_time := _play_time g; _dungeon_template := _dungeon_template g;
     minimap := minimap g; saveloadmanager := saveloadmanager g;
     hero_objects := hero_objects g; enemy_objects := enemy_objects g;
     next_ref := next_ref g; rng := rng g
  |}.

Definition set_sprites (v : SpriteGroups) (g : Game) : Game :=
  {|
     state := state g; game_width := game_width g; game_height := game_height g;
     sprites := v; projectile_manager := projectile_manager g;
     platform_manager := platform_manager g;
     _transition_manager := _transition_manager g; _pending_door := _pending_door g;
     _heroes := _heroes g; _enemies := _enemies g; _active_hero := _active_hero g;
     _camera_x := _camera_x g; _camera_y := _camera_y g;
     _selected_hero_type := _selected_hero_type g;
     _hero_selection_made := _hero_selection_made g;
     _dungeon_manager := _dungeon_manager g; _current_room := _current_room g;
     _play_time := _play_time g; _dungeon_template := _dungeon_template g;
     minimap := minimap g; saveloadmanager := saveloadmanager g;
     hero_objects := hero_objects g; enemy_objects := enemy_objects g;
     next_ref := next_ref g; rng := rng g
  |}.

Definition set_projectile_manager (v : ProjectileManager) (g : Game) : Game :=
  {|
     state := state g; game_width := game_width g; game_height := game_height g;
     sprites := sprites g; projectile_manager := v;
     platform_manager := platform_manager g;
     _transition_manager := _transition_manager g; _pending_door := _pending_door g;
     _heroes := _heroes g; _enemies := _enemies g; _active_hero := _active_hero g;
     _camera_x := _camera_x g; _camera_y := _camera_y g;
     _selected_hero_type := _selected_hero_type g;
     _hero_selection_made := _hero_selection_made g;
     _dungeon_manager := _dungeon_manager g; _current_room := _current_room g;
     _play_time := _play_time g; _dungeon_template := _dungeon_template g;
     minimap := minimap g; saveloadmanager := saveloadmanager g;
     hero_objects := hero_objects g; enemy_objects := enemy_objects g;
     next_ref := next_ref g; rng := rng g
  |}.

Definition set_platform_manager (v : PlatformManager) (g : Game) : Game :=
  {|
     state := state g; game_width := game_width g; game_height := game_height g;
     sprites := sprites g; projectile_manager := projectile_manager g;
     platform_manager := v; _transition_manager := _transition_manager g;
     _pending_door := _pending_door g; _heroes := _heroes g; _enemies := _enemies g;
     _active_hero := _active_hero g; _camera_x := _camera_x g; _camera_y := _camera_y g;
     _selected_hero_type := _selected_hero_type g;
     _hero_selection_made := _hero_selection_made g;
     _dungeon_manager := _dungeon_manager g; _current_room := _current_room g;
     _play_time := _play_time g; _dungeon_template := _dungeon_template g;
     minimap := minimap g; saveloadmanager := saveloadmanager g;
     hero_objects := hero_objects g; enemy_objects := enemy_objects g;
     next_ref := next_ref g; rng := rng g
  |}.

Definition set_transition_manager (v : RoomTransitionManager) (g : Game) : Game :=
  {|
     state := state g; game_width := game_width g; game_height := game_height g;
     sprites := sprites g; projectile_manager := projectile_manager g;
     platform_manager := platform_manager g; _transition_manager := v;
     _pending_door := _pending_door g; _heroes := _heroes g; _enemies := _enemies g;
     _active_hero := _active_hero g; _camera_x := _camera_x g; _camera_y := _camera_y g;
     _selected_hero_type := _selected_hero_type g;
     _hero_selection_made := _hero_selection_made g;
     _dungeon_manager := _dungeon_manager g; _current_room := _current_room g;
     _play_time := _play_time g; _dungeon_template := _dungeon_template g;
     minimap := minimap g; saveloadmanager := saveloadmanager g;
     hero_objects := hero_objects g; enemy_objects := enemy_objects g;
     next_ref := next_ref g; rng := rng g
  |}.

Definition set_pending_door (v : PyVal) (g : Game) : Game :=
  {|
     state := state g; game_width := game_width g; game_height := game_height g;
     sprites := sprites g; projectile_manager := projectile_manager g;
     platform_manager := platform_manager g;
     _transition_manager := _transition_manager g; _pending_door := v;
     _heroes := _heroes g; _enemies := _enemies g; _active_hero := _active_hero g;
     _camera_x := _camera_x g; _camera_y := _camera_y g;
     _selected_hero_type := _selected_hero_type g;
     _hero_selection_made := _hero_selection_made g;
     _dungeon_manager := _dungeon_manager g; _current_room := _current_room g;
     _play_time := _play_time g; _dungeon_template := _dungeon_template g;
     minimap := minimap g; saveloadmanager := saveloadmanager g;
     hero_objects := hero_objects g; enemy_objects := enemy_objects g;
     next_ref := next_ref g; rng := rng g
  |}.

Definition set_heroes (v : list (HeroType * nat)) (g : Game) : Game :=
  {|
     state := state g; game_width := game_width g; game_height := game_height g;
     sprites := sprites g; projectile_manager := projectile_manager g;
     platform_manager := platform_manager g;
     _transition_manager := _transition_manager g; _pending_door := _pending_door g;
     _heroes := v; _enemies := _enemies g; _active_hero := _active_hero g;
     _camera_x := _camera_x g; _camera_y := _camera_y g;
     _selected_hero_type := _selected_hero_type g;
     _hero_selection_made := _hero_selection_made g;
     _dungeon_manager := _dungeon_manager g; _current_room := _current_room g;
     _play_time := _play_time g; _dungeon_template := _dungeon_template g;
     minimap := minimap g; saveloadmanager := saveloadmanager g;
     hero_objects := hero_objects g; enemy_objects := enemy_objects g;
     next_ref := next_ref g; rng := rng g
  |}.

Definition set_enemies (v : list nat) (g : Game) : Game :=
  {|
     state := state g; game_width := game_width g; game_height := game_height g;
     sprites := sprites g; projectile_manager := projectile_manager g;
     platform_manager := platform_manager g;
     _transition_manager := _transition_manager g; _pending_door := _pending_door g;
     _heroes := _heroes g; _enemies := v; _active_hero := _active_hero g;
     _camera_x := _camera_x g; _camera_y := _camera_y g;
     _selected_hero_type := _selected_hero_type g;
     _hero_selection_made := _hero_selection_made g;
     _dungeon_manager := _dungeon_manager g; _current_room := _current_room g;
     _play_time := _play_time g; _dungeon_template := _dungeon_template g;
     minimap := minimap g; saveloadmanager := saveloadmanager g;
     hero_objects := hero_objects g; enemy_objects := enemy_objects g;
     next_ref := next_ref g; rng := rng g
  |}.

Definition set_active_hero (v : option nat) (g : Game) : Game :=
  {|
     state := state g; game_width := game_width g; game_height := game_height g;
     sprites := sprites g; projectile_manager := projectile_manager g;
     platform_manager := platform_manager g;
     _transition_manager := _transition_manager g; _pending_door := _pending_door g;
     _heroes := _heroes g; _enemies := _enemies g; _active_hero := v;
     _camera_x := _camera_x g; _camera_y := _camera_y g;
     _selected_hero_type := _selected_hero_type g;
     _hero_selection_made := _hero_selection_made g;
     _dungeon_manager := _dungeon_manager g; _current_room := _current_room g;
     _play_time := _play_time g; _dungeon_template := _dungeon_template g;
     minimap := minimap g; saveloadmanager := saveloadmanager g;
     hero_objects := hero_objects g; enemy_objects := enemy_objects g;
     next_ref := next_ref g; rng := rng g
  |}.

Definition set_camera_x (v : Q) (g : Game) : Game :=
  {|
     state := state g; game_width := game_width g; game_height := game_height g;
     sprites := sprites g; projectile_manager := projectile_manager g;
     platform_manager := platform_manager g;
     _transition_manager := _transition_manager g; _pending_door := _pending_door g;
     _heroes := _heroes g; _enemies := _enemies g; _active_hero := _active_hero g;
     _camera_x := v; _camera_y := _camera_y g;
     _selected_hero_type := _selected_hero_type g;
     _hero_selection_made := _hero_selection_made g;
     _dungeon_manager := _dungeon_manager g; _current_room := _current_room g;
     _play_time := _play_time g; _dungeon_template := _dungeon_template g;
     minimap := minimap g; saveloadmanager := saveloadmanager g;
     hero_objects := hero_objects g; enemy_objects := enemy_objects g;
     next_ref := next_ref g; rng := rng g
  |}.

Definition set_camera_y (v : Q) (g : Game) : Game :=
  {|
     state := state g; game_width := game_width g; game_height := game_height g;
     sprites := sprites g; projectile_manager := projectile_manager g;
     platform_manager := platform_manager g;
     _transition_manager := _transition_manager g; _pending_door := _pending_door g;
     _heroes := _heroes g; _enemies := _enemies g; _active_hero := _active_hero g;
     _camera_x := _camera_x g; _camera_y := v;
     _selected_hero_type := _selected_hero_type g;
     _hero_selection_made := _hero_selection_made g;
     _dungeon_manager := _dungeon_manager g; _current_room := _current_room g;
     _play_time := _play_time g; _dungeon_template := _dungeon_template g;
     minimap := minimap g; saveloadmanager := saveloadmanager g;
     hero_objects := hero_objects g; enemy_objects := enemy_objects g;
     next_ref := next_ref g; rng := rng g
  |}.

Definition set_selected_hero_type (v : option HeroType) (g : Game) : Game :=
  {|
     state := state g; game_width := game_width g; game_height := game_height g;
     sprites := sprites g; projectile_manager := projectile_manager g;
     platform_manager := platform_manager g;
     _transition_manager := _transition_manager g; _pending_door := _pending_door g;
     _heroes := _heroes g; _enemies := _enemies g; _active_hero := _active_hero g;
     _camera_x := _camera_x g; _camera_y := _camera_y g; _selected_hero_type := v;
     _hero_selection_made := _hero_selection_made g;
     _dungeon_manager := _dungeon_manager g; _current_room := _current_room g;
     _play_time := _play_time g; _dungeon_template := _dungeon_template g;
     minimap := minimap g; saveloadmanager := saveloadmanager g;
     hero_objects := hero_objects g; enemy_objects := enemy_objects g;
     next_ref := next_ref g; rng := rng g
  |}.

Definition set_hero_selection_made (v : bool) (g : Game) : Game :=
  {|
     state := state g; game_width := game_width g; game_height := game_height g;
     sprites := sprites g; projectile_manager := projectile_manager g;
     platform_manager := platform_manager g;
     _transition_manager := _transition_manager g; _pending_door := _pending_door g;
     _heroes := _heroes g; _enemies := _enemies g; _active_hero := _active_hero g;
     _camera_x := _camera_x g; _camera_y := _camera_y g;
     _selected_hero_type := _selected_hero_type g; _hero_selection_made := v;
     _dungeon_manager := _dungeon_manager g; _current_room := _current_room g;
     _play_time := _play_time g; _dungeon_template := _dungeon_template g;
     minimap := minimap g; saveloadmanager := saveloadmanager g;
     hero_objects := hero_objects g; enemy_objects := enemy_objects g;
     next_ref := next_ref g; rng := rng g
  |}.

Definition set_dungeon_manager (v : option DungeonManager) (g : Game) : Game :=
  {|
     state := state g; game_width := game_width g; game_height := game_height g;
     sprites := sprites g; projectile_manager := projectile_manager g;
     platform_manager := platform_manager g;
     _transition_manager := _transition_manager g; _pending_door := _pending_door g;
     _heroes := _heroes g; _enemies := _enemies g; _active_hero := _active_hero g;
     _camera_x := _camera_x g; _camera_y := _camera_y g;
     _selected_hero_type := _selected_hero_type g;
     _hero_selection_made := _hero_selection_made g; _dungeon_manager := v;
     _current_room := _current_room g; _play_time := _play_time g;
     _dungeon_template := _dungeon_template g; minimap := minimap g;
     saveloadmanager := saveloadmanager g; hero_objects := hero_objects g;
     enemy_objects := enemy_objects g; next_ref := next_ref g; rng := rng g
  |}.

Definition set_current_room (v : option Room) (g : Game) : Game :=
  {|
     state := state g; game_width := game_width g; game_height := game_height g;
     sprites := sprites g; projectile_manager := projectile_manager g;
     platform_manager := platform_manager g;
     _transition_manager := _transition_manager g; _pending_door := _pending_door g;
     _heroes := _heroes g; _enemies := _enemies g; _active_hero := _active_hero g;
     _camera_x := _camera_x g; _camera_y := _camera_y g;
     _selected_hero_type := _selected_hero_type g;
     _hero_selection_made := _hero_selection_made g;
     _dungeon_manager := _dungeon_manager g; _current_room := v;
     _play_time := _play_time g; _dungeon_template := _dungeon_template g;
     minimap := minimap g; saveloadmanager := saveloadmanager g;
     hero_objects := hero_objects g; enemy_objects := enemy_objects g;
     next_ref := next_ref g; rng := rng g
  |}.

Definition set_play_time (v : PyVal) (g : Game) : Game :=
  {|
     state := state g; game_width := game_width g; game_height := game_height g;
     sprites := sprites g; projectile_manager := projectile_manager g;
     platform_manager := platform_manager g;
     _transition_manager := _transition_manager g; _pending_door := _pending_door g;
     _heroes := _heroes g; _enemies := _enemies g; _active_hero := _active_hero g;
     _camera_x := _camera_x g; _camera_y := _camera_y g;
     _selected_hero_type := _selected_hero_type g;
     _hero_selection_made := _hero_selection_made g;
     _dungeon_manager := _dungeon_manager g; _current_room := _current_room g;
     _play_time := v; _dungeon_template := _dungeon_template g; minimap := minimap g;
     saveloadmanager := saveloadmanager g; hero_objects := hero_objects g;
     enemy_objects := enemy_objects g; next_ref := next_ref g; rng := rng g
  |}.

Definition set_dungeon_template (v : DungeonTemplate) (g : Game) : Game :=
  {|
     state := state g; game_width := game_width g; game_height := game_height g;
     sprites := sprites g; projectile_manager := projectile_manager g;
     platform_manager := platform_manager g;
     _transition_manager := _transition_manager g; _pending_door := _pending_door g;
     _heroes := _heroes g; _enemies := _enemies g; _active_hero := _active_hero g;
     _camera_x := _camera_x g; _camera_y := _camera_y g;
     _selected_hero_type := _selected_hero_type g;
     _hero_selection_made := _hero_selection_made g;
     _dungeon_manager := _dungeon_manager g; _current_room := _current_room g;
     _play_time := _play_time g; _dungeon_template := v; minimap := minimap g;
     saveloadmanager := saveloadmanager g; hero_objects := hero_objects g;
     enemy_objects := enemy_objects g; next_ref := next_ref g; rng := rng g
  |}.

Definition set_minimap (v : Minimap) (g : Game) : Game :=
  {|
     state := state g; game_width := game_width g; game_height := game_height g;
     sprites := sprites g; projectile_manager := projectile_manager g;
     platform_manager := platform_manager g;
     _transition_manager := _transition_manager g; _pending_door := _pending_door g;
     _heroes := _heroes g; _enemies := _enemies g; _active_hero := _active_hero g;
     _camera_x := _camera_x g; _camera_y := _camera_y g;
     _selected_hero_type := _selected_hero_type g;
     _hero_selection_made := _hero_selection_made g;
     _dungeon_manager := _dungeon_manager g; _current_room := _current_room g;
     _play_time := _play_time g; _dungeon_template := _dungeon_template g; minimap := v;
     saveloadmanager := saveloadmanager g; hero_objects := hero_objects g;
     enemy_objects := enemy_objects g; next_ref := next_ref g; rng := rng g
  |}.

Definition set_saveloadmanager (v : SaveLoadSystem) (g : Game) : Game :=
  {|
     state := state g; game_width := game_width g; game_height := game_height g;
     sprites := sprites g; projectile_manager := projectile_manager g;
     platform_manager := platform_manager g;
     _transition_manager := _transition_manager g; _pending_door := _pending_door g;
     _heroes := _heroes g; _enemies := _enemies g; _active_hero := _active_hero g;
     _camera_x := _camera_x g; _camera_y := _camera_y g;
     _selected_hero_type := _selected_hero_type g;
     _hero_selection_made := _hero_selection_made g;
     _dungeon_manager := _dungeon_manager g; _current_room := _current_room g;
     _play_time := _play_time g; _dungeon_template := _dungeon_template g;
     minimap := minimap g; saveloadmanager := v; hero_objects := hero_objects g;
     enemy_objects := enemy_objects g; next_ref := next_ref g; rng := rng g
  |}.

Definition set_hero_objects (v : gmap nat Hero) (g : Game) : Game :=
  {|
     state := state g; game_width := game_width g; game_height := game_height g;
     sprites := sprites g; projectile_manager := projectile_manager g;
     platform_manager := platform_manager g;
     _transition_manager := _transition_manager g; _pending_door := _pending_door g;
     _heroes := _heroes g; _enemies := _enemies g; _active_hero := _active_hero g;
     _camera_x := _camera_x g; _camera_y := _camera_y g;
     _selected_hero_type := _selected_hero_type g;
     _hero_selection_made := _hero_selection_made g;
     _dungeon_manager := _dungeon_manager g; _current_room := _current_room g;
     _play_time := _play_time g; _dungeon_template := _dungeon_template g;
     minimap := minimap g; saveloadmanager := saveloadmanager g; hero_objects := v;
     enemy_objects := enemy_objects g; next_ref := next_ref g; rng := rng g
  |}.

Definition set_enemy_objects (v : gmap nat Enemy) (g : Game) : Game :=
  {|
     state := state g; game_width := game_width g; game_height := game_height g;
     sprites := sprites g; projectile_manager := projectile_manager g;
     platform_manager := platform_manager g;
     _transition_manager := _transition_manager g; _pending_door := _pending_door g;
     _heroes := _heroes g; _enemies := _enemies g; _active_hero := _active_hero g;
     _camera_x := _camera_x g; _camera_y := _camera_y g;
     _selected_hero_type := _selected_hero_type g;
     _hero_selection_made := _hero_selection_made g;
     _dungeon_manager := _dungeon_manager g; _current_room := _current_room g;
     _play_time := _play_time g; _dungeon_template := _dungeon_template g;
     minimap := minimap g; saveloadmanager := saveloadmanager g;
     hero_objects := hero_objects g; enemy_objects := v; next_ref := next_ref g;
     rng := rng g
  |}.

Definition set_next_ref (v : nat) (g : Game) : Game :=
  {|
     state := state g; game_width := game_width g; game_height := game_height g;
     sprites := sprites g; projectile_manager := projectile_manager g;
     platform_manager := platform_manager g;
     _transition_manager := _transition_manager g; _pending_door := _pending_door g;
     _heroes := _heroes g; _enemies := _enemies g; _active_hero := _active_hero g;
     _camera_x := _camera_x g; _camera_y := _camera_y g;
     _selected_hero_type := _selected_hero_type g;
     _hero_selection_made := _hero_selection_made g;
     _dungeon_manager := _dungeon_manager g; _current_room := _current_room g;
     _play_time := _play_time g; _dungeon_template := _dungeon_template g;
     minimap := minimap g; saveloadmanager := saveloadmanager g;
     hero_objects := hero_objects g; enemy_objects := enemy_objects g; next_ref := v;
     rng := rng g
  |}.

Definition set_rng (v : Rng) (g : Game) : Game :=
  {|
     state := state g; game_width := game_width g; game_height := game_height g;
     sprites := sprites g; projectile_manager := projectile_manager g;
     platform_manager := platform_manager g;
     _transition_manager := _transition_manager g; _pending_door := _pending_door g;
     _heroes := _heroes g; _enemies := _enemies g; _active_hero := _active_hero g;
     _camera_x := _camera_x g; _camera_y := _camera_y g;
     _selected_hero_type := _selected_hero_type g;
     _hero_selection_made := _hero_selection_made g;
     _dungeon_manager := _dungeon_manager g; _current_room := _current_room g;
     _play_time := _play_time g; _dungeon_template := _dungeon_template g;
     minimap := minimap g; saveloadmanager := saveloadmanager g;
     hero_objects := hero_objects g; enemy_objects := enemy_objects g;
     next_ref := next_ref g; rng := v
  |}.

(** ** Computations that may raise *)

Definition M (A : Type) : Type := Game -> outcome A * Game.

Definition ret {A} (a : A) : M A := fun g => (Returns a, g).

Definition raise {A} (e : exn) : M A := fun g => (Raises e, g).

Definition bind {A B} (m : M A) (k : A -> M B) : M B :=
  fun g =>
    match m g with
    | (Returns a, g') => k a g'
    | (Raises e, g') => (Raises e, g')
    | (Dangling, g') => (Dangling, g')
    end.

Definition get : M Game := fun g => (Returns g, g).

Definition modify (f : Game -> Game) : M unit := fun g => (Returns tt, f g).

(** The result of a collaborator or of a pure helper, as a computation. *)
Definition lift {A} (r : result A) : M A := fun g => (of_result r, g).

(** [try: m except Exception as e: h e] *)
Definition try_except {A} (m : M A) (h : exn -> M A) : M A :=
  fun g =>
    match m g with
    | (Returns a, g') => (Returns a, g')
    | (Raises e, g') => h e g'
    | (Dangling, g') => (Dangling, g')
    end.

(** [if c: m] *)
Definition when (c : bool) (m : M unit) : M unit := if c then m else ret tt.


Notation "'let*' x ':=' m 'in' k" := (bind m (fun x => k))
  (at level 10, x name, m at level 100, k at level 200).
Notation "'let*' ' p ':=' m 'in' k" := (bind m (fun x => match x with p => k end))
  (at level 10, p pattern, m at level 100, k at level 200).

(** [for v in l: body v] *)
Fixpoint for_each {A} (l : list A) (body : A -> M unit) : M unit :=
  match l with
  | [] => ret tt
  | v :: rest => let* _ := body v in for_each rest body
  end.

(** Collects the results of [f] over [l], left to right. *)
Fixpoint map_M {A B} (f : A -> M B) (l : list A) : M (list B) :=
  match l with
  | [] => ret []
  | v :: rest => let* b := f v in let* bs := map_M f rest in ret (b :: bs)
  end.

(** ** The object store *)

Definition get_hero (r : nat) : M Hero :=
  fun g =>
    match hero_objects g !! r with
    | Some h => (Returns h, g)
    | None => (Dangling, g)
    end.

Definition put_hero (r : nat) (h : Hero) : M unit :=
  modify (fun g => set_hero_objects (<[r := h]> (hero_objects g)) g).

Definition modify_hero (r : nat) (f : Hero -> Hero) : M unit :=
  let* h := get_hero r in put_hero r (f h).

Definition get_enemy (r : nat) : M Enemy :=
  fun g =>
    match enemy_objects g !! r with
    | Some e => (Returns e, g)
    | None => (Dangling, g)
    end.

Definition put_enemy (r : nat) (e : Enemy) : M unit :=
  modify (fun g => set_enemy_objects (<[r := e]> (enemy_objects g)) g).

Definition new_hero (h : Hero) : M nat :=
  fun g =>
    let r := next_ref g in
    (Returns r, set_next_ref (S r) (set_hero_objects (<[r := h]> (hero_objects g)) g)).

Definition new_enemy (e : Enemy) : M nat :=
  fun g =>
    let r := next_ref g in
    (Returns r, set_next_ref (S r) (set_enemy_objects (<[r := e]> (enemy_objects g)) g)).

(** [self._dungeon_manager.<method>]: AttributeError on [None]. *)
Definition the_dungeon_manager : M DungeonManager :=
  fun g =>
    match _dungeon_manager g with
    | Some dm => (Returns dm, g)
    | None => (Raises (AttributeError "'NoneType' object has no attribute"), g)
    end.

(** [d[k] = v] on an insertion-ordered dict. *)
Fixpoint dict_set {V} (k : HeroType) (v : V) (d : list (HeroType * V)) : list (HeroType * V) :=
  match d with
  | [] => [(k, v)]
  | (k', v') :: rest =>
      if bool_decide (k' = k) then (k, v) :: rest else (k', v') :: dict_set k v rest
  end.

(** [random.randint(a, b)] on the generator of the [random] module. *)
Definition random_randint (a b : Z) : M Z :=
  fun g => let '(r, s) := randint a b (rng g) in (of_result r, set_rng s g).

(** ** Hero selection and creation *)

(** [set_game_state]: its [isinstance] guard cannot fail on a [GameState]. *)
Definition set_game_state (new_state : GameState) : M unit :=
  modify (set_state new_state).

Definition _initialize_hero (hero : nat) : M unit :=
  modify (fun g =>
    set_sprites
      (set_damageable_sprites (group_add (HeroRef hero) (damageable_sprites (sprites g)))
      (set_midground_sprites (group_add (HeroRef hero) (midground_sprites (sprites g)))
      (set_hero_sprites (group_add (HeroRef hero) (hero_sprites (sprites g)))
      (set_all_sprites (group_add (HeroRef hero) (all_sprites (sprites g))) (sprites g)))))
      g).

Definition _create_hero (hero_type x y : PyVal) : M (option nat) :=
  match as_HeroType hero_type with
  | None => raise (ValueError "Invalid hero type")
  | Some t =>
      if negb (is_number x) || negb (is_number y)
      then raise (ValueError "Invalid position coordinates")
      else
        let* hero :=
          match t with
          | KNIGHT => new_hero (Knight x y)
          | ARCHER => new_hero (hero_set_has_projectile_manager true (Archer x y))
          | CLERIC => new_hero (hero_set_has_projectile_manager true (Cleric x y))
          end in
        let* _ := _initialize_hero hero in
        ret (Some hero)
  end.

Definition cleanup : M unit :=
  modify (fun g =>
    set_minimap (clear_all_rooms (minimap g))
      (set_sprites no_sprites (set_enemies [] (set_heroes [] g)))).

(** The two loops of the source only [pass]. *)
Definition _setup_door_requirements : M unit := ret tt.

Definition _initialize_dungeon : M unit :=
  let* g := get in
  match _selected_hero_type g with
  | None => raise (ValueError "Hero must be selected before initializing dungeon")
  | Some _ =>
      let* dm := lift (DungeonManager_new (3, 3)
                         "assets/levels/flat-tileset.csv"
                         "assets/environment/old-dark-castle-interior-tileset.png"
                         (_dungeon_template g)) in
      let* _ := modify (set_dungeon_manager (Some dm)) in
      let* _ := modify (set_current_room (get_current_room dm)) in
      match get_current_room dm with
      | None => raise (RuntimeError "Failed to initialize dungeon room")
      | Some _ =>
          let* _ := modify (fun g => set_minimap (sync_with_dungeon_manager (minimap g) dm) g) in
          _setup_door_requirements
      end
  end.

Definition selected_hero_type_value (g : Game) : PyVal :=
  match _selected_hero_type g with
  | Some t => of_HeroType t
  | None => PNone
  end.

Definition _initialize_game : M unit :=
  let* _ := cleanup in
  let* _ := _initialize_dungeon in
  let* g := get in
  match _current_room g with
  | None => ret tt
  | Some room =>
      let* hero := _create_hero (selected_hero_type_value g) (PInt 0) (PInt 0) in
      match hero, _selected_hero_type g with
      | Some r, Some t =>
          let* dm := the_dungeon_manager in
          let* h := get_hero r in
          let '(start_x, start_y) :=
            get_player_spawn_position_for_current_room dm (width h) (height h) in
          let* _ := modify_hero r (hero_set_x start_x) in
          let* _ := modify_hero r (hero_set_y start_y) in
          let* _ := modify_hero r (hero_set_ground_y (floor_y room - height h)) in
          let* _ := modify (fun g => set_heroes (dict_set t r (_heroes g)) g) in
          modify (set_active_hero (Some r))
      | _, _ => ret tt
      end
  end.

Definition select_hero (hero_type : PyVal) : M unit :=
  match as_HeroType hero_type with
  | None => raise (ValueError "Invalid hero type")
  | Some t =>
      let* _ := modify (set_selected_hero_type (Some t)) in
      let* _ := modify (set_hero_selection_made true) in
      let* _ := set_game_state PLAYING in
      _initialize_game
  end.

(** ** Room transitions *)

Definition _start_room_transition (door : PyVal) : M unit :=
  let* g := get in
  if is_transitioning (_transition_manager g) then ret tt
  else
    let* _ := modify (set_pending_door door) in
    modify (fun g =>
      set_transition_manager (start_transition (_transition_manager g) FADE (8 # 10)) g).

Definition _reposition_hero_after_door_traversal : M unit :=
  let* g := get in
  match _active_hero g, _current_room g with
  | Some r, Some room =>
      let* dm := the_dungeon_manager in
      let* h := get_hero r in
      let '(spawn_x, spawn_y) :=
        get_player_spawn_position_for_current_room dm (width h) (height h) in
      let* _ := modify_hero r (hero_set_x spawn_x) in
      let* _ := modify_hero r (hero_set_y spawn_y) in
      modify_hero r (hero_set_ground_y (floor_y room - height h))
  | _, _ => ret tt
  end.

(** The body only prints. *)
Definition _handle_boss_room_entry : M unit := ret tt.

(** The loop body of the regular-enemy branch: the position is drawn and
    computed, the lines that would create and append the enemy are commented
    out in the source. *)
Fixpoint spawn_regular_enemies (num_enemies : nat) (room : Room) : M unit :=
  match num_enemies with
  | O => ret tt
  | S n =>
      let* enemy_x := random_randint 100 (room_width room - 100) in
      let enemy_y := floor_y room - 60 in
      spawn_regular_enemies n room
  end.

Definition _spawn_room_enemies : M unit :=
  let* g := get in
  match _current_room g with
  | None => ret tt
  | Some room =>
      let* _ := modify (set_enemies []) in
      let* _ := modify (fun g => set_sprites (set_enemy_sprites [] (sprites g)) g) in
      if is_boss_room room then
        let* boss := new_enemy (DemonBoss (room_width room / 2) (floor_y room - 100)) in
        let* _ := modify (fun g => set_enemies (_enemies g ++ [boss]) g) in
        let* _ := modify (fun g =>
          set_sprites (set_enemy_sprites
                         (group_add (EnemyRef boss) (enemy_sprites (sprites g))) (sprites g)) g) in
        modify (fun g =>
          set_sprites (set_all_sprites
                         (group_add (EnemyRef boss) (all_sprites (sprites g))) (sprites g)) g)
      else if negb (is_start_room room) then
        let* num_enemies := random_randint 1 3 in
        spawn_regular_enemies (Z.to_nat num_enemies) room
      else ret tt
  end.

Definition _handle_room_change : M unit :=
  let* _ := modify (set_projectile_manager {| projectiles := [] |}) in
  let* _ := _spawn_room_enemies in
  let* g := get in
  match _current_room g with
  | None => raise (AttributeError "'NoneType' object has no attribute 'is_boss_room'")
  | Some room => when (is_boss_room room) _handle_boss_room_entry
  end.

Definition _complete_room_transition : M unit :=
  let* dm := the_dungeon_manager in
  let* _ := modify (set_current_room (get_current_room dm)) in
  let* _ := _reposition_hero_after_door_traversal in
  let* g := get in
  let* _ :=
    match _active_hero g, _current_room g with
    | Some r, Some room =>
        let* h := get_hero r in
        let target_camera_x := x h - game_width g / 2 in
        let target_camera_y := y h - game_height g / 2 in
        let max_camera_x := Z.max 0 (room_width room - game_width g) in
        let max_camera_y := Z.max 0 (room_height room - game_height g) in
        let* _ := modify (set_camera_x
                            (inject_Z (Z.max 0 (Z.min target_camera_x max_camera_x)))) in
        modify (set_camera_y (inject_Z (Z.max 0 (Z.min target_camera_y max_camera_y))))
    | _, _ => ret tt
    end in
  let* _ := _handle_room_change in
  let* dm := the_dungeon_manager in
  let* _ := modify (fun g => set_minimap (update_player_position (minimap g) dm) g) in
  modify (set_pending_door PNone).

(** [self._transition_manager.update(dt)]: the manager invokes the callback
    it was started with, [_complete_room_transition], from inside its own
    update. *)
Definition transition_manager_update (dt : Q) : M unit :=
  let* g := get in
  match transition_update (_transition_manager g) dt with
  | Quiet after => modify (set_transition_manager after)
  | Fired at_callback after =>
      let* _ := modify (set_transition_manager at_callback) in
      let* _ := _complete_room_transition in
      modify (set_transition_manager after)
  end.

(** ** Door traversal *)

(** The feet-level box that [_check_door_traversal] computes from the active
    hero ([hero_x], [hero_y], [hero_width], [hero_height] in the source). *)
Definition door_hitbox (h : Hero) : Rect :=
  {| rect_x := x h + width h / 4;
     rect_y := y h + height h - 16;
     rect_w := width h / 2;
     rect_h := 16 |}.

(** [pressed] is what [pygame.key.get_pressed()] reports when called. *)
Definition _check_door_traversal (prev_x prev_y : Z) (pressed : Key -> bool) : M unit :=
  let* g := get in
  match _current_room g, _active_hero g with
  | Some _, Some r =>
      let* h := get_hero r in
      let hero_x := rect_x (door_hitbox h) in
      let hero_y := rect_y (door_hitbox h) in
      let hero_width := rect_w (door_hitbox h) in
      let hero_height := rect_h (door_hitbox h) in
      let* dm := the_dungeon_manager in
      let* _ := modify (set_dungeon_manager
                  (Some (update_current_room_interactions dm
                           hero_x hero_y hero_width hero_height))) in
      let* dm := the_dungeon_manager in
      let '(entered, dm') := try_enter_walkthrough_door dm hero_x hero_y in
      let* _ := modify (set_dungeon_manager (Some dm')) in
      if entered then _start_room_transition PNone
      else if pressed K_e then
        let '(entered, dm'') := try_enter_interactive_door dm' hero_x hero_y true in
        let* _ := modify (set_dungeon_manager (Some dm'')) in
        when entered (_start_room_transition PNone)
      else ret tt
  | _, _ => ret tt
  end.

Definition _check_pillar_collection : M unit :=
  let* g := get in
  match _current_room g, _active_hero g with
  | Some _, Some r =>
      let* h := get_hero r in
      let* dm := the_dungeon_manager in
      modify (set_dungeon_manager
                (Some (check_pillar_collection dm (x h) (y h) (width h) (height h))))
  | _, _ => ret tt
  end.

(** ** Room bounds *)

Definition _enforce_room_bounds : M unit :=
  let* g := get in
  match _active_hero g, _current_room g with
  | Some r, Some room =>
      let* h := get_hero r in
      let* _ := when (x h <? 0) (modify_hero r (hero_set_x 0)) in
      let* h := get_hero r in
      let* _ := when (room_width room <? x h + width h)
                  (modify_hero r (hero_set_x (room_width room - width h))) in
      let* h := get_hero r in
      when (floor_y room <? y h + height h)
        (modify_hero r (hero_set_y (floor_y room - height h)))
  | _, _ => ret tt
  end.

(** ** The per-frame steps *)

(** Runs a hero method that may also touch the projectile manager. *)
Definition hero_call (r : nat)
    (method : Hero -> ProjectileManager -> Hero * ProjectileManager) : M unit :=
  let* h := get_hero r in
  let* g := get in
  let '(h', pm) := method h (projectile_manager g) in
  let* _ := put_hero r h' in
  modify (set_projectile_manager pm).

(** [sprite.update(dt)] *)
Definition update_sprite (dt : Q) (s : SpriteRef) : M unit :=
  match s with
  | HeroRef r => hero_call r (fun h => hero_update h dt)
  | EnemyRef r => let* e := get_enemy r in put_enemy r (enemy_update e dt)
  end.

(** [self.all_sprites.update(dt)] *)
Definition all_sprites_update (dt : Q) : M unit :=
  let* g := get in
  for_each (all_sprites (sprites g)) (update_sprite dt).

(** Truth value of a [pygame.Rect]: both sides are non-zero. *)
Definition rect_truthy (r : Rect) : bool :=
  negb (rect_w r =? 0) && negb (rect_h r =? 0).

(** The inner loop of [_handle_hero_enemy_collisions] for one sprite of
    [enemy_sprites]; only enemies are ever added to that group. *)
Definition strike (hero : nat) (attack_hitbox : Rect) (s : SpriteRef) : M unit :=
  match s with
  | HeroRef _ => ret tt
  | EnemyRef er =>
      let* enemy := get_enemy er in
      let* h := get_hero hero in
      if negb (enemy_is_alive enemy) || bool_decide (er ∈ hit_targets h) then ret tt
      else
        match enemy_hitbox enemy with
        | Some hitbox =>
            if colliderect attack_hitbox hitbox then
              let damage := calculate_damage h enemy in
              let '(hit, enemy') := take_damage enemy damage in
              let* _ := put_enemy er enemy' in
              when hit (modify_hero hero (hero_add_hit_target er))
            else ret tt
        | None => ret tt
        end
  end.

Definition _handle_hero_enemy_collisions : M unit :=
  let* g := get in
  for_each (hero_sprites (sprites g)) (fun s =>
    match s with
    | EnemyRef _ => ret tt
    | HeroRef r =>
        let* h := get_hero r in
        if negb (is_alive h) || negb (is_attacking h) then ret tt
        else
          match get_attack_hitbox h with
          | None => ret tt
          | Some attack_hitbox =>
              if negb (rect_truthy attack_hitbox) then ret tt
              else
                let* g := get in
                for_each (enemy_sprites (sprites g)) (strike r attack_hitbox)
          end
    end).

Definition _handle_projectile_collisions : M unit :=
  let* g := get in
  let* enemies := map_M get_enemy (_enemies g) in
  let '(pm, enemies') := projectiles_check_collisions (projectile_manager g) enemies in
  let* _ := modify (set_projectile_manager pm) in
  for_each (combine (_enemies g) enemies') (fun '(r, e) => put_enemy r e).

Definition _handle_platform_collisions : M unit :=
  let* g := get in
  for_each (hero_sprites (sprites g)) (fun s =>
    match s with
    | EnemyRef _ => ret tt
    | HeroRef r =>
        let* h := get_hero r in
        let* g := get in
        let '(platforms, h') := platforms_check_collisions (platform_manager g) h in
        let* _ := modify (set_platform_manager platforms) in
        put_hero r h'
    end).

Definition _handle_hero_floor_collision : M unit :=
  let* g := get in
  match _current_room g with
  | None => ret tt
  | Some room =>
      for_each (map snd (_heroes g)) (fun r =>
        let* h := get_hero r in
        if is_alive h then
          if floor_y room <? y h + height h then
            let* _ := modify_hero r (hero_set_y (floor_y room - height h)) in
            match velocity_y h with
            | Some _ => modify_hero r (hero_set_velocity_y (Some 0))
            | None => ret tt
            end
          else ret tt
        else ret tt)
  end.

Definition _handle_collisions : M unit :=
  let* _ := _handle_hero_enemy_collisions in
  let* _ := _handle_projectile_collisions in
  let* _ := _handle_platform_collisions in
  _handle_hero_floor_collision.

Definition _update_game_objects (dt : Q) : M unit :=
  let* g := get in
  let* _ := for_each (map snd (_heroes g)) (fun r => update_sprite dt (HeroRef r)) in
  let* g := get in
  let* _ := for_each (_enemies g) (fun er =>
    let* e := get_enemy er in
    let* g := get in
    match _active_hero g with
    | Some hr =>
        if enemy_is_alive e then
          let* _ := put_enemy er (enemy_update e dt) in
          let* h := get_hero hr in
          let* e := get_enemy er in
          let* _ := put_enemy er (move_towards_target e (x h) (y h) dt) in
          let* e := get_enemy er in
          let '(e', h') := enemy_attack e h in
          let* _ := put_enemy er e' in
          put_hero hr h'
        else ret tt
    | None => ret tt
    end) in
  let* _ := modify (fun g =>
    set_projectile_manager (projectiles_update (projectile_manager g) dt) g) in
  modify (fun g => set_platform_manager (platforms_update (platform_manager g) dt) g).

(** [max(a, b)] and [min(a, b)] of Python on rationals: the first argument
    wins a tie. *)
Definition py_max (a b : Q) : Q := if Qle_bool b a then a else b.
Definition py_min (a b : Q) : Q := if Qle_bool a b then a else b.

Definition _update_camera : M unit :=
  let* g := get in
  match _active_hero g, _current_room g with
  | Some r, Some room =>
      let* h := get_hero r in
      let target_x := inject_Z (x h - game_width g / 2) in
      let target_y := inject_Z (y h - game_height g / 2) in
      let new_x := (_camera_x g + (target_x - _camera_x g) * (1 # 10))%Q in
      let new_y := (_camera_y g + (target_y - _camera_y g) * (1 # 10))%Q in
      let max_x := inject_Z (Z.max 0 (room_width room - game_width g)) in
      let max_y := inject_Z (Z.max 0 (room_height room - game_height g)) in
      let* _ := modify (set_camera_x (py_max 0 (py_min new_x max_x))) in
      modify (set_camera_y (py_max 0 (py_min new_y max_y)))
  | _, _ => ret tt
  end.

(** ** Win and loss *)

Definition _check_game_state : M unit :=
  let* g := get in
  let* heroes := map_M get_hero (map snd (_heroes g)) in
  if forallb (fun hero => negb (is_alive hero)) heroes then set_game_state GAME_OVER
  else
    match _enemies g with
    | [] => ret tt
    | _ :: _ =>
        let* enemies := map_M get_enemy (_enemies g) in
        if forallb (fun enemy => negb (enemy_is_alive enemy)) enemies
        then set_game_state VICTORY
        else ret tt
    end.

(** ** The update tick *)

(** The block of [update] under [if self._active_hero and
    self._active_hero.is_alive]. *)
Definition hero_turn (keys pressed : Key -> bool) : M unit :=
  let* g := get in
  match _active_hero g with
  | None => ret tt
  | Some r =>
      let* h := get_hero r in
      if is_alive h then
        let prev_x := x h in
        let prev_y := y h in
        let* _ := when (keys K_SPACE && Qle_bool (attack_cooldown_remaining h) 0)
                    (hero_call r activate_attack) in
        let* h := get_hero r in
        let* _ := when (keys K_q && Qle_bool (special_cooldown_remaining h) 0)
                    (hero_call r activate_special_ability) in
        let* _ := hero_call r (fun h => handle_input h keys false) in
        let* _ := _check_door_traversal prev_x prev_y pressed in
        _check_pillar_collection
      else ret tt
  end.

(** The block of [update] under [if not
    self._transition_manager.is_transitioning]. *)
Definition gameplay (dt : Q) (keys pressed : Key -> bool) : M unit :=
  let* _ := hero_turn keys pressed in
  let* _ := all_sprites_update dt in
  let* _ := _handle_collisions in
  let* _ := _update_game_objects dt in
  let* _ := _update_camera in
  let* _ := _check_game_state in
  let* dm := the_dungeon_manager in
  modify (set_dungeon_manager (Some (update_pillars dm dt))).

Definition update (dt : Q) (keys pressed : Key -> bool) : M unit :=
  let* g := get in
  if negb (bool_decide (state g = PLAYING)) then ret tt
  else
    let* _ := transition_manager_update dt in
    let* _ := _enforce_room_bounds in
    let* g := get in
    if negb (is_transitioning (_transition_manager g)) then gameplay dt keys pressed
    else ret tt.

(** ** Saving and loading *)

(** [d[k]] *)
Definition dict_getitem (d : gmap string PyVal) (k : string) : result PyVal :=
  match d !! k with
  | Some v => Ok v
  | None => Err (KeyError k)
  end.

(** The items an iteration over [v] yields; a string yields its characters. *)
Definition iterate (v : PyVal) : result (list PyVal) :=
  match v with
  | PSeq items => Ok items
  | PStr s => Ok (map (fun c => PStr (String c EmptyString)) (list_ascii_of_string s))
  | _ => Err (TypeError "object is not iterable")
  end.

(** [a, b = v] *)
Definition unpack2 (v : PyVal) : result (PyVal * PyVal) :=
  match iterate v with
  | Ok [a; b] => Ok (a, b)
  | Ok _ => Err (ValueError "wrong number of values to unpack (expected 2)")
  | Err e => Err e
  end.

(** [self._active_hero.<attr> = v]. The source stores [v] unchecked, whatever
    it is. The attributes of a hero are integers in this development, so
    the assignment of an [int] is the only one it can follow: with any other
    value the run leaves the embedding. It is no exception, and the handler
    of [load_game] and [load_game_state] does not see it. *)
Definition assign_active_hero (setter : Z -> Hero -> Hero) (v : PyVal) : M unit :=
  let* g := get in
  match _active_hero g with
  | None => raise (AttributeError "'NoneType' object has no attribute")
  | Some r =>
      match v with
      | PInt z => modify_hero r (setter z)
      | _ => fun g' => (Dangling, g')
      end
  end.

Definition pair_value (p : Z * Z) : PyVal := PSeq [PInt (fst p); PInt (snd p)].

(** The dict that [save_game] hands to the save manager. *)
Definition saved_record (t : HeroType) (h : Hero) (room : Z * Z)
    (template : DungeonTemplate) (play_time : PyVal) : gmap string PyVal :=
  <["hero_type" := PStr (HeroType_name t)]>
  (<["hero_position" := pair_value (x h, y h)]>
  (<["hero_health" := PInt (health h)]>
  (<["current_room" := pair_value room]>
  (<["dungeon_template" := PStr (DungeonTemplate_name template)]>
  (<["play_time" := play_time]> ∅))))).

Definition save_game (filename : string) : M bool :=
  try_except
    (let* g := get in
     match _active_hero g, _dungeon_manager g with
     | Some r, Some dm =>
         let* t :=
           match _selected_hero_type g with
           | Some t => ret t
           | None => raise (AttributeError "'NoneType' object has no attribute 'name'")
           end in
         let* h := get_hero r in
         let game_state :=
           saved_record t h (get_current_room_position dm) (_dungeon_template g) (_play_time g) in
         let '(saved, manager) := sl_save_game (saveloadmanager g) game_state filename in
         let* _ := modify (set_saveloadmanager manager) in
         ret saved
     | _, _ => ret false
     end)
    (fun e => ret false).

(** The statements of [load_game] between [_initialize_game] and
    [return True]: hero position, health, room, minimap. *)
Definition apply_saved_hero_and_room (hero_pos hero_health room_coords : PyVal) : M unit :=
  let* '(px, py) := lift (unpack2 hero_pos) in
  let* _ := assign_active_hero hero_set_x px in
  let* _ := assign_active_hero hero_set_y py in
  let* _ := assign_active_hero hero_set_health hero_health in
  let* dm := the_dungeon_manager in
  let* args := lift (iterate room_coords) in
  let* dm' := lift (set_current_room_by_coordinates dm args) in
  let* _ := modify (set_dungeon_manager (Some dm')) in
  modify (fun g => set_minimap (sync_with_dungeon_manager (minimap g) dm') g).

(** The local variables of [load_game]. *)
Record SavedData := {
  saved_hero_type : HeroType;
  saved_hero_pos : PyVal;
  saved_hero_health : PyVal;
  saved_room_coords : PyVal;
  saved_dungeon_template : DungeonTemplate
}.

(** The first five statements under [# Extract data] of [load_game]; none of
    them assigns to [self]. *)
Definition extract_data (game_state : gmap string PyVal) : result SavedData :=
  match dict_getitem game_state "hero_type" with
  | Err e => Err e
  | Ok hero_type_name =>
  match HeroType_getitem hero_type_name with
  | Err e => Err e
  | Ok hero_type =>
  match dict_getitem game_state "hero_position" with
  | Err e => Err e
  | Ok hero_pos =>
  match dict_getitem game_state "hero_health" with
  | Err e => Err e
  | Ok hero_health =>
  match dict_getitem game_state "current_room" with
  | Err e => Err e
  | Ok room_coords =>
  match dict_getitem game_state "dungeon_template" with
  | Err e => Err e
  | Ok template_name =>
  match DungeonTemplate_getitem template_name with
  | Err e => Err e
  | Ok dungeon_template =>
      Ok {| saved_hero_type := hero_type; saved_hero_pos := hero_pos;
            saved_hero_health := hero_health; saved_room_coords := room_coords;
            saved_dungeon_template := dungeon_template |}
  end end end end end end end.

(** The [try] block of [load_game]. *)
Definition load_game_try (filename : string) : M bool :=
  let* g := get in
  let* loaded := lift (sl_load_game_state (saveloadmanager g) filename) in
  match loaded with
  | None => ret false
  | Some game_state =>
      if bool_decide (size game_state = 0%nat) then ret false
      else
        let* data := lift (extract_data game_state) in
        let* _ := modify (set_play_time (default (PInt 0) (game_state !! "play_time"))) in
        let* _ := modify (set_selected_hero_type (Some (saved_hero_type data))) in
        let* _ := modify (set_dungeon_template (saved_dungeon_template data)) in
        let* _ := _initialize_game in
        let* _ := apply_saved_hero_and_room (saved_hero_pos data) (saved_hero_health data)
                    (saved_room_coords data) in
        ret true
  end.

Definition load_game (filename : string) : M bool :=
  try_except (load_game_try filename) (fun e => ret false).

Definition load_game_state (game_state : gmap string PyVal) : M bool :=
  try_except
    (let* hero_type_name := lift (dict_getitem game_state "hero_type") in
     let* hero_type := lift (HeroType_getitem hero_type_name) in
     let* _ := modify (set_selected_hero_type (Some hero_type)) in
     let* template_name := lift (dict_getitem game_state "dungeon_template") in
     let* dungeon_template := lift (DungeonTemplate_getitem template_name) in
     let* _ := modify (set_dungeon_template dungeon_template) in
     let* _ := _initialize_game in
     let* hero_pos := lift (dict_getitem game_state "hero_position") in
     let* '(px, py) := lift (unpack2 hero_pos) in
     let* _ := assign_active_hero hero_set_x px in
     let* _ := assign_active_hero hero_set_y py in
     let* hero_health := lift (dict_getitem game_state "hero_health") in
     let* _ := assign_active_hero hero_set_health hero_health in
     let* dm := the_dungeon_manager in
     let* room_coords := lift (dict_getitem game_state "current_room") in
     let* args := lift (iterate room_coords) in
     let* dm' := lift (set_current_room_by_coordinates dm args) in
     let* _ := modify (set_dungeon_manager (Some dm')) in
     let* _ := modify (fun g => set_minimap (sync_with_dungeon_manager (minimap g) dm') g) in
     ret true)
    (fun e => ret false).

End GameModel.

Notation "'let*' x ':=' m 'in' k" := (bind m (fun x => k))
  (at level 10, x name, m at level 100, k at level 200).
Notation "'let*' ' p ':=' m 'in' k" := (bind m (fun x => match x with p => k end))
  (at level 10, p pattern, m at level 100, k at level 200).

(** * [src/model/tiles.py] *)

Module Tiles.

(** What [tiles.py] takes from pygame, the file system and its [spritesheet]
    argument. [open_csv] is [csv.reader] over [open(os.path.join(filename))]:
    the rows of the file, or the exception that opening or reading raises. *)
Class TileExternals := {
  Surface : Type;
  Spritesheet : Type;
  parse_sprite : Spritesheet -> string -> result Surface;
  get_size : Surface -> Z * Z;
  Surface_new : Z -> Z -> result Surface;
  set_colorkey : Surface -> Z * Z * Z -> Surface;
  open_csv : PyVal -> result (list (list string))
}.

Section TileModel.
Context `{T : TileExternals}.

Record Tile := { image : Surface; rect : Rect }.

(** [Tile.__init__] *)
Definition Tile_init (image_name : string) (x y : Z) (spritesheet : Spritesheet) : result Tile :=
  match parse_sprite spritesheet image_name with
  | Err e => Err e
  | Ok img =>
      Ok {| image := img;
            rect := {| rect_x := x; rect_y := y;
                       rect_w := fst (get_size img); rect_h := snd (get_size img) |} |}
  end.

(** A [TileMap] under construction: an attribute that [__init__] has not
    assigned yet is [None]. *)
Record TileMap := {
  tile_size : Z;
  start_x : Z;
  start_y : Z;
  spritesheet : Spritesheet;
  tiles : option (list Tile);
  map_surface : option Surface;
  map_w : option Z;
  map_h : option Z
}.

Definition set_start (sx sy : Z) (self : TileMap) : TileMap :=
  {| tile_size := tile_size self; start_x := sx; start_y := sy;
     spritesheet := spritesheet self; tiles := tiles self;
     map_surface := map_surface self; map_w := map_w self; map_h := map_h self |}.

Definition set_map_size (w h : Z) (self : TileMap) : TileMap :=
  {| tile_size := tile_size self; start_x := start_x self; start_y := start_y self;
     spritesheet := spritesheet self; tiles := tiles self;
     map_surface := map_surface self; map_w := Some w; map_h := Some h |}.

Definition set_tiles (l : list Tile) (self : TileMap) : TileMap :=
  {| tile_size := tile_size self; start_x := start_x self; start_y := start_y self;
     spritesheet := spritesheet self; tiles := Some l;
     map_surface := map_surface self; map_w := map_w self; map_h := map_h self |}.

Definition set_map_surface (s : Surface) (self : TileMap) : TileMap :=
  {| tile_size := tile_size self; start_x := start_x self; start_y := start_y self;
     spritesheet := spritesheet self; tiles := tiles self;
     map_surface := Some s; map_w := map_w self; map_h := map_h self |}.

Definition read_csv (self : TileMap) (filename : PyVal) : result (list (list string)) :=
  open_csv filename.

(** The locals of the loops of [load_tiles]. *)
Record LoadState := { acc : list Tile; col : Z; row : Z; obj : TileMap }.

(** One pass of [for tile in row]. *)
Definition load_cell (st : LoadState) (tile : string) : result unit * LoadState :=
  let self := obj st in
  let px := col st * tile_size self in
  let py := row st * tile_size self in
  let next (tiles : list Tile) (self' : TileMap) :=
    {| acc := tiles; col := col st + 1; row := row st; obj := self' |} in
  if String.eqb tile "0" then (Ok tt, next (acc st) (set_start px py self))
  else if String.eqb tile "1" then
    match Tile_init "ground.png" px py (spritesheet self) with
    | Ok t => (Ok tt, next (acc st ++ [t])%list self)
    | Err e => (Err e, st)
    end
  else if String.eqb tile "2" then
    match Tile_init "ground2.png" px py (spritesheet self) with
    | Ok t => (Ok tt, next (acc st ++ [t])%list self)
    | Err e => (Err e, st)
    end
  else (Ok tt, next (acc st) self).

Fixpoint load_cells (st : LoadState) (cells : list string) : result unit * LoadState :=
  match cells with
  | [] => (Ok tt, st)
  | tile :: rest =>
      match load_cell st tile with
      | (Ok _, st') => load_cells st' rest
      | (Err e, st') => (Err e, st')
      end
  end.

(** [for row in map: x = 0; ...; y += 1] *)
Fixpoint load_rows (st : LoadState) (rows : list (list string)) : result unit * LoadState :=
  match rows with
  | [] => (Ok tt, st)
  | cells :: rest =>
      let st0 := {| acc := acc st; col := 0; row := row st; obj := obj st |} in
      match load_cells st0 cells with
      | (Ok _, st') =>
          load_rows {| acc := acc st'; col := col st'; row := row st' + 1; obj := obj st' |} rest
      | (Err e, st') => (Err e, st')
      end
  end.

Definition missing_filename : exn :=
  TypeError "load_tiles() missing 1 required positional argument: 'filename'".

(** [self.load_tiles] called with the argument list [args]: the method has
    one parameter besides [self],
    [filename], and no default for it. *)
Definition load_tiles (self : TileMap) (args : list PyVal) : result (list Tile) * TileMap :=
  match args with
  | [filename] =>
      match read_csv self filename with
      | Err e => (Err e, self)
      | Ok map =>
          match load_rows {| acc := []; col := 0; row := 0; obj := self |} map with
          | (Err e, st) => (Err e, obj st)
          | (Ok _, st) =>
              (Ok (acc st),
               set_map_size (col st * tile_size (obj st)) (row st * tile_size (obj st)) (obj st))
          end
      end
  | [] => (Err missing_filename, self)
  | _ => (Err (TypeError "load_tiles() takes 2 positional arguments"), self)
  end.

(** The object after the first three assignments of [__init__]. *)
Definition blank (sheet : Spritesheet) : TileMap :=
  {| tile_size := 16; start_x := 0; start_y := 0; spritesheet := sheet;
     tiles := None; map_surface := None; map_w := None; map_h := None |}.

(** [TileMap.__init__]; [Err] is the exception the constructor raises, and
    the object is returned as far as it was built. *)
Definition TileMap_init (filename : PyVal) (sheet : Spritesheet) : result unit * TileMap :=
  let self := blank sheet in
  match load_tiles self [filename] with
  | (Err e, self) => (Err e, self)
  | (Ok loaded, self) =>
      let self := set_tiles loaded self in
      match map_w self, map_h self with
      | Some w, Some h =>
          match Surface_new w h with
          | Err e => (Err e, self)
          | Ok surface =>
              let self := set_map_surface surface self in
              let self := set_map_surface (set_colorkey surface (0, 0, 0)) self in
              match load_tiles self [] with
              | (Err e, self) => (Err e, self)
              | (Ok _, self) => (Ok tt, self)
              end
          end
      | _, _ => (Err (AttributeError "'TileMap' object has no attribute 'map_w'"), self)
      end
  end.

End TileModel.
End Tiles.

(** * Reference collaborators

    One implementation of [Externals], used to run the embedding on concrete
    states. *)

Module Reference.

(** Modelled from the spec: the dungeon graph of RoomDungeonSystem, a grid of
    rooms built from a template, with one start room, one boss room and the
    current room tracked as a coordinate. SQUARE fills the 3x3 grid; DEMO is
    the top row only. Every room is 1600 by 600 with its floor at 500. *)
Record Dungeon := { template : DungeonTemplate; position : Z * Z }.

Definition in_grid (t : DungeonTemplate) (pos : Z * Z) : bool :=
  let '(c, r) := pos in
  match t with
  | SQUARE => (0 <=? c) && (c <? 3) && (0 <=? r) && (r <? 3)
  | DEMO => (0 <=? c) && (c <? 3) && (r =? 0)
  end.

Definition boss_pos (t : DungeonTemplate) : Z * Z :=
  match t with SQUARE => (2, 2) | DEMO => (2, 0) end.

Definition room_at (t : DungeonTemplate) (pos : Z * Z) : option Room :=
  if in_grid t pos then
    Some {| grid_pos := pos; room_width := 1600; room_height := 600; floor_y := 500;
            room_kind := if bool_decide (pos = (0, 0)) then START
                         else if bool_decide (pos = boss_pos t) then BOSS
                         else NORMAL |}
  else None.

Definition build (grid : Z * Z) (csv tileset : string) (t : DungeonTemplate) : result Dungeon :=
  Ok {| template := t; position := (0, 0) |}.

Definition current_room (d : Dungeon) : option Room := room_at (template d) (position d).

(** Modelled from the spec: a floor-aligned spawn point inside the room. *)
Definition spawn_position (d : Dungeon) (actor_width actor_height : Z) : Z * Z :=
  (100, 500 - actor_height).

Definition move_to (d : Dungeon) (args : list PyVal) : result Dungeon :=
  match args with
  | [PInt c; PInt r] =>
      if in_grid (template d) (c, r) then Ok {| template := template d; position := (c, r) |}
      else Err (ValueError "no room at these coordinates")
  | _ => Err (TypeError "set_current_room_by_coordinates() takes two integers")
  end.

(** Modelled from the spec: a walk-through door triggers on overlap; the
    right door occupies the last 64 units of the room, the left door the
    first 64. *)
Definition walk_through (d : Dungeon) (hx hy : Z) : bool * Dungeon :=
  let '(c, r) := position d in
  if (1536 <=? hx) && in_grid (template d) (c + 1, r)
  then (true, {| template := template d; position := (c + 1, r) |})
  else if (hx <? 64) && in_grid (template d) (c - 1, r)
  then (true, {| template := template d; position := (c - 1, r) |})
  else (false, d).

(** Modelled from the spec: an interactive door needs the interact action;
    it sits in the middle of the room and leads down, or up when there is no
    room below. *)
Definition interact (d : Dungeon) (hx hy : Z) (pressed : bool) : bool * Dungeon :=
  let '(c, r) := position d in
  if pressed && (768 <=? hx) && (hx <? 832) then
    if in_grid (template d) (c, r + 1)
    then (true, {| template := template d; position := (c, r + 1) |})
    else if in_grid (template d) (c, r - 1)
    then (true, {| template := template d; position := (c, r - 1) |})
    else (false, d)
  else (false, d).

(** Modelled from the spec: the transition state machine. [update] advances
    the elapsed time, invokes the completion callback once when the elapsed
    time crosses the midpoint of the duration, and returns to idle when it
    reaches the duration; [start] is ignored while a transition is active. *)
Record Transition := {
  active : bool;
  elapsed : Q;
  duration : Q;
  callback_done : bool
}.

Definition tick (t : Transition) (dt : Q) : TransitionStep Transition :=
  if active t then
    let e := Qred (elapsed t + dt) in
    let finish (done : bool) :=
      {| active := negb (Qle_bool (duration t) e); elapsed := e;
         duration := duration t; callback_done := done |} in
    if negb (callback_done t) && Qle_bool (duration t / 2) e
    then Fired {| active := true; elapsed := e; duration := duration t;
                  callback_done := true |} (finish true)
    else Quiet (finish (callback_done t))
  else Quiet t.

Definition start (t : Transition) (kind : TransitionType) (d : Q) : Transition :=
  if active t then t
  else {| active := true; elapsed := 0; duration := d; callback_done := false |}.

Definition idle : Transition :=
  {| active := false; elapsed := 0; duration := 0; callback_done := true |}.

(** Modelled from the spec: a hero of the given class at a position; the
    health values are those of [MockCharacterStats]. *)
Definition coordinate (v : PyVal) : Z :=
  match v with
  | PInt z => z
  | PBool true => 1
  | PFloat q => Qnum q / Zpos (Qden q)
  | _ => 0
  end.

Definition make_hero (t : HeroType) (hp : Z) (px py : PyVal) : Hero :=
  {| hero_type := t; x := coordinate px; y := coordinate py; width := 64; height := 64;
     health := hp; max_health := hp; is_alive := true; ground_y := coordinate py;
     velocity_y := Some 0; is_attacking := false;
     attack_cooldown_remaining := 0; special_cooldown_remaining := 0;
     hit_targets := []; has_projectile_manager := false |}.

Definition set_attacking (b : bool) (h : Hero) : Hero :=
  {| hero_type := hero_type h; x := x h; y := y h; width := width h; height := height h;
     health := health h; max_health := max_health h; is_alive := is_alive h;
     ground_y := ground_y h; velocity_y := velocity_y h; is_attacking := b;
     attack_cooldown_remaining := attack_cooldown_remaining h;
     special_cooldown_remaining := special_cooldown_remaining h;
     hit_targets := if b then [] else hit_targets h;
     has_projectile_manager := has_projectile_manager h |}.

(** Movement of five units per tick on the arrow keys. *)
Definition walk (h : Hero) (keys : Key -> bool) : Hero :=
  let h := if keys K_LEFT then hero_set_x (x h - 5) h else h in
  if keys K_RIGHT then hero_set_x (x h + 5) h else h.

Definition boss (px py : Z) : Enemy :=
  {| is_boss := true; enemy_x := px; enemy_y := py; enemy_width := 128; enemy_height := 100;
     enemy_health := 1000; enemy_max_health := 1000; enemy_is_alive := true;
     is_invulnerable := false;
     enemy_hitbox := Some {| rect_x := px; rect_y := py; rect_w := 128; rect_h := 100 |} |}.

Definition hurt (e : Enemy) (damage : Z) : bool * Enemy :=
  if is_invulnerable e then (false, e)
  else
    let hp := Z.max 0 (enemy_health e - damage) in
    (true,
     {| is_boss := is_boss e; enemy_x := enemy_x e; enemy_y := enemy_y e;
        enemy_width := enemy_width e; enemy_height := enemy_height e;
        enemy_health := hp; enemy_max_health := enemy_max_health e;
        enemy_is_alive := 0 <? hp; is_invulnerable := is_invulnerable e;
        enemy_hitbox := enemy_hitbox e |}).

(** Modelled from the spec: the persistence service keeps one record per
    file name and hands back what was stored. *)
Definition store_record (files : gmap string (gmap string PyVal))
    (record : gmap string PyVal) (filename : string) :
    bool * gmap string (gmap string PyVal) :=
  (true, <[filename := record]> files).

Definition fetch_record (files : gmap string (gmap string PyVal)) (filename : string) :
    result (option (gmap string PyVal)) :=
  Ok (files !! filename).

#[export] Instance externals : Externals := {|
  DungeonManager := Dungeon;
  DungeonManager_new := build;
  get_current_room := current_room;
  get_current_room_position := position;
  get_player_spawn_position_for_current_room := spawn_position;
  set_current_room_by_coordinates := move_to;
  update_current_room_interactions := fun d _ _ _ _ => d;
  try_enter_walkthrough_door := walk_through;
  try_enter_interactive_door := interact;
  check_pillar_collection := fun d _ _ _ _ => d;
  update_pillars := fun d _ => d;
  RoomTransitionManager := Transition;
  transition_update := tick;
  is_transitioning := active;
  start_transition := start;
  Knight := make_hero KNIGHT 375;
  Archer := make_hero ARCHER 150;
  Cleric := make_hero CLERIC 250;
  activate_attack := fun h pm => (set_attacking true h, pm);
  activate_special_ability := fun h pm => (h, pm);
  handle_input := fun h keys _ pm => (walk h keys, pm);
  hero_update := fun h _ pm => (h, pm);
  get_attack_hitbox := fun h =>
    if is_attacking h
    then Some {| rect_x := x h + width h; rect_y := y h; rect_w := 80; rect_h := height h |}
    else None;
  calculate_damage := fun _ _ => 55;
  DemonBoss := boss;
  enemy_update := fun e _ => e;
  move_towards_target := fun e _ _ _ => e;
  enemy_attack := fun e h => (e, h);
  take_damage := hurt;
  projectiles_update := fun pm _ => pm;
  projectiles_check_collisions := fun pm es => (pm, es);
  PlatformManager := unit;
  platforms_update := fun p _ => p;
  platforms_check_collisions := fun p h => (p, h);
  Minimap := unit;
  clear_all_rooms := fun m => m;
  sync_with_dungeon_manager := fun m _ => m;
  update_player_position := fun m _ => m;
  SaveLoadSystem := gmap string (gmap string PyVal);
  sl_save_game := store_record;
  sl_load_game_state := fetch_record
|}.

(** The [Game] object right after [__init__] on an 800 by 600 screen. *)
Definition new_game : Game :=
  {| state := PLAYING; game_width := 800; game_height := 600; sprites := no_sprites;
     projectile_manager := {| projectiles := [] |}; platform_manager := tt;
     _transition_manager := idle; _pending_door := PNone;
     _heroes := []; _enemies := []; _active_hero := None;
     _camera_x := 0; _camera_y := 0;
     _selected_hero_type := None; _hero_selection_made := false;
     _dungeon_manager := None; _current_room := None;
     _play_time := PFloat 0; _dungeon_template := SQUARE;
     minimap := tt; saveloadmanager := ∅;
     hero_objects := ∅; enemy_objects := ∅; next_ref := 0%nat;
     rng := {| draws := fun n => Z.of_nat n; consumed := 0%nat |} |}.

End Reference.

(** * Concrete states *)

Module Scenarios.
Import Reference.

Definition knight_at (px py : Z) : Hero := make_hero KNIGHT 375 (PInt px) (PInt py).

Definition fallen (h : Hero) : Hero :=
  {| hero_type := hero_type h; x := x h; y := y h; width := width h; height := height h;
     health := 0; max_health := max_health h; is_alive := false;
     ground_y := ground_y h; velocity_y := velocity_y h; is_attacking := false;
     attack_cooldown_remaining := attack_cooldown_remaining h;
     special_cooldown_remaining := special_cooldown_remaining h;
     hit_targets := hit_targets h; has_projectile_manager := has_projectile_manager h |}.

Definition slain_boss : Enemy := snd (hurt (boss 800 400) 1000).

(** A run in dungeon [d] with one knight, [h], selected and active. *)
Definition run_with (d : Dungeon) (h : Hero) : Game :=
  set_next_ref 1%nat
    (set_hero_objects {[ 0%nat := h ]}
    (set_heroes [(KNIGHT, 0%nat)]
    (set_active_hero (Some 0%nat)
    (set_selected_hero_type (Some KNIGHT)
    (set_hero_selection_made true
    (set_current_room (current_room d)
    (set_dungeon_manager (Some d) new_game))))))).

(** The same run with one enemy, [e], in the room. *)
Definition run_with_enemy (d : Dungeon) (h : Hero) (e : Enemy) : Game :=
  set_next_ref 2%nat
    (set_enemy_objects {[ 1%nat := e ]}
    (set_enemies [1%nat]
    (set_sprites (set_enemy_sprites [EnemyRef 1] (set_all_sprites [EnemyRef 1] no_sprites))
    (run_with d h)))).

Definition no_keys : Key -> bool := fun _ => false.

(** The boss room of the SQUARE dungeon with the only hero and the boss both
    dead. *)
Definition all_dead : Game :=
  run_with_enemy {| template := SQUARE; position := (2, 2) |}
    (fallen (knight_at 100 436)) slain_boss.

(** The same room with the knight alive and the boss dead. *)
Definition boss_defeated : Game :=
  run_with_enemy {| template := SQUARE; position := (2, 2) |}
    (knight_at 100 436) slain_boss.

(** A knight, 64 wide, in a room that is 50 wide. *)
Definition narrow_room : Room :=
  {| grid_pos := (1, 0); room_width := 50; room_height := 600; floor_y := 500;
     room_kind := NORMAL |}.

Definition cramped : Game :=
  set_current_room (Some narrow_room)
    (run_with {| template := SQUARE; position := (1, 0) |} (knight_at 0 436)).

(** A knight that has walked past the right wall and below the floor of a
    normal room. *)
Definition out_of_bounds : Game :=
  run_with {| template := SQUARE; position := (1, 0) |} (knight_at 1580 480).

(** A knight standing in the normal room next to the start room. *)
Definition in_normal_room : Game :=
  run_with {| template := SQUARE; position := (1, 0) |} (knight_at 300 436).

(** A fade of 0.8 s that has run for [t] seconds. *)
Definition fading (t : Q) (done : bool) : Transition :=
  {| active := true; elapsed := t; duration := 8 # 10; callback_done := done |}.

Definition press_right : Key -> bool :=
  fun k => match k with K_RIGHT => true | _ => false end.

(** A knight five units short of the right door of room (1, 0) of the DEMO
    dungeon, next to the boss room. *)
Definition before_door : Game :=
  run_with {| template := DEMO; position := (1, 0) |} (knight_at 1515 436).

(** One tick with the right key held takes the knight into the door and
    starts the fade; 0.3 s later the dungeon tracks the boss room (2, 0), the
    game still shows room (1, 0) and the fade has not reached its midpoint. *)
Definition mid_fade : Game :=
  snd (update (3 # 10) no_keys no_keys
         (snd (update (1 # 60) press_right no_keys before_door))).

(** The second half of that fade, after the room was swapped. *)
Definition late_fade : Game :=
  snd (update (2 # 10) no_keys no_keys mid_fade).

(** A save file whose hero position has three components. *)
Definition damaged_record : gmap string PyVal :=
  <["hero_position" := PSeq [PInt 1; PInt 2; PInt 3]]>
    (saved_record ARCHER (knight_at 300 436) (1, 0) DEMO (PFloat 12)).

Definition with_damaged_save : Game :=
  set_saveloadmanager {[ "autosave" := damaged_record ]} in_normal_room.


End Scenarios.

(** * Vocabulary of the statements *)

Section Vocabulary.
Context `{E : Externals}.

(** The heroes of [_heroes.values()] and the enemies of [_enemies], read
    through the object store. *)
Definition heroes_are (g : Game) (heroes : list Hero) : Prop :=
  Forall2 (fun r h => hero_objects g !! r = Some h) (map snd (_heroes g)) heroes.

Definition enemies_are (g : Game) (enemies : list Enemy) : Prop :=
  Forall2 (fun r e => enemy_objects g !! r = Some e) (_enemies g) enemies.

(** The game with the object behind reference [r] replaced by [h]. *)
Definition with_hero (r : nat) (h : Hero) (g : Game) : Game :=
  set_hero_objects (<[r := h]> (hero_objects g)) g.

(** What the three tests of [_enforce_room_bounds] do to the hero. *)
Definition clamp_to_room (room : Room) (h : Hero) : Hero :=
  let h1 := if x h <? 0 then hero_set_x 0 h else h in
  let h2 := if room_width room <? x h1 + width h1
            then hero_set_x (room_width room - width h1) h1 else h1 in
  if floor_y room <? y h2 + height h2
  then hero_set_y (floor_y room - height h2) h2 else h2.

(** The hero after [_reposition_hero_after_door_traversal] in [room]. *)
Definition repositioned (dm : DungeonManager) (room : Room) (h : Hero) : Hero :=
  let spawn := get_player_spawn_position_for_current_room dm (width h) (height h) in
  hero_set_ground_y (floor_y room - height h) (hero_set_y (snd spawn) (hero_set_x (fst spawn) h)).

(** The hero object that [_create_hero] builds for a hero type at (0, 0). *)
Definition created_hero (t : HeroType) : Hero :=
  match t with
  | KNIGHT => Knight (PInt 0) (PInt 0)
  | ARCHER => hero_set_has_projectile_manager true (Archer (PInt 0) (PInt 0))
  | CLERIC => hero_set_has_projectile_manager true (Cleric (PInt 0) (PInt 0))
  end.

(** The keys that [load_game] reads with [game_state[key]]. *)
Definition required_keys : list string :=
  ["hero_type"; "hero_position"; "hero_health"; "current_room"; "dungeon_template"].

(** A persisted record on which the extraction stage of [load_game] fails:
    a required key is absent, or the hero type or the dungeon template is not
    the name of a member. *)
Definition unreadable (game_state : gmap string PyVal) : Prop :=
  (exists k, In k required_keys /\ game_state !! k = None) \/
  (exists v e, game_state !! "hero_type" = Some v /\ HeroType_getitem v = Err e) \/
  (exists v e, game_state !! "dungeon_template" = Some v /\
               DungeonTemplate_getitem v = Err e).

(** The camera coordinate that [_complete_room_transition] snaps to. *)
Definition snapped (hero_coord screen room_size : Z) : Q :=
  inject_Z (Z.max 0 (Z.min (hero_coord - screen / 2) (Z.max 0 (room_size - screen)))).

End Vocabulary.

(** * Further methods of [Game] *)

Section GameReset.
Context `{E : Externals}.

(** [_reset_game] *)
Definition _reset_game : M unit :=
  let* _ := modify (set_hero_selection_made false) in
  let* _ := modify (set_selected_hero_type None) in
  let* _ := modify (set_active_hero None) in
  let* _ := cleanup in
  set_game_state HERO_SELECT.

(** [action == "main_menu"] *)
Definition is_main_menu (action : PyVal) : bool :=
  match action with
  | PStr s => String.eqb s "main_menu"
  | _ => false
  end.

(** [_draw_victory] and [_draw_game_over] after the result menu was shown:
    [action] is what [GameResultMenu.display()] returned. The two methods
    differ in the flag they hand to the menu only. *)
Definition _draw_victory (action : PyVal) : M unit :=
  if is_main_menu action then
    let* _ := modify (set_state MENU) in
    _reset_game
  else ret tt.

Definition _draw_game_over (action : PyVal) : M unit :=
  if is_main_menu action then
    let* _ := modify (set_state MENU) in
    _reset_game
  else ret tt.

(** [_set_camera_position] *)
Definition _set_camera_position (cx cy : Q) : M unit :=
  let* g := get in
  match _current_room g with
  | None => ret tt
  | Some room =>
      let* _ := modify (set_camera_x
                  (py_max 0 (py_min cx (inject_Z (room_width room - game_width g))))) in
      modify (set_camera_y
                (py_max 0 (py_min cy (inject_Z (room_height room - game_height g)))))
  end.

(** The frames of the main loop as far as the simulation goes: one [update]
    per frame, with the frame's time step and keys; an exception leaves the
    loop. *)
Fixpoint run_updates (frames : list (Q * (Key -> bool) * (Key -> bool))) : M unit :=
  match frames with
  | [] => ret tt
  | (dt, keys, pressed) :: rest =>
      let* _ := update dt keys pressed in
      run_updates rest
  end.

End GameReset.

(** * [src/utils/MockCharacterStats.py] *)

Module MockCharacterStats.

(** [HeroType.<member>.value] of [Game.py]. *)
Definition HeroType_value (t : HeroType) : string :=
  match t with KNIGHT => "knight" | ARCHER => "archer" | CLERIC => "cleric" end.

(** One entry of [mock_hero_stats]. *)
Definition stats_entry (name : string) (hp speed damage attack_range : Z)
    (attack_speed special_cooldown : Q) (defense : Z)
    (critical_chance critical_damage : Q) : gmap string PyVal :=
  <["hero_type" := PStr name]>
  (<["max_health" := PInt hp]>
  (<["health" := PInt hp]>
  (<["speed" := PInt speed]>
  (<["damage" := PInt damage]>
  (<["attack_range" := PInt attack_range]>
  (<["attack_speed" := PFloat attack_speed]>
  (<["special_cooldown" := PFloat special_cooldown]>
  (<["defense" := PInt defense]>
  (<["critical_chance" := PFloat critical_chance]>
  (<["critical_damage" := PFloat critical_damage]> ∅)))))))))).

(** [self.mock_hero_stats] as [__init__] builds it. *)
Definition mock_hero_stats : gmap string (gmap string PyVal) :=
  <["knight" := stats_entry "knight" 375 50 55 80 (13 # 10) 10 20 (1 # 10) (15 # 10)]>
  (<["archer" := stats_entry "archer" 150 40 40 120 2 8 10 (15 # 100) 2]>
  (<["cleric" := stats_entry "cleric" 250 35 85 60 (75 # 100) 12 15 (5 # 100) (18 # 10)]> ∅)).

Definition get_hero_stats (hero_type : string) : option (gmap string PyVal) :=
  mock_hero_stats !! hero_type.

Definition get_monster_stats (monster_type : string) : option (gmap string PyVal) := None.

Definition get_hero_animation_data (hero_type animation_state : string) :
    option (gmap string PyVal) := None.

Definition get_monster_animation_data (monster_type animation_state : string) :
    option (gmap string PyVal) := None.

Definition get_all_hero_animations (hero_type : string) :
    gmap string (gmap string PyVal) := ∅.

Definition get_all_monster_animations (monster_type : string) :
    gmap string (gmap string PyVal) := ∅.

End MockCharacterStats.

(** * Invariants of a computation *)

Section Frames.
Context `{E : Externals}.

(** [m] keeps [P]: whatever way [m] ends, [P] holds of the game it leaves
    when it held of the game it started from. *)
Definition keeps {A} (P : Game -> Prop) (m : M A) : Prop :=
  forall g, P g -> P (snd (m g)).

(** Properties of the game that the per-frame steps on heroes, enemies,
    projectiles, platforms, the camera and the dungeon manager cannot
    change. *)
Class EntityFrame (P : Game -> Prop) : Prop := {
  frame_hero_objects : forall v g, P g -> P (set_hero_objects v g);
  frame_enemy_objects : forall v g, P g -> P (set_enemy_objects v g);
  frame_projectile_manager : forall v g, P g -> P (set_projectile_manager v g);
  frame_platform_manager : forall v g, P g -> P (set_platform_manager v g);
  frame_camera_x : forall v g, P g -> P (set_camera_x v g);
  frame_camera_y : forall v g, P g -> P (set_camera_y v g);
  frame_dungeon_manager : forall v g, P g -> P (set_dungeon_manager v g)
}.

(** ... and that the start of a room transition cannot change either. *)
Class DoorFrame (P : Game -> Prop) : Prop := {
  door_entity_frame :: EntityFrame P;
  frame_transition_manager : forall v g, P g -> P (set_transition_manager v g);
  frame_pending_door : forall v g, P g -> P (set_pending_door v g)
}.

(** ... nor the room swap at the midpoint of a transition. *)
Class RoomFrame (P : Game -> Prop) : Prop := {
  room_door_frame :: DoorFrame P;
  frame_current_room : forall v g, P g -> P (set_current_room v g);
  frame_enemies : forall v g, P g -> P (set_enemies v g);
  frame_sprites : forall v g, P g -> P (set_sprites v g);
  frame_next_ref : forall v g, P g -> P (set_next_ref v g);
  frame_rng : forall v g, P g -> P (set_rng v g);
  frame_minimap : forall v g, P g -> P (set_minimap v g)
}.

(** Properties that the two verdicts of [_check_game_state] preserve. *)
Definition verdict_closed (P : Game -> Prop) : Prop :=
  forall g, P g -> P (set_state GAME_OVER g) /\ P (set_state VICTORY g).

(** The attributes that no step of [update] assigns. *)
Record Setup := {
  setup_width : Z;
  setup_height : Z;
  setup_heroes : list (HeroType * nat);
  setup_active_hero : option nat;
  setup_selected_hero_type : option HeroType;
  setup_hero_selection_made : bool;
  setup_dungeon_template : DungeonTemplate;
  setup_play_time : PyVal;
  setup_saveloadmanager : SaveLoadSystem
}.

Definition setup_of (g : Game) : Setup :=
  {| setup_width := game_width g; setup_height := game_height g;
     setup_heroes := _heroes g; setup_active_hero := _active_hero g;
     setup_selected_hero_type := _selected_hero_type g;
     setup_hero_selection_made := _hero_selection_made g;
     setup_dungeon_template := _dungeon_template g;
     setup_play_time := _play_time g;
     setup_saveloadmanager := saveloadmanager g |}.

(** The coordinates that the three tests of [_enforce_room_bounds] leave a
    hero with. *)
Definition clamped_x (room : Room) (hx w : Z) : Z :=
  let x1 := if hx <? 0 then 0 else hx in
  if room_width room <? x1 + w then room_width room - w else x1.

Definition clamped_y (room : Room) (hy ht : Z) : Z :=
  if floor_y room <? hy + ht then floor_y room - ht else hy.

(** What the floor test of [_handle_hero_floor_collision] does to one
    hero. *)
Definition settle (room : Room) (h : Hero) : Hero :=
  if is_alive h && (floor_y room <? y h + height h) then
    let h1 := hero_set_y (floor_y room - height h) h in
    match velocity_y h with
    | Some _ => hero_set_velocity_y (Some 0) h1
    | None => h1
    end
  else h.

End Frames.

(** A cell of the csv for which [load_tiles] creates a tile. *)
Definition is_ground (cell : string) : bool :=
  String.eqb cell "1" || String.eqb cell "2".

Definition ground_cells (rows : list (list string)) : nat :=
  length (filter (fun cell => is_ground cell = true) (concat rows)).

(** * Further concrete states *)

Module Episodes.
Import Reference Scenarios.

(** The game after the knight was selected on a fresh game. *)
Definition started : Game := snd (select_hero (of_HeroType KNIGHT) new_game).

(** A knight standing in the right door of room (1, 0) of the DEMO dungeon,
    and the same knight dead. *)
Definition at_door : Game :=
  run_with {| template := DEMO; position := (1, 0) |} (knight_at 1520 436).

Definition dead_at_door : Game :=
  run_with {| template := DEMO; position := (1, 0) |} (fallen (knight_at 1520 436)).

(** The midpoint of a fade into the boss room of the DEMO dungeon: the
    dungeon tracks room (2, 0), the game still shows room (1, 0). *)
Definition entering_boss_room : Game :=
  set_current_room (room_at DEMO (1, 0))
    (run_with {| template := DEMO; position := (2, 0) |} (knight_at 1520 436)).




(** The boss room was left for room (1, 2) with the slain boss still in
    [all_sprites]. *)
Definition after_boss : Game :=
  set_current_room (room_at SQUARE (1, 2)) boss_defeated.

(** The game over screen of a lost run. *)
Definition lost : Game := set_state GAME_OVER all_dead.

Definition two_frames : list (Q * (Key -> bool) * (Key -> bool)) :=
  [(1 # 60, press_right, no_keys); (1 # 60, no_keys, no_keys)].

(** A record as [save_game] writes it: an archer at (300, 436) with 90
    health in room (1, 0) of the DEMO dungeon. *)
Definition archer_record : gmap string PyVal :=
  saved_record ARCHER (hero_set_health 90 (make_hero ARCHER 150 (PInt 300) (PInt 436)))
    (1, 0) DEMO (PFloat 12).

End Episodes.

(** * Collaborators with a missing level

    The reference collaborators, except that the dungeon of the DEMO
    template cannot be built. *)

Module Faulty.
Import Reference.

Definition build_square (grid : Z * Z) (csv tileset : string) (t : DungeonTemplate) :
    result Dungeon :=
  match t with
  | SQUARE => build grid csv tileset t
  | DEMO => Err (OtherError "No such file or directory")
  end.

Definition externals : Externals := {|
  DungeonManager := Dungeon;
  DungeonManager_new := build_square;
  get_current_room := current_room;
  get_current_room_position := position;
  get_player_spawn_position_for_current_room := spawn_position;
  set_current_room_by_coordinates := move_to;
  update_current_room_interactions := fun d _ _ _ _ => d;
  try_enter_walkthrough_door := walk_through;
  try_enter_interactive_door := interact;
  check_pillar_collection := fun d _ _ _ _ => d;
  update_pillars := fun d _ => d;
  RoomTransitionManager := Transition;
  transition_update := tick;
  is_transitioning := active;
  start_transition := start;
  Knight := make_hero KNIGHT 375;
  Archer := make_hero ARCHER 150;
  Cleric := make_hero CLERIC 250;
  activate_attack := fun h pm => (set_attacking true h, pm);
  activate_special_ability := fun h pm => (h, pm);
  handle_input := fun h keys _ pm => (walk h keys, pm);
  hero_update := fun h _ pm => (h, pm);
  get_attack_hitbox := fun h =>
    if is_attacking h
    then Some {| rect_x := x h + width h; rect_y := y h; rect_w := 80; rect_h := height h |}
    else None;
  calculate_damage := fun _ _ => 55;
  DemonBoss := boss;
  enemy_update := fun e _ => e;
  move_towards_target := fun e _ _ _ => e;
  enemy_attack := fun e h => (e, h);
  take_damage := hurt;
  projectiles_update := fun pm _ => pm;
  projectiles_check_collisions := fun pm es => (pm, es);
  PlatformManager := unit;
  platforms_update := fun p _ => p;
  platforms_check_collisions := fun p h => (p, h);
  Minimap := unit;
  clear_all_rooms := fun m => m;
  sync_with_dungeon_manager := fun m _ => m;
  update_player_position := fun m _ => m;
  SaveLoadSystem := gmap string (gmap string PyVal);
  sl_save_game := store_record;
  sl_load_game_state := fetch_record
|}.

(** A [Game] object over these collaborators, right after [__init__] and
    [set_dungeon_template(DungeonTemplate.DEMO)]. *)
Definition demo_game : @Game externals :=
  @MkGame externals PLAYING 800 600 no_sprites {| projectiles := [] |} tt idle PNone
    [] [] None 0%Q 0%Q None false None None (PFloat 0) DEMO tt ∅ ∅ ∅ 0%nat
    {| draws := fun n => Z.of_nat n; consumed := 0%nat |}.

End Faulty.

(** * Collaborators with a small room

    The reference collaborators, except that room (1, 0) of every dungeon is
    a normal room 150 wide. *)

Module Cramped.
Import Reference Scenarios.

Definition small_room : Room :=
  {| grid_pos := (1, 0); room_width := 150; room_height := 600; floor_y := 500;
     room_kind := NORMAL |}.

Definition current_room_small (d : Dungeon) : option Room :=
  if bool_decide (position d = (1, 0)) then Some small_room else current_room d.

Definition externals : Externals := {|
  DungeonManager := Dungeon;
  DungeonManager_new := build;
  get_current_room := current_room_small;
  get_current_room_position := position;
  get_player_spawn_position_for_current_room := spawn_position;
  set_current_room_by_coordinates := move_to;
  update_current_room_interactions := fun d _ _ _ _ => d;
  try_enter_walkthrough_door := walk_through;
  try_enter_interactive_door := interact;
  check_pillar_collection := fun d _ _ _ _ => d;
  update_pillars := fun d _ => d;
  RoomTransitionManager := Transition;
  transition_update := tick;
  is_transitioning := active;
  start_transition := start;
  Knight := make_hero KNIGHT 375;
  Archer := make_hero ARCHER 150;
  Cleric := make_hero CLERIC 250;
  activate_attack := fun h pm => (set_attacking true h, pm);
  activate_special_ability := fun h pm => (h, pm);
  handle_input := fun h keys _ pm => (walk h keys, pm);
  hero_update := fun h _ pm => (h, pm);
  get_attack_hitbox := fun h =>
    if is_attacking h
    then Some {| rect_x := x h + width h; rect_y := y h; rect_w := 80; rect_h := height h |}
    else None;
  calculate_damage := fun _ _ => 55;
  DemonBoss := boss;
  enemy_update := fun e _ => e;
  move_towards_target := fun e _ _ _ => e;
  enemy_attack := fun e h => (e, h);
  take_damage := hurt;
  projectiles_update := fun pm _ => pm;
  projectiles_check_collisions := fun pm es => (pm, es);
  PlatformManager := unit;
  platforms_update := fun p _ => p;
  platforms_check_collisions := fun p h => (p, h);
  Minimap := unit;
  clear_all_rooms := fun m => m;
  sync_with_dungeon_manager := fun m _ => m;
  update_player_position := fun m _ => m;
  SaveLoadSystem := gmap string (gmap string PyVal);
  sl_save_game := store_record;
  sl_load_game_state := fetch_record
|}.

(** A run over these collaborators in the DEMO dungeon: a knight five units
    short of the right door of the start room. *)
Definition before_door : @Game externals :=
  @MkGame externals PLAYING 800 600 no_sprites {| projectiles := [] |} tt idle PNone
    [(KNIGHT, 0%nat)] [] (Some 0%nat) 0%Q 0%Q (Some KNIGHT) true
    (Some {| template := DEMO; position := (0, 0) |}) (room_at DEMO (0, 0))
    (PFloat 0) DEMO tt ∅ {[ 0%nat := knight_at 1515 436 ]} ∅ 1%nat
    {| draws := fun n => Z.of_nat n; consumed := 0%nat |}.

(** One tick with the right key held takes the knight into the door and
    starts the fade; 0.3 s later the dungeon tracks the small room, the game
    still shows the start room and the fade has not reached its midpoint. *)
Definition mid_fade : @Game externals :=
  snd (@update externals (3 # 10) no_keys no_keys
         (snd (@update externals (1 # 60) press_right no_keys before_door))).

End Cramped.

(** * A stand-in for pygame, the csv file and the sprite sheet

    Used to run [load_tiles] on a concrete input: an image is its size, a
    sprite sheet is the list of the names it holds, every sprite is 16 by 16,
    and one file exists. *)

Module TileReference.

Definition sheet_lookup (sheet : list string) (name : string) : result (Z * Z) :=
  if bool_decide (name ∈ sheet) then Ok (16, 16) else Err (KeyError name).

(** The rows of level.csv: three rows of different lengths. *)
Definition level_rows : list (list string) :=
  [["1"; "1"; "2"; "1"]; ["-1"; "-1"]; ["2"; "1"; "1"]].

Definition open_level (filename : PyVal) : result (list (list string)) :=
  match filename with
  | PStr name =>
      if String.eqb name "level.csv" then Ok level_rows
      else Err (OtherError "No such file or directory")
  | _ => Err (TypeError "expected str, bytes or os.PathLike object")
  end.

#[export] Instance tile_externals : Tiles.TileExternals := {|
  Tiles.Surface := Z * Z;
  Tiles.Spritesheet := list string;
  Tiles.parse_sprite := sheet_lookup;
  Tiles.get_size := fun s => s;
  Tiles.Surface_new := fun w h => Ok (w, h);
  Tiles.set_colorkey := fun s _ => s;
  Tiles.open_csv := open_level
|}.

Definition ground_sheet : @Tiles.Spritesheet tile_externals :=
  ["ground.png"; "ground2.png"].

End TileReference.

(** * Properties of [Game] *)

Section GameProperties.
Context `{E : Externals}.

Lemma bind_returns {A B} (m : M A) (k : A -> M B) g a g' :
  m g = (Returns a, g') -> bind m k g = k a g'.
Proof. intros H. unfold bind. now rewrite H. Qed.

Lemma bind_raises {A B} (m : M A) (k : A -> M B) g e g' :
  m g = (Raises e, g') -> bind m k g = (Raises e, g').
Proof. intros H. unfold bind. now rewrite H. Qed.

Lemma bind_assoc {A B C} (m : M A) (k1 : A -> M B) (k2 : B -> M C) g :
  bind (bind m k1) k2 g = bind m (fun a => bind (k1 a) k2) g.
Proof. unfold bind. now destruct (m g) as [[a|e|] g']. Qed.

Lemma bind_get {B} (k : Game -> M B) g : bind get k g = k g g.
Proof. reflexivity. Qed.

Lemma bind_ret {A B} (a : A) (k : A -> M B) g : bind (ret a) k g = k a g.
Proof. reflexivity. Qed.

Lemma bind_modify {B} (f : Game -> Game) (k : unit -> M B) g :
  bind (modify f) k g = k tt (f g).
Proof. reflexivity. Qed.

Lemma bind_raise {A B} (e : exn) (k : A -> M B) g :
  bind (raise e) k g = (Raises e, g).
Proof. reflexivity. Qed.

Lemma bind_lift_ok {A B} (a : A) (k : A -> M B) g : bind (lift (Ok a)) k g = k a g.
Proof. reflexivity. Qed.

Lemma bind_lift_err {A B} (e : exn) (k : A -> M B) g :
  bind (lift (Err e)) k g = (Raises e, g).
Proof. reflexivity. Qed.

Lemma get_hero_returns g r h :
  hero_objects g !! r = Some h -> get_hero r g = (Returns h, g).
Proof. intros H. unfold get_hero. now rewrite H. Qed.

Lemma get_enemy_returns g r e :
  enemy_objects g !! r = Some e -> get_enemy r g = (Returns e, g).
Proof. intros H. unfold get_enemy. now rewrite H. Qed.

Lemma map_M_get_hero g refs heroes :
  Forall2 (fun r h => hero_objects g !! r = Some h) refs heroes ->
  map_M get_hero refs g = (Returns heroes, g).
Proof.
  induction 1 as [|r h refs heroes Hr _ IH]; [reflexivity|].
  cbn [map_M]. rewrite (bind_returns _ _ g h g (get_hero_returns _ _ _ Hr)).
  now rewrite (bind_returns _ _ g heroes g IH).
Qed.

Lemma map_M_get_enemy g refs enemies :
  Forall2 (fun r e => enemy_objects g !! r = Some e) refs enemies ->
  map_M get_enemy refs g = (Returns enemies, g).
Proof.
  induction 1 as [|r e refs enemies Hr _ IH]; [reflexivity|].
  cbn [map_M]. rewrite (bind_returns _ _ g e g (get_enemy_returns _ _ _ Hr)).
  now rewrite (bind_returns _ _ g enemies g IH).
Qed.

Lemma forallb_dead_heroes (heroes : list Hero) :
  forallb (fun hero => negb (is_alive hero)) heroes = true <->
  Forall (fun h => is_alive h = false) heroes.
Proof.
  rewrite forallb_forall, Forall_forall. unfold elem_of.
  split; intros H h Hin.
  - apply list_elem_of_In in Hin. apply H in Hin. now destruct (is_alive h).
  - apply list_elem_of_In, H in Hin. now rewrite Hin.
Qed.

Lemma forallb_dead_enemies (enemies : list Enemy) :
  forallb (fun enemy => negb (enemy_is_alive enemy)) enemies = true <->
  Forall (fun e => enemy_is_alive e = false) enemies.
Proof.
  rewrite forallb_forall, Forall_forall. unfold elem_of.
  split; intros H e Hin.
  - apply list_elem_of_In in Hin. apply H in Hin. now destruct (enemy_is_alive e).
  - apply list_elem_of_In, H in Hin. now rewrite Hin.
Qed.

(** [_check_game_state] by cases on what the store holds. *)
Lemma check_game_state_cases g heroes enemies :
  heroes_are g heroes -> enemies_are g enemies ->
  _check_game_state g =
    if forallb (fun hero => negb (is_alive hero)) heroes
    then (Returns tt, set_state GAME_OVER g)
    else match enemies with
         | [] => (Returns tt, g)
         | _ :: _ =>
             if forallb (fun enemy => negb (enemy_is_alive enemy)) enemies
             then (Returns tt, set_state VICTORY g)
             else (Returns tt, g)
         end.
Proof.
  intros Hh He. unfold _check_game_state. rewrite bind_get.
  rewrite (bind_returns _ _ g heroes g (map_M_get_hero _ _ _ Hh)).
  destruct (forallb _ heroes); [reflexivity|].
  unfold enemies_are in He.
  pose proof (map_M_get_enemy _ _ _ He) as Hm.
  destruct (_enemies g) as [|r refs].
  - inversion He. reflexivity.
  - destruct enemies as [|e enemies]; [inversion He|].
    rewrite (bind_returns _ _ _ _ _ Hm).
    now destruct (forallb _ (e :: enemies)).
Qed.

(** ** Win and loss evaluation *)

(** C9: on an evaluation tick where every hero is dead and the non-empty
    enemies list holds only dead enemies, the state becomes GAME_OVER, not
    VICTORY: the heroes are examined first. *)
Theorem game_over_has_priority g heroes enemies :
  heroes_are g heroes -> enemies_are g enemies ->
  Forall (fun h => is_alive h = false) heroes ->
  enemies <> [] -> Forall (fun e => enemy_is_alive e = false) enemies ->
  _check_game_state g = (Returns tt, set_state GAME_OVER g) /\
  state (snd (_check_game_state g)) <> VICTORY.
Proof.
  intros Hh He Hdead _ _.
  rewrite (check_game_state_cases g heroes enemies Hh He).
  apply forallb_dead_heroes in Hdead. rewrite Hdead. split; [reflexivity|discriminate].
Qed.

(** C5 (amended): every hero dead gives GAME_OVER; a living hero, a
    non-empty enemies list and every enemy dead give VICTORY; with an empty
    enemies list the evaluation never produces VICTORY. *)
Theorem check_game_state_verdict g heroes enemies :
  heroes_are g heroes -> enemies_are g enemies ->
  (Forall (fun h => is_alive h = false) heroes ->
     _check_game_state g = (Returns tt, set_state GAME_OVER g)) /\
  (Exists (fun h => is_alive h = true) heroes ->
   enemies <> [] -> Forall (fun e => enemy_is_alive e = false) enemies ->
     _check_game_state g = (Returns tt, set_state VICTORY g)) /\
  (enemies = [] -> state g <> VICTORY ->
     state (snd (_check_game_state g)) <> VICTORY).
Proof.
  intros Hh He. rewrite (check_game_state_cases g heroes enemies Hh He).
  split; [|split].
  - intros Hdead. apply forallb_dead_heroes in Hdead. now rewrite Hdead.
  - intros Halive Hne Hdead.
    destruct (forallb _ heroes) eqn:Hall.
    + apply forallb_dead_heroes in Hall. apply Exists_exists in Halive.
      destruct Halive as (h & Hin & Hal). rewrite Forall_forall in Hall.
      specialize (Hall h Hin). congruence.
    + destruct enemies as [|e enemies]; [congruence|].
      apply forallb_dead_enemies in Hdead. now rewrite Hdead.
  - intros -> Hstate. now destruct (forallb _ heroes).
Qed.

(** ** Hero selection *)

(** C8: a value that is not a member of [HeroType] makes [select_hero] and
    [_create_hero] raise ValueError with the game exactly as it was. *)
Theorem unrecognized_hero_type_rejected (v px py : PyVal) (g : Game) :
  as_HeroType v = None ->
  select_hero v g = (Raises (ValueError "Invalid hero type"), g) /\
  _create_hero v px py g = (Raises (ValueError "Invalid hero type"), g).
Proof.
  intros Hv. unfold select_hero, _create_hero. rewrite Hv. split; reflexivity.
Qed.

(** ** The door hitbox *)

(** C4 (amended): the box of the door check starts a quarter of the hero's
    width in from the left edge, is half the hero's width wide and 16 tall,
    and ends at the bottom of the hero's box; when the width is a multiple
    of four the box is centred. It is the box [_check_door_traversal] hands
    to the dungeon manager. *)
Theorem door_hitbox_geometry (h : Hero) :
  rect_x (door_hitbox h) = x h + width h / 4 /\
  rect_w (door_hitbox h) = width h / 2 /\
  rect_h (door_hitbox h) = 16 /\
  rect_y (door_hitbox h) + rect_h (door_hitbox h) = y h + height h /\
  (width h mod 4 = 0 ->
     rect_x (door_hitbox h) - x h =
     (x h + width h) - (rect_x (door_hitbox h) + rect_w (door_hitbox h))) /\
  (forall g r room dm prev_x prev_y pressed,
     _current_room g = Some room -> _active_hero g = Some r ->
     hero_objects g !! r = Some h -> _dungeon_manager g = Some dm ->
     let box := door_hitbox h in
     let dm1 := update_current_room_interactions dm
                  (rect_x box) (rect_y box) (rect_w box) (rect_h box) in
     fst (try_enter_walkthrough_door dm1 (rect_x box) (rect_y box)) = false ->
     pressed K_e = false ->
     _check_door_traversal prev_x prev_y pressed g =
       (Returns tt,
        set_dungeon_manager
          (Some (snd (try_enter_walkthrough_door dm1 (rect_x box) (rect_y box)))) g)).
Proof.
  repeat split; try reflexivity.
  - cbn. lia.
  - intros Hmod. cbn.
    pose proof (Z.div_mod (width h) 4 ltac:(lia)) as H4.
    assert (width h / 2 = 2 * (width h / 4)) as ->.
    { rewrite Hmod, Z.add_0_r in H4. rewrite H4 at 1.
      replace (4 * (width h / 4)) with ((2 * (width h / 4)) * 2) by lia.
      apply Z.div_mul. lia. }
    lia.
  - intros g r room dm prev_x prev_y pressed Hroom Hhero Hobj Hdm box dm1 Hwalk Hkey.
    unfold _check_door_traversal. rewrite bind_get, Hroom, Hhero.
    rewrite (bind_returns _ _ _ _ _ (get_hero_returns _ _ _ Hobj)).
    unfold the_dungeon_manager at 1. unfold bind at 1. rewrite Hdm.
    rewrite bind_modify. unfold bind at 1, the_dungeon_manager.
    cbn [_dungeon_manager set_dungeon_manager].
    fold box. fold dm1.
    destruct (try_enter_walkthrough_door dm1 (rect_x box) (rect_y box)) as [entered dm'] eqn:Hw.
    cbn in Hwalk. subst entered. rewrite bind_modify, Hkey. reflexivity.
Qed.

(** ** Room bounds and the update tick *)

Lemma set_hero_objects_same g : set_hero_objects (hero_objects g) g = g.
Proof. now destruct g. Qed.

Lemma with_hero_same g r h : hero_objects g !! r = Some h -> with_hero r h g = g.
Proof.
  intros H. unfold with_hero. rewrite (insert_id _ _ _ H). apply set_hero_objects_same.
Qed.

Lemma with_hero_twice g r h1 h2 : with_hero r h2 (with_hero r h1 g) = with_hero r h2 g.
Proof. unfold with_hero. cbn. now rewrite insert_insert_eq. Qed.

Lemma lookup_with_hero g r h : hero_objects (with_hero r h g) !! r = Some h.
Proof. unfold with_hero. cbn. apply lookup_insert_eq. Qed.

Lemma modify_hero_returns g r h f :
  hero_objects g !! r = Some h -> modify_hero r f g = (Returns tt, with_hero r (f h) g).
Proof.
  intros H. unfold modify_hero.
  now rewrite (bind_returns _ _ _ _ _ (get_hero_returns _ _ _ H)).
Qed.

Lemma when_modify_hero g r h f (c : bool) :
  hero_objects g !! r = Some h ->
  when c (modify_hero r f) g = (Returns tt, with_hero r (if c then f h else h) g).
Proof.
  intros H. destruct c; cbn [when].
  - now apply modify_hero_returns.
  - now rewrite with_hero_same.
Qed.

(** [_enforce_room_bounds] in closed form. *)
Lemma enforce_room_bounds_cases g :
  _enforce_room_bounds g =
    match _active_hero g, _current_room g with
    | Some r, Some room =>
        match hero_objects g !! r with
        | Some h => (Returns tt, with_hero r (clamp_to_room room h) g)
        | None => (Dangling, g)
        end
    | _, _ => (Returns tt, g)
    end.
Proof.
  unfold _enforce_room_bounds. rewrite bind_get.
  destruct (_active_hero g) as [r|]; [|reflexivity].
  destruct (_current_room g) as [room|]; [|reflexivity].
  destruct (hero_objects g !! r) as [h|] eqn:Hh.
  - rewrite (bind_returns _ _ _ _ _ (get_hero_returns _ _ _ Hh)).
    rewrite (bind_returns _ _ _ _ _ (when_modify_hero g r h _ _ Hh)).
    set (h1 := if x h <? 0 then hero_set_x 0 h else h).
    rewrite (bind_returns _ _ _ _ _ (get_hero_returns _ _ _ (lookup_with_hero g r h1))).
    rewrite (bind_returns _ _ _ _ _
               (when_modify_hero _ r h1 _ _ (lookup_with_hero g r h1))).
    rewrite with_hero_twice.
    set (h2 := if room_width room <? x h1 + width h1
               then hero_set_x (room_width room - width h1) h1 else h1).
    rewrite (bind_returns _ _ _ _ _ (get_hero_returns _ _ _ (lookup_with_hero g r h2))).
    rewrite (when_modify_hero _ r h2 _ _ (lookup_with_hero g r h2)).
    now rewrite with_hero_twice.
  - unfold bind, get_hero. now rewrite Hh.
Qed.

(** The box of a clamped hero. *)
Lemma clamp_to_room_box room h :
  let h' := clamp_to_room room h in
  width h' = width h /\ height h' = height h /\ health h' = health h /\
  is_alive h' = is_alive h /\
  x h' + width h' <= room_width room /\
  y h' + height h' <= floor_y room /\
  (width h <= room_width room -> 0 <= x h').
Proof.
  unfold clamp_to_room.
  destruct (x h <? 0) eqn:H1; cbn [x y width height hero_set_x health is_alive];
  match goal with |- context [room_width room <? ?a] =>
    destruct (room_width room <? a) eqn:H2 end;
  cbn [x y width height hero_set_x health is_alive];
  match goal with |- context [floor_y room <? ?a] =>
    destruct (floor_y room <? a) eqn:H3 end;
  cbn [x y width height hero_set_x hero_set_y health is_alive];
  repeat split; lia.
Qed.

(** [update] on a PLAYING tick: the timer, then the clamp, then the gate. *)
Lemma update_playing dt keys pressed g g1 :
  state g = PLAYING ->
  transition_manager_update dt g = (Returns tt, g1) ->
  update dt keys pressed g =
    match _enforce_room_bounds g1 with
    | (Returns _, g2) =>
        if is_transitioning (_transition_manager g2) then (Returns tt, g2)
        else gameplay dt keys pressed g2
    | (Raises e, g2) => (Raises e, g2)
    | (Dangling, g2) => (Dangling, g2)
    end.
Proof.
  intros Hs Ht. unfold update. rewrite bind_get, Hs.
  rewrite bool_decide_eq_true_2 by reflexivity. cbn [negb].
  rewrite (bind_returns _ _ _ _ _ Ht).
  unfold bind at 1. destruct (_enforce_room_bounds g1) as [[[]|e|] g2]; try reflexivity.
  rewrite bind_get. now destruct (is_transitioning (_transition_manager g2)).
Qed.

Lemma transition_manager_update_quiet dt g after :
  transition_update (_transition_manager g) dt = Quiet after ->
  transition_manager_update dt g = (Returns tt, set_transition_manager after g).
Proof.
  intros H. unfold transition_manager_update. rewrite bind_get, H. reflexivity.
Qed.

(** C7 (amended): [_enforce_room_bounds] leaves the active hero's box with
    x + width <= room.width and y + height <= room.floor_y, and with 0 <= x
    when the hero is no wider than the room. On a PLAYING tick it runs right
    after the update of the transition timer and before the gate on the
    transition, so also on a tick during a transition, provided the update
    of the timer returns. The update of the timer returns on every tick on
    which the timer does not invoke its completion callback. When the
    callback, [_complete_room_transition], raises, [update] raises the same
    exception from the state the callback left, and the clamp does not run
    on that tick. *)
Theorem room_bounds_enforced_on_playing_tick dt keys pressed g :
  state g = PLAYING ->
  (forall g1 r h room,
     transition_manager_update dt g = (Returns tt, g1) ->
     _active_hero g1 = Some r -> hero_objects g1 !! r = Some h ->
     _current_room g1 = Some room ->
     let h' := clamp_to_room room h in
     let g2 := with_hero r h' g1 in
     _enforce_room_bounds g1 = (Returns tt, g2) /\
     hero_objects g2 !! r = Some h' /\
     width h' = width h /\ height h' = height h /\
     x h' + width h' <= room_width room /\
     y h' + height h' <= floor_y room /\
     (width h <= room_width room -> 0 <= x h') /\
     update dt keys pressed g =
       if is_transitioning (_transition_manager g2) then (Returns tt, g2)
       else gameplay dt keys pressed g2) /\
  (forall after,
     transition_update (_transition_manager g) dt = Quiet after ->
     transition_manager_update dt g = (Returns tt, set_transition_manager after g)) /\
  (forall e g1,
     transition_manager_update dt g = (Raises e, g1) ->
     update dt keys pressed g = (Raises e, g1) /\
     exists at_callback after,
       transition_update (_transition_manager g) dt = Fired at_callback after /\
       _complete_room_transition (set_transition_manager at_callback g) = (Raises e, g1)).
Proof.
  intros Hs. split; [|split].
  - intros g1 r h room Ht Hr Hh Hroom h' g2.
    assert (_enforce_room_bounds g1 = (Returns tt, g2)) as Hb.
    { rewrite enforce_room_bounds_cases, Hr, Hroom, Hh. reflexivity. }
    destruct (clamp_to_room_box room h) as (Hw & Hht & _ & _ & Hx & Hy & H0).
    repeat split; try assumption.
    + apply lookup_with_hero.
    + rewrite (update_playing dt keys pressed g g1 Hs Ht), Hb. reflexivity.
  - apply transition_manager_update_quiet.
  - intros e g1 Ht. split.
    + unfold update. rewrite bind_get, Hs.
      rewrite bool_decide_eq_true_2 by reflexivity. cbn [negb].
      unfold bind at 1. now rewrite Ht.
    + unfold transition_manager_update in Ht. rewrite bind_get in Ht.
      destruct (transition_update (_transition_manager g) dt) as [after|at_callback after].
      * discriminate Ht.
      * exists at_callback, after. split; [reflexivity|].
        rewrite bind_modify in Ht. unfold bind at 1 in Ht.
        destruct (_complete_room_transition (set_transition_manager at_callback g))
          as [[[]|e'|] g'] eqn:Hc.
        -- discriminate Ht.
        -- now inversion Ht.
        -- discriminate Ht.
Qed.

(** C6 (amended): on a PLAYING tick after whose timer advance the transition
    is still active, [update] is the timer advance followed by the clamp and
    nothing else; when the timer did not fire its callback on that tick, the
    camera, the enemies, the projectiles, the dungeon and the game state are
    unchanged and every hero keeps its health and, clamping of the active
    hero apart, its position. *)
Theorem transitioning_tick_suspends_gameplay dt keys pressed g :
  state g = PLAYING ->
  (forall g1,
     transition_manager_update dt g = (Returns tt, g1) ->
     is_transitioning (_transition_manager g1) = true ->
     update dt keys pressed g = _enforce_room_bounds g1) /\
  (forall after,
     transition_update (_transition_manager g) dt = Quiet after ->
     is_transitioning after = true ->
     let g' := snd (update dt keys pressed g) in
     _transition_manager g' = after /\
     _camera_x g' = _camera_x g /\ _camera_y g' = _camera_y g /\
     _enemies g' = _enemies g /\ enemy_objects g' = enemy_objects g /\
     projectile_manager g' = projectile_manager g /\
     _dungeon_manager g' = _dungeon_manager g /\
     _current_room g' = _current_room g /\
     _pending_door g' = _pending_door g /\
     _heroes g' = _heroes g /\ _active_hero g' = _active_hero g /\
     state g' = state g /\
     forall r h, hero_objects g !! r = Some h ->
       exists h', hero_objects g' !! r = Some h' /\
         health h' = health h /\ is_alive h' = is_alive h /\
         (h' = h \/
          exists room, _active_hero g = Some r /\ _current_room g = Some room /\
                       h' = clamp_to_room room h)).
Proof.
  intros Hs. split.
  - intros g1 Ht Htr. rewrite (update_playing dt keys pressed g g1 Hs Ht).
    rewrite enforce_room_bounds_cases.
    destruct (_active_hero g1) as [r|]; [|now rewrite Htr].
    destruct (_current_room g1) as [room|]; [|now rewrite Htr].
    destruct (hero_objects g1 !! r) as [h|]; [|reflexivity].
    cbn [with_hero set_hero_objects _transition_manager]. now rewrite Htr.
  - intros after Hq Htr g'.
    pose proof (transition_manager_update_quiet dt g after Hq) as Ht.
    subst g'. rewrite (update_playing dt keys pressed g _ Hs Ht).
    rewrite enforce_room_bounds_cases.
    cbn [set_transition_manager _active_hero _current_room hero_objects].
    destruct (_active_hero g) as [r|] eqn:Hr.
    2:{ cbn. rewrite Htr. cbn. repeat (split; [first [reflexivity | assumption]|]).
        intros r h Hh. eauto 10. }
    destruct (_current_room g) as [room|] eqn:Hroom.
    2:{ cbn. rewrite Htr. cbn. repeat (split; [first [reflexivity | assumption]|]).
        intros r0 h Hh. eauto 10. }
    destruct (hero_objects g !! r) as [h|] eqn:Hh.
    2:{ cbn. repeat (split; [first [reflexivity | assumption]|]). intros r0 h0 Hh0. eauto 10. }
    cbn. rewrite Htr. cbn. repeat (split; [first [reflexivity | assumption]|]).
    intros r0 h0 Hh0.
    destruct (clamp_to_room_box room h) as (_ & _ & Hhealth & Halive & _).
    destruct (decide (r0 = r)) as [->|Hne].
    + rewrite lookup_insert_eq. exists (clamp_to_room room h).
      assert (h0 = h) as -> by congruence.
      repeat split; try assumption. right. exists room. repeat split; assumption.
    + rewrite lookup_insert_ne by congruence. exists h0. repeat split; try assumption.
      now left.
Qed.

(** ** Room change *)

Lemma bind_the_dungeon_manager {B} (k : DungeonManager -> M B) g dm :
  _dungeon_manager g = Some dm -> bind the_dungeon_manager k g = k dm g.
Proof. intros H. unfold bind, the_dungeon_manager. now rewrite H. Qed.

Lemma bind_get_hero {B} (k : Hero -> M B) g r h :
  hero_objects g !! r = Some h -> bind (get_hero r) k g = k h g.
Proof. intros H. apply bind_returns. now apply get_hero_returns. Qed.

Lemma bind_modify_hero {B} (k : unit -> M B) g r h f :
  hero_objects g !! r = Some h ->
  bind (modify_hero r f) k g = k tt (with_hero r (f h) g).
Proof. intros H. apply bind_returns. now apply modify_hero_returns. Qed.

Lemma set_rng_same g : set_rng (rng g) g = g.
Proof. now destruct g. Qed.

(** In a room at least 200 wide the loop of the regular-enemy branch only
    consumes random draws. *)
Lemma spawn_regular_enemies_draws n room g :
  200 <= room_width room ->
  exists s, spawn_regular_enemies n room g = (Returns tt, set_rng s g).
Proof.
  intros Hw. revert g. induction n as [|n IH]; intros g.
  - exists (rng g). cbn. now rewrite set_rng_same.
  - cbn [spawn_regular_enemies]. unfold bind at 1, random_randint, randint.
    replace (room_width room - 100 <? 100) with false by (symmetry; apply Z.ltb_ge; lia).
    cbn [of_result].
    destruct (IH (set_rng {| draws := draws (rng g); consumed := S (consumed (rng g)) |} g))
      as [s Hs].
    exists s. rewrite Hs. reflexivity.
Qed.

(** [random.randint(1, 3)] returns. *)
Lemma random_randint_1_3 g :
  exists n s, random_randint 1 3 g = (Returns n, set_rng s g) /\ 1 <= n <= 3.
Proof.
  unfold random_randint, randint.
  change (3 <? 1) with false. change (3 - 1 + 1) with 3. cbn [of_result].
  eexists _, _. split; [reflexivity|].
  pose proof (Z.mod_pos_bound (draws (rng g) (consumed (rng g))) 3 ltac:(lia)). lia.
Qed.

(** [_spawn_room_enemies] in a room that is neither the boss room nor the
    start room: the lists are emptied and nothing is added. *)
Lemma spawn_room_enemies_normal g room :
  _current_room g = Some room -> room_kind room = NORMAL ->
  200 <= room_width room ->
  exists s,
    _spawn_room_enemies g =
      (Returns tt,
       set_rng s (set_sprites (set_enemy_sprites [] (sprites g)) (set_enemies [] g))).
Proof.
  intros Hroom Hkind Hw. unfold _spawn_room_enemies.
  rewrite bind_get, Hroom, !bind_modify.
  unfold is_boss_room, is_start_room. rewrite Hkind. cbn [negb].
  match goal with |- context [bind _ _ ?g0] =>
    destruct (random_randint_1_3 g0) as (n & s & Hn & _) end.
  rewrite (bind_returns _ _ _ _ _ Hn).
  match goal with |- context [spawn_regular_enemies ?k room ?g0] =>
    destruct (spawn_regular_enemies_draws k room g0 Hw) as [s' Hs'] end.
  exists s'. rewrite Hs'. reflexivity.
Qed.

(** In the start room the lists are emptied and nothing is added. *)
Lemma spawn_room_enemies_start g room :
  _current_room g = Some room -> room_kind room = START ->
  _spawn_room_enemies g =
    (Returns tt, set_sprites (set_enemy_sprites [] (sprites g)) (set_enemies [] g)).
Proof.
  intros Hroom Hkind. unfold _spawn_room_enemies.
  rewrite bind_get, Hroom, !bind_modify.
  unfold is_boss_room, is_start_room. rewrite Hkind. reflexivity.
Qed.

(** In the boss room the enemies are exactly one new [DemonBoss]. *)
Lemma spawn_room_enemies_boss g room :
  _current_room g = Some room -> room_kind room = BOSS ->
  exists g',
    _spawn_room_enemies g = (Returns tt, g') /\
    _enemies g' = [next_ref g] /\
    enemy_sprites (sprites g') = [EnemyRef (next_ref g)] /\
    enemy_objects g' !! next_ref g =
      Some (DemonBoss (room_width room / 2) (floor_y room - 100)).
Proof.
  intros Hroom Hkind. unfold _spawn_room_enemies.
  rewrite bind_get, Hroom, !bind_modify.
  unfold is_boss_room. rewrite Hkind.
  unfold bind at 1, new_enemy. rewrite !bind_modify.
  eexists. split; [reflexivity|]. cbn.
  repeat split. apply lookup_insert_eq.
Qed.

Lemma reposition_hero_returns g dm room r h :
  _dungeon_manager g = Some dm -> _current_room g = Some room ->
  _active_hero g = Some r -> hero_objects g !! r = Some h ->
  _reposition_hero_after_door_traversal g =
    (Returns tt, with_hero r (repositioned dm room h) g).
Proof.
  intros Hdm Hroom Hr Hh. unfold _reposition_hero_after_door_traversal.
  rewrite bind_get, Hr, Hroom.
  rewrite (bind_the_dungeon_manager _ _ _ Hdm), (bind_get_hero _ _ _ _ Hh).
  unfold repositioned.
  destruct (get_player_spawn_position_for_current_room dm (width h) (height h))
    as [spawn_x spawn_y].
  rewrite (bind_modify_hero _ _ _ _ _ Hh).
  rewrite (bind_modify_hero _ _ _ _ _ (lookup_with_hero _ _ _)), with_hero_twice.
  rewrite (modify_hero_returns _ _ _ _ (lookup_with_hero _ _ _)), with_hero_twice.
  reflexivity.
Qed.

(** [_complete_room_transition] up to [_handle_room_change]: the room is
    swapped, the hero repositioned, the camera snapped. *)
Lemma complete_room_transition_steps g dm room r h :
  _dungeon_manager g = Some dm -> get_current_room dm = Some room ->
  _active_hero g = Some r -> hero_objects g !! r = Some h ->
  let h' := repositioned dm room h in
  let arrived :=
    set_camera_y (snapped (y h') (game_height g) (room_height room))
      (set_camera_x (snapped (x h') (game_width g) (room_width room))
         (with_hero r h' (set_current_room (Some room) g))) in
  _complete_room_transition g =
    bind _handle_room_change (fun _ =>
      let* dm := the_dungeon_manager in
      let* _ := modify (fun g => set_minimap (update_player_position (minimap g) dm) g) in
      modify (set_pending_door PNone)) arrived.
Proof.
  intros Hdm Hroom Hr Hh h' arrived. unfold _complete_room_transition.
  rewrite (bind_the_dungeon_manager _ _ _ Hdm), bind_modify, Hroom.
  rewrite (bind_returns _ _ _ _ _
             (reposition_hero_returns (set_current_room (Some room) g) dm room r h
                Hdm eq_refl Hr Hh)).
  fold h'. rewrite bind_get.
  cbn [with_hero set_hero_objects set_current_room _active_hero _current_room].
  rewrite Hr, bind_assoc.
  rewrite (bind_get_hero _ _ _ h') by (cbn; apply lookup_insert_eq).
  rewrite bind_assoc, !bind_modify. reflexivity.
Qed.

(** C3, the branch the code does not complete: when a transition completes
    into a room that is neither the start room nor the boss room (and is at
    least 200 wide, so that the random draws succeed), the projectiles are
    cleared and the enemies list is left empty: no enemy is spawned. *)
Theorem room_change_into_normal_room_spawns_nothing g dm room r h :
  _dungeon_manager g = Some dm -> get_current_room dm = Some room ->
  _active_hero g = Some r -> hero_objects g !! r = Some h ->
  room_kind room = NORMAL -> 200 <= room_width room ->
  exists g',
    _complete_room_transition g = (Returns tt, g') /\
    _current_room g' = Some room /\
    projectiles (projectile_manager g') = [] /\
    _enemies g' = [] /\
    enemy_sprites (sprites g') = [].
Proof.
  intros Hdm Hroom Hr Hh Hkind Hw.
  rewrite (complete_room_transition_steps g dm room r h Hdm Hroom Hr Hh).
  unfold _handle_room_change. unfold bind at 1. rewrite bind_modify.
  match goal with |- context [bind _spawn_room_enemies _ ?g0] =>
    destruct (spawn_room_enemies_normal g0 room eq_refl Hkind Hw) as [s Hs] end.
  rewrite (bind_returns _ _ _ _ _ Hs), bind_get.
  cbn [set_rng set_sprites set_enemies set_projectile_manager set_camera_x set_camera_y
       with_hero set_hero_objects set_current_room _current_room].
  unfold is_boss_room. rewrite Hkind. cbn [when ret].
  rewrite (bind_the_dungeon_manager _ _ dm) by exact Hdm.
  rewrite bind_modify. eexists. split; [reflexivity|]. cbn. repeat split.
Qed.

(** ** Initialisation *)

Lemma bind_new_hero {B} (h : Hero) (k : nat -> M B) g :
  bind (new_hero h) k g =
    k (next_ref g)
      (set_next_ref (S (next_ref g))
         (set_hero_objects (<[next_ref g := h]> (hero_objects g)) g)).
Proof. reflexivity. Qed.

Lemma as_HeroType_of_HeroType t : as_HeroType (of_HeroType t) = Some t.
Proof. now destruct t. Qed.

(** [_initialize_game] when the dungeon can be built: a new hero object is
    created at the next free reference, placed at the spawn point of the
    start room and made the active hero. *)
Lemma initialize_game_returns g t dm room :
  _selected_hero_type g = Some t ->
  DungeonManager_new (3, 3) "assets/levels/flat-tileset.csv"
    "assets/environment/old-dark-castle-interior-tileset.png" (_dungeon_template g) = Ok dm ->
  get_current_room dm = Some room ->
  exists g',
    _initialize_game g = (Returns tt, g') /\
    _active_hero g' = Some (next_ref g) /\
    hero_objects g' !! next_ref g = Some (repositioned dm room (created_hero t)) /\
    _heroes g' = [(t, next_ref g)] /\
    _dungeon_manager g' = Some dm /\
    _current_room g' = Some room /\
    _dungeon_template g' = _dungeon_template g /\
    _selected_hero_type g' = Some t /\
    _play_time g' = _play_time g /\
    saveloadmanager g' = saveloadmanager g.
Proof.
  intros Ht Hdm Hroom.
  unfold _initialize_game, cleanup. rewrite bind_modify.
  unfold _initialize_dungeon. rewrite bind_assoc, bind_get.
  cbn [set_minimap set_sprites set_enemies set_heroes _selected_hero_type _dungeon_template].
  rewrite Ht, bind_assoc, Hdm, bind_lift_ok.
  rewrite bind_assoc, bind_modify, bind_assoc, bind_modify, Hroom.
  rewrite bind_assoc, bind_modify. unfold _setup_door_requirements. rewrite bind_ret, bind_get.
  cbn [set_minimap set_sprites set_enemies set_heroes set_dungeon_manager set_current_room
       _current_room _selected_hero_type selected_hero_type_value].
  unfold selected_hero_type_value.
  cbn [set_minimap set_sprites set_enemies set_heroes set_dungeon_manager set_current_room
       _current_room _selected_hero_type].
  rewrite Ht. unfold _create_hero. rewrite as_HeroType_of_HeroType.
  cbn [is_number negb orb].
  assert (match t with
          | KNIGHT => new_hero (Knight (PInt 0) (PInt 0))
          | ARCHER => new_hero (hero_set_has_projectile_manager true (Archer (PInt 0) (PInt 0)))
          | CLERIC => new_hero (hero_set_has_projectile_manager true (Cleric (PInt 0) (PInt 0)))
          end = new_hero (created_hero t)) as -> by now destruct t.
  rewrite bind_assoc, bind_new_hero. unfold _initialize_hero.
  rewrite bind_assoc, bind_modify, bind_ret.
  rewrite (bind_the_dungeon_manager _ _ dm) by reflexivity.
  rewrite (bind_get_hero _ _ _ (created_hero t)) by (cbn; apply lookup_insert_eq).
  unfold repositioned.
  destruct (get_player_spawn_position_for_current_room dm
              (width (created_hero t)) (height (created_hero t))) as [start_x start_y].
  rewrite (bind_modify_hero _ _ _ (created_hero t)) by (cbn; apply lookup_insert_eq).
  rewrite (bind_modify_hero _ _ _ _ _ (lookup_with_hero _ _ _)), with_hero_twice.
  rewrite (bind_modify_hero _ _ _ _ _ (lookup_with_hero _ _ _)), with_hero_twice.
  rewrite bind_modify.
  eexists. split; [reflexivity|]. cbn.
  rewrite insert_insert_eq, lookup_insert_eq. repeat split. exact Ht.
Qed.

(** ** Saving and loading *)

Lemma HeroType_getitem_name t : HeroType_getitem (PStr (HeroType_name t)) = Ok t.
Proof. now destruct t. Qed.

Lemma DungeonTemplate_getitem_name t :
  DungeonTemplate_getitem (PStr (DungeonTemplate_name t)) = Ok t.
Proof. now destruct t. Qed.





Lemma assign_active_hero_returns g r h setter z :
  _active_hero g = Some r -> hero_objects g !! r = Some h ->
  assign_active_hero setter (PInt z) g = (Returns tt, with_hero r (setter z h) g).
Proof.
  intros Hr Hh. unfold assign_active_hero.
  rewrite bind_get, Hr. now apply modify_hero_returns.
Qed.



Lemma extract_data_unreadable game_state :
  unreadable game_state -> exists e, extract_data game_state = Err e.
Proof.
  unfold unreadable, extract_data, dict_getitem.
  intros [(k & Hk & Hnone) | [(v & e & Hv & He) | (v & e & Hv & He)]].
  - cbn in Hk.
    destruct (game_state !! "hero_type") as [v1|] eqn:H1; [|eauto].
    destruct (HeroType_getitem v1); [|eauto].
    destruct (game_state !! "hero_position") eqn:H2; [|eauto].
    destruct (game_state !! "hero_health") eqn:H3; [|eauto].
    destruct (game_state !! "current_room") eqn:H4; [|eauto].
    destruct (game_state !! "dungeon_template") eqn:H5; [|eauto].
    exfalso. destruct Hk as [<-|[<-|[<-|[<-|[<-|[]]]]]]; congruence.
  - rewrite Hv, He. eauto.
  - destruct (game_state !! "hero_type") as [v1|]; [|eauto].
    destruct (HeroType_getitem v1); [|eauto].
    destruct (game_state !! "hero_position"); [|eauto].
    destruct (game_state !! "hero_health"); [|eauto].
    destruct (game_state !! "current_room"); [|eauto].
    rewrite Hv, He. eauto.
Qed.

(** [_initialize_game] never follows a missing reference, keeps the selected
    hero type, the template and the play time, and when it returns the
    active hero and the dungeon manager are in place. *)
Lemma initialize_game_outcome g :
  match _initialize_game g with
  | (Dangling, _) => False
  | (Raises _, g') =>
      _selected_hero_type g' = _selected_hero_type g /\
      _dungeon_template g' = _dungeon_template g /\
      _play_time g' = _play_time g
  | (Returns _, g') =>
      _selected_hero_type g' = _selected_hero_type g /\
      _dungeon_template g' = _dungeon_template g /\
      _play_time g' = _play_time g /\
      exists r h dm,
        _active_hero g' = Some r /\ hero_objects g' !! r = Some h /\
        _dungeon_manager g' = Some dm
  end.
Proof.
  destruct (_selected_hero_type g) as [t|] eqn:Ht.
  - destruct (DungeonManager_new (3, 3) "assets/levels/flat-tileset.csv"
                "assets/environment/old-dark-castle-interior-tileset.png"
                (_dungeon_template g)) as [dm|e] eqn:Hdm.
    + destruct (get_current_room dm) as [room|] eqn:Hroom.
      * destruct (initialize_game_returns g t dm room Ht Hdm Hroom)
          as (g' & -> & Hactive & Hobj & _ & Hdm' & _ & Htemplate & Hsel & Hplay & _).
        repeat split; try assumption. eauto 10.
      * unfold _initialize_game, cleanup. rewrite bind_modify.
        unfold _initialize_dungeon. rewrite bind_assoc, bind_get.
        cbn [set_minimap set_sprites set_enemies set_heroes _selected_hero_type
             _dungeon_template].
        rewrite Ht, bind_assoc, Hdm, bind_lift_ok.
        rewrite bind_assoc, bind_modify, bind_assoc, bind_modify, Hroom.
        cbn. repeat split. assumption.
    + unfold _initialize_game, cleanup. rewrite bind_modify.
      unfold _initialize_dungeon. rewrite bind_assoc, bind_get.
      cbn [set_minimap set_sprites set_enemies set_heroes _selected_hero_type
           _dungeon_template].
      rewrite Ht, bind_assoc, Hdm, bind_lift_err. cbn. repeat split. assumption.
  - unfold _initialize_game, cleanup. rewrite bind_modify.
    unfold _initialize_dungeon. rewrite bind_assoc, bind_get.
    cbn [set_minimap set_sprites set_enemies set_heroes _selected_hero_type].
    rewrite Ht. cbn. repeat split. assumption.
Qed.

(** A record that is readable but whose hero position does not unpack into
    two values: [load_game] returns False after the hero type, the template
    and the play time of the record were stored in the game. *)
Lemma load_game_keeps_early_writes filename g game_state data e :
  sl_load_game_state (saveloadmanager g) filename = Ok (Some game_state) ->
  size game_state <> 0%nat ->
  extract_data game_state = Ok data ->
  unpack2 (saved_hero_pos data) = Err e ->
  exists g',
    load_game filename g = (Returns false, g') /\
    _selected_hero_type g' = Some (saved_hero_type data) /\
    _dungeon_template g' = saved_dungeon_template data /\
    _play_time g' = default (PInt 0) (game_state !! "play_time").
Proof.
  intros Hload Hsize Hdata Hpos.
  unfold load_game, try_except, load_game_try.
  rewrite bind_get, Hload, bind_lift_ok.
  rewrite (bool_decide_eq_false_2 _ Hsize), Hdata, bind_lift_ok, !bind_modify.
  match goal with |- context [bind _initialize_game _ ?g0] =>
    pose proof (initialize_game_outcome g0) as Hout;
    unfold bind at 1; destruct (_initialize_game g0) as [[[]|e'|] g1] end.
  - unfold apply_saved_hero_and_room. rewrite bind_assoc, Hpos, bind_lift_err.
    destruct Hout as (Hsel & Htemplate & Hplay & _).
    exists g1. repeat split; assumption.
  - destruct Hout as (Hsel & Htemplate & Hplay).
    exists g1. repeat split; assumption.
  - contradiction.
Qed.

(** [load_game_state], the variant that takes the record as an argument,
    stores the hero type before it reads the dungeon template: a record
    without a template leaves the hero type of the record in the game. *)
Lemma load_game_state_stores_hero_type_first game_state t g :
  game_state !! "hero_type" = Some (PStr (HeroType_name t)) ->
  game_state !! "dungeon_template" = None ->
  load_game_state game_state g = (Returns false, set_selected_hero_type (Some t) g).
Proof.
  intros Ht Hd. unfold load_game_state, try_except, dict_getitem.
  rewrite Ht, bind_lift_ok, HeroType_getitem_name, bind_lift_ok, bind_modify.
  now rewrite Hd, bind_lift_err.
Qed.

(** C1 (amended): whatever exception the [try] block of [load_game] raises,
    [load_game] returns False. When the save manager yields no record or an
    empty one, or the record lacks a required key or names no hero type or
    dungeon template, the game is left exactly as it was. When the record is
    readable and its hero position does not unpack into two values, the hero
    type, the dungeon template and the play time of the record have been
    stored in the game by the time False is returned. *)
Theorem failed_load_returns_false filename g :
  (forall e g', load_game_try filename g = (Raises e, g') ->
     load_game filename g = (Returns false, g')) /\
  (forall e, sl_load_game_state (saveloadmanager g) filename = Err e ->
     load_game filename g = (Returns false, g)) /\
  (sl_load_game_state (saveloadmanager g) filename = Ok None ->
     load_game filename g = (Returns false, g)) /\
  (forall game_state,
     sl_load_game_state (saveloadmanager g) filename = Ok (Some game_state) ->
     size game_state = 0%nat \/ unreadable game_state ->
     load_game filename g = (Returns false, g)) /\
  (forall game_state data e,
     sl_load_game_state (saveloadmanager g) filename = Ok (Some game_state) ->
     size game_state <> 0%nat ->
     extract_data game_state = Ok data ->
     unpack2 (saved_hero_pos data) = Err e ->
     exists g',
       load_game filename g = (Returns false, g') /\
       _selected_hero_type g' = Some (saved_hero_type data) /\
       _dungeon_template g' = saved_dungeon_template data /\
       _play_time g' = default (PInt 0) (game_state !! "play_time")).
Proof.
  split; [|split; [|split; [|split]]].
  - intros e g' H. unfold load_game, try_except. now rewrite H.
  - intros e H. unfold load_game, try_except, load_game_try.
    now rewrite bind_get, H, bind_lift_err.
  - intros H. unfold load_game, try_except, load_game_try.
    now rewrite bind_get, H, bind_lift_ok.
  - intros game_state H Hbad. unfold load_game, try_except, load_game_try.
    rewrite bind_get, H, bind_lift_ok.
    destruct (bool_decide (size game_state = 0%nat)) eqn:Hsize; [reflexivity|].
    destruct Hbad as [Hempty|Hbad].
    + apply bool_decide_eq_false_1 in Hsize. contradiction.
    + destruct (extract_data_unreadable _ Hbad) as [e He].
      now rewrite He, bind_lift_err.
  - intros game_state data e. apply load_game_keeps_early_writes.
Qed.

End GameProperties.

(** * Properties of [TileMap] *)

Section TileProperties.
Import Tiles.
Context `{T : TileExternals}.

(** A successful [load_tiles] has stored the size of the map. *)
Lemma load_tiles_sets_map_size self args loaded self' :
  load_tiles self args = (Ok loaded, self') ->
  exists w h, map_w self' = Some w /\ map_h self' = Some h.
Proof.
  unfold load_tiles. intros H.
  destruct args as [|filename [|]]; try discriminate.
  destruct (read_csv self filename); try discriminate.
  destruct (load_rows _ _) as [[[]|e] st]; try discriminate.
  injection H as _ <-. cbn. eauto.
Qed.

(** C10: for every filename and spritesheet the constructor of [TileMap]
    raises. When [load_tiles(filename)] or the creation of the surface fails
    it raises that exception; otherwise it reaches the call [load_tiles()]
    without a filename, which raises TypeError. *)
Theorem TileMap_init_always_raises (filename : PyVal) (sheet : Spritesheet) :
  (exists e self, TileMap_init filename sheet = (Err e, self)) /\
  match load_tiles (blank sheet) [filename] with
  | (Err e, self) => TileMap_init filename sheet = (Err e, self)
  | (Ok loaded, self) =>
      match map_w self, map_h self with
      | Some w, Some h =>
          match Surface_new w h with
          | Err e => TileMap_init filename sheet = (Err e, set_tiles loaded self)
          | Ok surface =>
              TileMap_init filename sheet =
                (Err missing_filename,
                 set_map_surface (set_colorkey surface (0, 0, 0))
                   (set_map_surface surface (set_tiles loaded self)))
          end
      | _, _ => False
      end
  end.
Proof.
  unfold TileMap_init.
  destruct (load_tiles (blank sheet) [filename]) as [[loaded|e] self] eqn:Hload.
  - destruct (load_tiles_sets_map_size _ _ _ _ Hload) as (w & h & Hw & Hh).
    cbn [map_w map_h set_tiles]. rewrite Hw, Hh.
    destruct (Surface_new w h) as [surface|e]; cbn [load_tiles]; eauto.
  - eauto.
Qed.

End TileProperties.
(** * What a tick cannot change *)

Section FrameBasics.
Context `{E : Externals}.

Lemma keeps_ret {A} P (a : A) : keeps P (ret a).
Proof. intros g H. exact H. Qed.

Lemma keeps_raise {A} P e : keeps P (@raise _ A e).
Proof. intros g H. exact H. Qed.

Lemma keeps_get P : keeps P get.
Proof. intros g H. exact H. Qed.

Lemma keeps_lift {A} P (r : result A) : keeps P (lift r).
Proof. intros g H. exact H. Qed.

Lemma keeps_modify P (f : Game -> Game) :
  (forall g, P g -> P (f g)) -> keeps P (modify f).
Proof. intros Hf g H. cbn. auto. Qed.

Lemma keeps_bind {A B} P (m : M A) (k : A -> M B) :
  keeps P m -> (forall a, keeps P (k a)) -> keeps P (bind m k).
Proof.
  intros Hm Hk g H. specialize (Hm g H). unfold bind.
  destruct (m g) as [[a|e|] g']; cbn in Hm |- *; [now apply Hk | assumption | assumption].
Qed.

Lemma keeps_try_except {A} P (m : M A) (h : exn -> M A) :
  keeps P m -> (forall e, keeps P (h e)) -> keeps P (try_except m h).
Proof.
  intros Hm Hh g H. specialize (Hm g H). unfold try_except.
  destruct (m g) as [[a|e|] g']; cbn in Hm |- *; [assumption | now apply Hh | assumption].
Qed.

Lemma keeps_when P (c : bool) (m : M unit) : keeps P m -> keeps P (when c m).
Proof. intros Hm. destruct c; [exact Hm | apply keeps_ret]. Qed.

Lemma keeps_for_each {A} P (l : list A) (body : A -> M unit) :
  (forall v, keeps P (body v)) -> keeps P (for_each l body).
Proof.
  intros Hb. induction l as [|v l IH]; cbn [for_each].
  - apply keeps_ret.
  - apply keeps_bind; [apply Hb | intros _; exact IH].
Qed.

Lemma keeps_map_M {A B} P (f : A -> M B) (l : list A) :
  (forall v, keeps P (f v)) -> keeps P (map_M f l).
Proof.
  intros Hf. induction l as [|v l IH]; cbn [map_M].
  - apply keeps_ret.
  - apply keeps_bind; [apply Hf | intros b].
    apply keeps_bind; [exact IH | intros bs; apply keeps_ret].
Qed.

Lemma keeps_get_hero P r : keeps P (get_hero r).
Proof. intros g H. unfold get_hero. now destruct (hero_objects g !! r). Qed.

Lemma keeps_get_enemy P r : keeps P (get_enemy r).
Proof. intros g H. unfold get_enemy. now destruct (enemy_objects g !! r). Qed.

Lemma keeps_the_dungeon_manager P : keeps P the_dungeon_manager.
Proof. intros g H. unfold the_dungeon_manager. now destruct (_dungeon_manager g). Qed.

End FrameBasics.

(** Splits a computation along its binds and branches down to the
    assignments it makes. *)
Ltac frame_step :=
  match goal with
  | |- keeps _ (bind _ _) => apply keeps_bind; [|intros ?]
  | |- keeps _ (ret _) => apply keeps_ret
  | |- keeps _ (raise _) => apply keeps_raise
  | |- keeps _ get => apply keeps_get
  | |- keeps _ (lift _) => apply keeps_lift
  | |- keeps _ (get_hero _) => apply keeps_get_hero
  | |- keeps _ (get_enemy _) => apply keeps_get_enemy
  | |- keeps _ the_dungeon_manager => apply keeps_the_dungeon_manager
  | |- keeps _ (when _ _) => apply keeps_when
  | |- keeps _ (for_each _ _) => apply keeps_for_each; intros ?
  | |- keeps _ (map_M _ _) => apply keeps_map_M; intros ?
  | |- keeps _ (try_except _ _) => apply keeps_try_except; [|intros ?]
  | |- keeps _ (modify _) => apply keeps_modify; intros ? ?
  | |- keeps _ (match ?x with _ => _ end) => destruct x
  | |- keeps _ (if ?c then _ else _) => destruct c
  | |- keeps _ (let '(_, _) := ?p in _) => destruct p
  end.

Section FrameProperties.
Context `{E : Externals}.

Section Entities.
Variable P : Game -> Prop.
Context {HP : EntityFrame P}.

Lemma keeps_put_hero r h : keeps P (put_hero r h).
Proof. apply keeps_modify. intros g H. now apply frame_hero_objects. Qed.

Lemma keeps_put_enemy r e : keeps P (put_enemy r e).
Proof. apply keeps_modify. intros g H. now apply frame_enemy_objects. Qed.

Lemma keeps_modify_hero r f : keeps P (modify_hero r f).
Proof.
  unfold modify_hero. apply keeps_bind; [apply keeps_get_hero | intros h; apply keeps_put_hero].
Qed.

Lemma keeps_hero_call r method : keeps P (hero_call r method).
Proof.
  unfold hero_call. repeat frame_step; try apply keeps_put_hero.
  now apply frame_projectile_manager.
Qed.

Lemma keeps_update_sprite dt s : keeps P (update_sprite dt s).
Proof.
  unfold update_sprite. destruct s; [apply keeps_hero_call|].
  repeat frame_step. apply keeps_put_enemy.
Qed.

Lemma keeps_all_sprites_update dt : keeps P (all_sprites_update dt).
Proof. unfold all_sprites_update. repeat frame_step. apply keeps_update_sprite. Qed.

Lemma keeps_strike hero box s : keeps P (strike hero box s).
Proof.
  unfold strike.
  repeat first [apply keeps_put_enemy | apply keeps_modify_hero | frame_step].
Qed.

Lemma keeps_handle_hero_enemy_collisions : keeps P _handle_hero_enemy_collisions.
Proof.
  unfold _handle_hero_enemy_collisions.
  repeat first [apply keeps_strike | frame_step].
Qed.

Lemma keeps_handle_projectile_collisions : keeps P _handle_projectile_collisions.
Proof.
  unfold _handle_projectile_collisions.
  repeat first [apply keeps_put_enemy | frame_step].
  now apply frame_projectile_manager.
Qed.

Lemma keeps_handle_platform_collisions : keeps P _handle_platform_collisions.
Proof.
  unfold _handle_platform_collisions.
  repeat first [apply keeps_put_hero | frame_step].
  now apply frame_platform_manager.
Qed.

Lemma keeps_handle_hero_floor_collision : keeps P _handle_hero_floor_collision.
Proof.
  unfold _handle_hero_floor_collision.
  repeat first [apply keeps_modify_hero | frame_step].
Qed.

Lemma keeps_handle_collisions : keeps P _handle_collisions.
Proof.
  unfold _handle_collisions.
  repeat first [apply keeps_handle_hero_enemy_collisions
               | apply keeps_handle_projectile_collisions
               | apply keeps_handle_platform_collisions
               | apply keeps_handle_hero_floor_collision
               | frame_step].
Qed.

Lemma keeps_update_game_objects dt : keeps P (_update_game_objects dt).
Proof.
  unfold _update_game_objects.
  repeat first [apply keeps_update_sprite | apply keeps_put_enemy | apply keeps_put_hero
               | frame_step].
  - now apply frame_projectile_manager.
  - now apply frame_platform_manager.
Qed.

Lemma keeps_update_camera : keeps P _update_camera.
Proof.
  unfold _update_camera. repeat frame_step.
  - now apply frame_camera_x.
  - now apply frame_camera_y.
Qed.

Lemma keeps_check_pillar_collection : keeps P _check_pillar_collection.
Proof.
  unfold _check_pillar_collection. repeat frame_step. now apply frame_dungeon_manager.
Qed.

Lemma keeps_enforce_room_bounds : keeps P _enforce_room_bounds.
Proof.
  unfold _enforce_room_bounds. repeat first [apply keeps_modify_hero | frame_step].
Qed.

Lemma keeps_check_game_state : verdict_closed P -> keeps P _check_game_state.
Proof.
  intros HV. unfold _check_game_state, set_game_state.
  repeat frame_step; now apply HV.
Qed.

(** The steps of [gameplay] that follow the hero's turn. *)
Lemma keeps_world_steps dt :
  verdict_closed P ->
  keeps P (let* _ := all_sprites_update dt in
           let* _ := _handle_collisions in
           let* _ := _update_game_objects dt in
           let* _ := _update_camera in
           let* _ := _check_game_state in
           let* dm := the_dungeon_manager in
           modify (set_dungeon_manager (Some (update_pillars dm dt)))).
Proof.
  intros HV.
  repeat first [apply keeps_all_sprites_update | apply keeps_handle_collisions
               | apply keeps_update_game_objects | apply keeps_update_camera
               | apply (keeps_check_game_state HV) | frame_step].
  now apply frame_dungeon_manager.
Qed.

End Entities.

Section Doors.
Variable P : Game -> Prop.
Context {HP : DoorFrame P}.

Lemma keeps_start_room_transition door : keeps P (_start_room_transition door).
Proof.
  unfold _start_room_transition. repeat frame_step.
  - now apply frame_pending_door.
  - now apply frame_transition_manager.
Qed.

Lemma keeps_check_door_traversal prev_x prev_y pressed :
  keeps P (_check_door_traversal prev_x prev_y pressed).
Proof.
  unfold _check_door_traversal.
  repeat first [apply keeps_start_room_transition | frame_step];
    now apply frame_dungeon_manager.
Qed.

Lemma keeps_hero_turn keys pressed : keeps P (hero_turn keys pressed).
Proof.
  unfold hero_turn.
  repeat first [apply keeps_hero_call; exact _
               | apply keeps_check_door_traversal
               | apply keeps_check_pillar_collection; exact _
               | frame_step].
Qed.

Lemma keeps_gameplay dt keys pressed :
  verdict_closed P -> keeps P (gameplay dt keys pressed).
Proof.
  intros HV. unfold gameplay.
  apply keeps_bind; [apply keeps_hero_turn | intros _].
  apply keeps_world_steps; [exact _ | exact HV].
Qed.

End Doors.

Section Rooms.
Variable P : Game -> Prop.
Context {HP : RoomFrame P}.

Lemma keeps_random_randint a b : keeps P (random_randint a b).
Proof.
  intros g H. unfold random_randint. destruct (randint a b (rng g)) as [r s].
  cbn. now apply frame_rng.
Qed.

Lemma keeps_new_enemy e : keeps P (new_enemy e).
Proof.
  intros g H. unfold new_enemy. cbn.
  now apply frame_next_ref, frame_enemy_objects.
Qed.

Lemma keeps_spawn_regular_enemies n room : keeps P (spawn_regular_enemies n room).
Proof.
  induction n as [|n IH]; cbn [spawn_regular_enemies].
  - apply keeps_ret.
  - apply keeps_bind; [apply keeps_random_randint | intros _; exact IH].
Qed.

Lemma keeps_spawn_room_enemies : keeps P _spawn_room_enemies.
Proof.
  unfold _spawn_room_enemies.
  repeat first [apply keeps_new_enemy | apply keeps_random_randint
               | apply keeps_spawn_regular_enemies | frame_step];
    first [now apply frame_enemies | now apply frame_sprites].
Qed.

Lemma keeps_handle_room_change : keeps P _handle_room_change.
Proof.
  unfold _handle_room_change, _handle_boss_room_entry.
  repeat first [apply keeps_spawn_room_enemies | frame_step].
  now apply frame_projectile_manager.
Qed.

Lemma keeps_reposition_hero : keeps P _reposition_hero_after_door_traversal.
Proof.
  unfold _reposition_hero_after_door_traversal.
  repeat first [apply keeps_modify_hero; exact _ | frame_step].
Qed.

Lemma keeps_complete_room_transition : keeps P _complete_room_transition.
Proof.
  unfold _complete_room_transition.
  repeat first [apply keeps_reposition_hero | apply keeps_handle_room_change | frame_step].
  - now apply frame_current_room.
  - now apply frame_camera_x.
  - now apply frame_camera_y.
  - now apply frame_minimap.
  - now apply frame_pending_door.
Qed.

Lemma keeps_transition_manager_update dt : keeps P (transition_manager_update dt).
Proof.
  unfold transition_manager_update.
  repeat first [apply keeps_complete_room_transition | frame_step];
    now apply frame_transition_manager.
Qed.

Lemma keeps_update dt keys pressed :
  verdict_closed P -> keeps P (update dt keys pressed).
Proof.
  intros HV. unfold update.
  repeat first [apply keeps_transition_manager_update
               | apply keeps_enforce_room_bounds; exact _
               | apply keeps_gameplay; [exact _ | exact HV]
               | frame_step].
Qed.

Lemma keeps_run_updates frames :
  verdict_closed P -> keeps P (run_updates frames).
Proof.
  intros HV. induction frames as [|[[dt keys] pressed] frames IH]; cbn [run_updates].
  - apply keeps_ret.
  - apply keeps_bind; [now apply keeps_update | intros _; exact IH].
Qed.

End Rooms.

End FrameProperties.

(** Closes the side conditions of a frame for a property that reads none of
    the attributes concerned. *)
Ltac frame_instance :=
  repeat match goal with
         | |- RoomFrame _ => constructor
         | |- DoorFrame _ => constructor
         | |- EntityFrame _ => constructor
         end;
  intros ? ? H; exact H.

(** * The update tick over several frames *)

Section TickProperties.
Context `{E : Externals}.

Lemma update_not_playing dt keys pressed g :
  state g <> PLAYING -> update dt keys pressed g = (Returns tt, g).
Proof.
  intros Hs. unfold update. rewrite bind_get.
  now rewrite (bool_decide_eq_false_2 _ Hs).
Qed.

Lemma run_updates_not_playing frames g :
  state g <> PLAYING -> run_updates frames g = (Returns tt, g).
Proof.
  intros Hs. induction frames as [|[[dt keys] pressed] frames IH]; [reflexivity|].
  cbn [run_updates].
  now rewrite (bind_returns _ _ _ _ _ (update_not_playing dt keys pressed g Hs)).
Qed.

(** X2: Outside PLAYING the simulation is frozen: however many frames follow,
    and whatever their time steps and keys, [update] changes nothing and the
    run of frames returns. In particular GAME_OVER and VICTORY, once reached,
    are never left by [update]: when a run of frames ends in one of them, any
    further frames leave the game as it is. *)
Theorem frames_outside_play_change_nothing frames more g :
  (state g <> PLAYING -> run_updates frames g = (Returns tt, g)) /\
  (let g' := snd (run_updates frames g) in
   state g' = GAME_OVER \/ state g' = VICTORY ->
   run_updates more g' = (Returns tt, g')).
Proof.
  split; [apply run_updates_not_playing|].
  intros g' Hs. apply run_updates_not_playing. destruct Hs as [-> | ->]; discriminate.
Qed.

(** X1: Over any number of frames, and however the run of frames ends, the
    only states [update] ever assigns are GAME_OVER and VICTORY: the state
    after the frames is the one before them or one of these two. No tick
    pauses the game, returns to a menu or re-enters PLAYING. *)
Theorem update_assigns_only_verdicts frames g :
  let g' := snd (run_updates frames g) in
  state g' = state g \/ state g' = GAME_OVER \/ state g' = VICTORY.
Proof.
  set (P := fun g' : Game =>
              state g' = state g \/ state g' = GAME_OVER \/ state g' = VICTORY).
  assert (RoomFrame P) as HP by (subst P; frame_instance).
  assert (verdict_closed P) as HV by (intros g0 _; split; subst P; cbn; auto).
  apply (keeps_run_updates P frames HV g). subst P. cbn. auto.
Qed.

(** X3: No tick assigns the screen size, the dictionary of heroes, the active
    hero, the selected hero type, the selection flag, the dungeon template,
    the play time or the save manager: they are the same after any number of
    frames, also when a frame ends in an exception. *)
Theorem update_keeps_setup frames g :
  setup_of (snd (run_updates frames g)) = setup_of g.
Proof.
  set (P := fun g' : Game => setup_of g' = setup_of g).
  assert (RoomFrame P) as HP by (subst P; frame_instance).
  assert (verdict_closed P) as HV by (intros g0 H; split; exact H).
  now apply (keeps_run_updates P frames HV g).
Qed.

(** X4: A tick on which the transition timer does not fire its callback
    leaves the current room, the enemies list, the sprite groups and the
    minimap as they are, creates no object and draws no random number,
    whether or not gameplay runs on it. *)
Theorem quiet_tick_keeps_room dt keys pressed g after :
  transition_update (_transition_manager g) dt = Quiet after ->
  let g' := snd (update dt keys pressed g) in
  _current_room g' = _current_room g /\ _enemies g' = _enemies g /\
  sprites g' = sprites g /\ minimap g' = minimap g /\
  next_ref g' = next_ref g /\ rng g' = rng g.
Proof.
  intros Hq.
  set (P := fun g' : Game =>
              _current_room g' = _current_room g /\ _enemies g' = _enemies g /\
              sprites g' = sprites g /\ minimap g' = minimap g /\
              next_ref g' = next_ref g /\ rng g' = rng g).
  assert (DoorFrame P) as HP by (subst P; frame_instance).
  assert (verdict_closed P) as HV by (intros g0 H; split; exact H).
  change (P (snd (update dt keys pressed g))).
  destruct (decide (state g = PLAYING)) as [Hs|Hs].
  - rewrite (update_playing dt keys pressed g _ Hs
               (transition_manager_update_quiet dt g after Hq)).
    assert (P (set_transition_manager after g)) as H1 by (subst P; cbn; auto 10).
    pose proof (keeps_enforce_room_bounds P _ H1) as H2.
    destruct (_enforce_room_bounds (set_transition_manager after g)) as [[[]|e|] g2];
      cbn [snd] in H2 |- *; try exact H2.
    destruct (is_transitioning (_transition_manager g2)); [exact H2|].
    now apply (keeps_gameplay P dt keys pressed HV).
  - rewrite (update_not_playing dt keys pressed g Hs). subst P. cbn. auto 10.
Qed.

Lemma hero_turn_dead keys pressed g r h :
  _active_hero g = Some r -> hero_objects g !! r = Some h -> is_alive h = false ->
  hero_turn keys pressed g = (Returns tt, g).
Proof.
  intros Hr Hh Hdead. unfold hero_turn.
  now rewrite bind_get, Hr, (bind_get_hero _ _ _ _ Hh), Hdead.
Qed.

(** X5: A dead active hero opens no door: on a PLAYING tick whose timer does
    not fire its callback, with the active hero dead, no room transition is
    started; the transition manager is the one the timer left, and the
    pending door is untouched. *)
Theorem dead_hero_starts_no_transition dt keys pressed g after r h :
  state g = PLAYING ->
  transition_update (_transition_manager g) dt = Quiet after ->
  _active_hero g = Some r -> hero_objects g !! r = Some h -> is_alive h = false ->
  let g' := snd (update dt keys pressed g) in
  _transition_manager g' = after /\ _pending_door g' = _pending_door g.
Proof.
  intros Hs Hq Hr Hh Hdead.
  set (P := fun g' : Game =>
              _transition_manager g' = after /\ _pending_door g' = _pending_door g).
  assert (EntityFrame P) as HP by (subst P; frame_instance).
  assert (verdict_closed P) as HV by (intros g0 H; split; exact H).
  change (P (snd (update dt keys pressed g))).
  rewrite (update_playing dt keys pressed g _ Hs
             (transition_manager_update_quiet dt g after Hq)).
  rewrite enforce_room_bounds_cases.
  cbn [set_transition_manager _active_hero _current_room hero_objects]. rewrite Hr.
  assert (P (set_transition_manager after g)) as H1 by (subst P; cbn; auto).
  assert (forall g2 h2, P g2 -> _active_hero g2 = Some r -> hero_objects g2 !! r = Some h2 ->
            is_alive h2 = false ->
            P (snd (if is_transitioning (_transition_manager g2) then (Returns tt, g2)
                    else gameplay dt keys pressed g2))) as Hrest.
  { intros g2 h2 H2 Hr2 Hh2 Hd2.
    destruct (is_transitioning (_transition_manager g2)); [exact H2|].
    unfold gameplay.
    rewrite (bind_returns _ _ _ _ _ (hero_turn_dead keys pressed g2 r h2 Hr2 Hh2 Hd2)).
    now apply (keeps_world_steps P dt HV). }
  destruct (_current_room g) as [room|].
  - rewrite Hh.
    destruct (clamp_to_room_box room h) as (_ & _ & _ & Halive & _).
    apply (Hrest _ (clamp_to_room room h)).
    + subst P. cbn. auto.
    + exact Hr.
    + apply lookup_with_hero.
    + congruence.
  - now apply (Hrest _ h).
Qed.

End TickProperties.

(** Runs a computation through its leading binds, reads and assignments. *)
Ltac run_binds :=
  repeat progress (rewrite ?bind_assoc, ?bind_get, ?bind_ret, ?bind_modify; cbn beta).

(** * The camera, the room bounds and the floor *)

Section PlacementProperties.
Context `{E : Externals}.

Lemma py_max_0_nonneg (v : Q) : (0 <= py_max 0 v)%Q.
Proof.
  unfold py_max. destruct (Qle_bool v 0) eqn:H.
  - apply Qle_refl.
  - apply Qlt_le_weak, Qnot_le_lt. intros Hle. apply Qle_bool_iff in Hle. congruence.
Qed.

Lemma py_min_le_right (a b : Q) : (py_min a b <= b)%Q.
Proof.
  unfold py_min. destruct (Qle_bool a b) eqn:H.
  - now apply Qle_bool_iff.
  - apply Qle_refl.
Qed.

(** [max(0, min(v, d))] never exceeds [max(0, d)]. *)
Lemma py_clamp_upper (v : Q) (d : Z) :
  (py_max 0 (py_min v (inject_Z d)) <= inject_Z (Z.max 0 d))%Q.
Proof.
  unfold py_max. destruct (Qle_bool (py_min v (inject_Z d)) 0) eqn:H.
  - change 0%Q with (inject_Z 0). rewrite <- Zle_Qle. lia.
  - eapply Qle_trans; [apply py_min_le_right|]. rewrite <- Zle_Qle. lia.
Qed.

(** [max(0, min(v, d))] is [v] itself when [0 <= v <= d]. *)
Lemma py_clamp_inside (v d : Q) :
  (0 <= v)%Q -> (v <= d)%Q -> (py_max 0 (py_min v d) == v)%Q.
Proof.
  intros H0 Hd. unfold py_min. apply Qle_bool_iff in Hd as ->.
  unfold py_max. destruct (Qle_bool v 0) eqn:H.
  - apply Qle_bool_iff in H. now apply Qle_antisym.
  - reflexivity.
Qed.

(** X7: After [_update_camera] on a run with an active hero in a room, the
    camera lies between 0 and the room size minus the screen size (0 when the
    room is smaller than the screen), wherever the hero and the camera were. *)
Theorem update_camera_within_room g r h room :
  _active_hero g = Some r -> hero_objects g !! r = Some h ->
  _current_room g = Some room ->
  exists g',
    _update_camera g = (Returns tt, g') /\
    (0 <= _camera_x g' <= inject_Z (Z.max 0 (room_width room - game_width g)))%Q /\
    (0 <= _camera_y g' <= inject_Z (Z.max 0 (room_height room - game_height g)))%Q.
Proof.
  intros Hr Hh Hroom. unfold _update_camera.
  rewrite bind_get, Hr, Hroom, (bind_get_hero _ _ _ _ Hh), bind_modify.
  eexists. split; [reflexivity|].
  cbn [_camera_x _camera_y set_camera_x set_camera_y].
  repeat split; try apply py_max_0_nonneg.
  - eapply Qle_trans; [apply py_clamp_upper|]. rewrite <- Zle_Qle. lia.
  - eapply Qle_trans; [apply py_clamp_upper|]. rewrite <- Zle_Qle. lia.
Qed.

(** X8: [_set_camera_position] in a room: the camera ends between 0 and the
    room size minus the screen size (0 when the room is smaller than the
    screen), and at the requested position when that lies within these
    bounds; without a current room the call changes nothing. *)
Theorem set_camera_position_within_room cx cy g :
  (_current_room g = None -> _set_camera_position cx cy g = (Returns tt, g)) /\
  (forall room, _current_room g = Some room ->
     exists g',
       _set_camera_position cx cy g = (Returns tt, g') /\
       (0 <= _camera_x g' <= inject_Z (Z.max 0 (room_width room - game_width g)))%Q /\
       (0 <= _camera_y g' <= inject_Z (Z.max 0 (room_height room - game_height g)))%Q /\
       ((0 <= cx <= inject_Z (room_width room - game_width g))%Q -> (_camera_x g' == cx)%Q) /\
       ((0 <= cy <= inject_Z (room_height room - game_height g))%Q -> (_camera_y g' == cy)%Q)).
Proof.
  unfold _set_camera_position. rewrite bind_get. split.
  - now intros ->.
  - intros room ->. rewrite bind_modify.
    eexists. split; [reflexivity|].
    cbn [_camera_x _camera_y set_camera_x set_camera_y].
    repeat split; try apply py_max_0_nonneg; try apply py_clamp_upper.
    + intros [H0 Hd]. now apply py_clamp_inside.
    + intros [H0 Hd]. now apply py_clamp_inside.
Qed.

Lemma clamp_to_room_fields room h :
  clamp_to_room room h =
    hero_set_y (clamped_y room (y h) (height h))
      (hero_set_x (clamped_x room (x h) (width h)) h).
Proof.
  destruct h. unfold clamp_to_room, clamped_x, clamped_y, hero_set_x, hero_set_y. cbn.
  destruct (_ <? 0); cbn; destruct (room_width room <? _); cbn;
    destruct (floor_y room <? _); reflexivity.
Qed.

Lemma clamped_x_cases room hx w :
  let v := clamped_x room hx w in
  (hx < 0 /\ room_width room < w /\ v = room_width room - w) \/
  (hx < 0 /\ w <= room_width room /\ v = 0) \/
  (0 <= hx /\ room_width room < hx + w /\ v = room_width room - w) \/
  (0 <= hx /\ hx + w <= room_width room /\ v = hx).
Proof.
  unfold clamped_x. destruct (Z.ltb_spec hx 0); cbv zeta.
  - destruct (Z.ltb_spec (room_width room) (0 + w)); lia.
  - destruct (Z.ltb_spec (room_width room) (hx + w)); lia.
Qed.

Lemma clamped_x_idempotent room hx w :
  clamped_x room (clamped_x room hx w) w = clamped_x room hx w.
Proof.
  pose proof (clamped_x_cases room hx w) as H1.
  pose proof (clamped_x_cases room (clamped_x room hx w) w) as H2.
  cbv zeta in H1, H2. lia.
Qed.

Lemma clamped_y_idempotent room hy ht :
  clamped_y room (clamped_y room hy ht) ht = clamped_y room hy ht.
Proof.
  unfold clamped_y at 2 3. destruct (Z.ltb_spec (floor_y room) (hy + ht)).
  - unfold clamped_y.
    destruct (Z.ltb_spec (floor_y room) (floor_y room - ht + ht)); lia.
  - unfold clamped_y. destruct (Z.ltb_spec (floor_y room) (hy + ht)); lia.
Qed.

Lemma clamp_to_room_idempotent room h :
  clamp_to_room room (clamp_to_room room h) = clamp_to_room room h.
Proof.
  rewrite (clamp_to_room_fields room (clamp_to_room room h)).
  rewrite (clamp_to_room_fields room h).
  cbn [x y width height hero_set_x hero_set_y].
  rewrite clamped_x_idempotent, clamped_y_idempotent. reflexivity.
Qed.
Lemma clamp_to_room_inside room h :
  0 <= x h -> x h + width h <= room_width room -> y h + height h <= floor_y room ->
  clamp_to_room room h = h.
Proof.
  intros H0 Hx Hy. unfold clamp_to_room.
  replace (x h <? 0) with false by (symmetry; apply Z.ltb_ge; lia).
  replace (room_width room <? x h + width h) with false by (symmetry; apply Z.ltb_ge; lia).
  now replace (floor_y room <? y h + height h) with false by (symmetry; apply Z.ltb_ge; lia).
Qed.

(** X9: [_enforce_room_bounds] is idempotent, and it leaves the game exactly
    as it is when the active hero's box already lies within the room: a
    second enforcement right after a first one changes nothing. *)
Theorem enforce_room_bounds_idempotent g :
  (forall g1, _enforce_room_bounds g = (Returns tt, g1) ->
     _enforce_room_bounds g1 = (Returns tt, g1)) /\
  (forall r h room,
     _active_hero g = Some r -> hero_objects g !! r = Some h ->
     _current_room g = Some room ->
     0 <= x h -> x h + width h <= room_width room -> y h + height h <= floor_y room ->
     _enforce_room_bounds g = (Returns tt, g)).
Proof.
  split.
  - intros g1. rewrite !enforce_room_bounds_cases.
    destruct (_active_hero g) as [r|] eqn:Hr.
    2:{ intros [= <-]. now rewrite Hr. }
    destruct (_current_room g) as [room|] eqn:Hroom.
    2:{ intros [= <-]. now rewrite Hr, Hroom. }
    destruct (hero_objects g !! r) as [h|] eqn:Hh; [|discriminate].
    intros [= <-]. cbn [with_hero set_hero_objects _active_hero _current_room hero_objects].
    rewrite Hr, Hroom, lookup_insert_eq, clamp_to_room_idempotent.
    fold (with_hero r (clamp_to_room room h) g).
    fold (with_hero r (clamp_to_room room h) (with_hero r (clamp_to_room room h) g)).
    now rewrite with_hero_twice.
  - intros r h room Hr Hh Hroom H0 Hx Hy.
    rewrite enforce_room_bounds_cases, Hr, Hroom, Hh, clamp_to_room_inside by assumption.
    now rewrite with_hero_same.
Qed.

Lemma settle_idempotent room h : settle room (settle room h) = settle room h.
Proof.
  unfold settle. destruct (is_alive h) eqn:Ha; cbn [andb]; [|now rewrite Ha].
  destruct (floor_y room <? y h + height h) eqn:Hf; [|now rewrite Ha, Hf].
  destruct (velocity_y h);
    cbn [is_alive y height hero_set_y hero_set_velocity_y];
    rewrite Ha; cbn [andb];
    replace (floor_y room <? floor_y room - height h + height h) with false
      by (symmetry; apply Z.ltb_ge; lia);
    reflexivity.
Qed.

Lemma settle_box room h :
  let h' := settle room h in
  x h' = x h /\ width h' = width h /\ height h' = height h /\ health h' = health h /\
  is_alive h' = is_alive h /\
  (is_alive h = true -> y h' + height h' <= floor_y room) /\
  (is_alive h = false -> h' = h) /\
  (y h' <> y h -> velocity_y h' = Some 0 \/ velocity_y h = None).
Proof.
  unfold settle. destruct (is_alive h) eqn:Ha; cbn [andb].
  - destruct (floor_y room <? y h + height h) eqn:Hf.
    + destruct (velocity_y h) eqn:Hv;
        cbn [x y width height health is_alive velocity_y hero_set_y hero_set_velocity_y];
        repeat split; try assumption; try lia; try discriminate; auto.
    + apply Z.ltb_ge in Hf.
      repeat split; try assumption; try lia; try discriminate; try (intros H; now contradiction H).
  - repeat split; try assumption; try lia; try discriminate; try (intros H; now contradiction H).
Qed.

(** One pass of the loop of [_handle_hero_floor_collision]. *)
Lemma floor_collision_body g room r h :
  hero_objects g !! r = Some h ->
  (let* h := get_hero r in
   if is_alive h then
     if floor_y room <? y h + height h then
       let* _ := modify_hero r (hero_set_y (floor_y room - height h)) in
       match velocity_y h with
       | Some _ => modify_hero r (hero_set_velocity_y (Some 0))
       | None => ret tt
       end
     else ret tt
   else ret tt) g = (Returns tt, with_hero r (settle room h) g).
Proof.
  intros Hh. rewrite (bind_get_hero _ _ _ _ Hh). unfold settle.
  destruct (is_alive h); cbn [andb]; [|now rewrite with_hero_same].
  destruct (floor_y room <? y h + height h); [|now rewrite with_hero_same].
  rewrite (bind_modify_hero _ _ _ _ _ Hh).
  destruct (velocity_y h).
  - rewrite (modify_hero_returns _ _ _ _ (lookup_with_hero _ _ _)). now rewrite with_hero_twice.
  - reflexivity.
Qed.

Lemma floor_collision_loop room refs : forall g,
  (forall r, r ∈ refs -> is_Some (hero_objects g !! r)) ->
  exists g',
    for_each refs (fun r =>
      let* h := get_hero r in
      if is_alive h then
        if floor_y room <? y h + height h then
          let* _ := modify_hero r (hero_set_y (floor_y room - height h)) in
          match velocity_y h with
          | Some _ => modify_hero r (hero_set_velocity_y (Some 0))
          | None => ret tt
          end
        else ret tt
      else ret tt) g = (Returns tt, g') /\
    (exists objs, g' = set_hero_objects objs g) /\
    forall r h, hero_objects g !! r = Some h ->
      hero_objects g' !! r = Some (if bool_decide (r ∈ refs) then settle room h else h).
Proof.
  induction refs as [|r0 refs IH]; intros g Hall.
  - exists g. split; [reflexivity|]. split.
    + exists (hero_objects g). now rewrite set_hero_objects_same.
    + intros r h Hh. exact Hh.
  - destruct (Hall r0 ltac:(left)) as [h0 Hh0].
    cbn [for_each]. rewrite (bind_returns _ _ _ _ _ (floor_collision_body g room r0 h0 Hh0)).
    destruct (IH (with_hero r0 (settle room h0) g)) as (g' & Hrun & [objs Hobjs] & Hlook).
    { intros r Hr. cbn. destruct (decide (r = r0)) as [->|Hne].
      - rewrite lookup_insert_eq. eauto.
      - rewrite lookup_insert_ne by congruence. apply Hall. now right. }
    exists g'. split; [exact Hrun|]. split.
    + exists objs. rewrite Hobjs. reflexivity.
    + intros r h Hh. destruct (decide (r = r0)) as [->|Hne].
      * assert (h = h0) as -> by congruence.
        rewrite (Hlook r0 (settle room h0) (lookup_with_hero _ _ _)).
        rewrite (bool_decide_eq_true_2 (r0 ∈ r0 :: refs)) by left.
        destruct (bool_decide (r0 ∈ refs)); [now rewrite settle_idempotent | reflexivity].
      * rewrite (Hlook r h) by (cbn; now rewrite lookup_insert_ne by congruence).
        rewrite (bool_decide_ext (r ∈ r0 :: refs) (r ∈ refs)); [reflexivity|].
        rewrite elem_of_cons. tauto.
Qed.

(** X10: [_handle_hero_floor_collision] in a room, on a run whose heroes all
    exist: it returns, and every living hero of the dictionary ends with its
    feet on or above the floor, lifted onto the floor with a zero vertical
    velocity (where it has one) exactly when it was below it; dead heroes and
    objects that are no hero of the dictionary are left as they are, and
    nothing but hero objects changes. *)
Theorem floor_collision_settles_heroes g room :
  _current_room g = Some room ->
  (forall r, r ∈ map snd (_heroes g) -> is_Some (hero_objects g !! r)) ->
  exists g' objs,
    _handle_hero_floor_collision g = (Returns tt, g') /\
    g' = set_hero_objects objs g /\
    forall r h, hero_objects g !! r = Some h ->
      exists h', hero_objects g' !! r = Some h' /\
        (r ∈ map snd (_heroes g) -> h' = settle room h /\
           (is_alive h = true -> y h' + height h' <= floor_y room) /\
           (is_alive h = false -> h' = h)) /\
        (r ∉ map snd (_heroes g) -> h' = h).
Proof.
  intros Hroom Hall. unfold _handle_hero_floor_collision. rewrite bind_get, Hroom.
  destruct (floor_collision_loop room (map snd (_heroes g)) g Hall)
    as (g' & Hrun & [objs Hobjs] & Hlook).
  exists g', objs. split; [exact Hrun|]. split; [exact Hobjs|].
  intros r h Hh. rewrite (Hlook r h Hh).
  destruct (settle_box room h) as (_ & _ & _ & _ & _ & Hfloor & Hdead & _).
  destruct (bool_decide (r ∈ map snd (_heroes g))) eqn:Hin.
  - apply bool_decide_eq_true_1 in Hin. exists (settle room h).
    split; [reflexivity|]. split; [auto|]. intros Hnot. contradiction.
  - apply bool_decide_eq_false_1 in Hin. exists h.
    split; [reflexivity|]. split; [|reflexivity]. intros Hyes. contradiction.
Qed.

(** * Collisions and verdicts at the edges *)






(** With an empty dictionary of heroes the win/loss evaluation says
    GAME_OVER, whatever the enemies are: "all heroes dead" holds of no
    heroes. *)
Lemma no_heroes_is_game_over g :
  _heroes g = [] -> _check_game_state g = (Returns tt, set_state GAME_OVER g).
Proof.
  intros Hh. unfold _check_game_state. rewrite bind_get, Hh. reflexivity.
Qed.

(** X6: A tick on a game in which no hero was ever selected (the state is
    PLAYING from the constructor on; no heroes, enemies, sprites or dungeon):
    the evaluation sets GAME_OVER and the tick then raises AttributeError on
    the missing dungeon manager. *)
Theorem tick_before_hero_selection dt keys pressed g after :
  state g = PLAYING ->
  transition_update (_transition_manager g) dt = Quiet after ->
  is_transitioning after = false ->
  _heroes g = [] -> _active_hero g = None -> _enemies g = [] ->
  all_sprites (sprites g) = [] -> hero_sprites (sprites g) = [] ->
  _dungeon_manager g = None ->
  exists msg g',
    update dt keys pressed g = (Raises (AttributeError msg), g') /\
    state g' = GAME_OVER.
Proof.
  intros Hs Hq Htr Hheroes Hactive Henemies Hall Hhs Hdm.
  rewrite (update_playing dt keys pressed g _ Hs
             (transition_manager_update_quiet dt g after Hq)).
  rewrite enforce_room_bounds_cases.
  cbn [set_transition_manager _active_hero]. rewrite Hactive.
  cbn [set_transition_manager _transition_manager]. rewrite Htr.
  unfold gameplay, hero_turn. run_binds.
  cbn [set_transition_manager _active_hero]. rewrite Hactive. run_binds.
  unfold all_sprites_update. run_binds.
  cbn [set_transition_manager sprites]. rewrite Hall. cbn [for_each]. run_binds.
  unfold _handle_collisions, _handle_hero_enemy_collisions. run_binds.
  cbn [set_transition_manager sprites]. rewrite Hhs. cbn [for_each]. run_binds.
  unfold _handle_projectile_collisions. run_binds.
  cbn [set_transition_manager _enemies]. rewrite Henemies. cbn [map_M]. run_binds.
  destruct (projectiles_check_collisions _ []) as [pm enemies'].
  run_binds. cbn [combine for_each]. run_binds.
  unfold _handle_platform_collisions. run_binds.
  cbn [set_projectile_manager set_transition_manager sprites]. rewrite Hhs.
  cbn [for_each]. run_binds.
  unfold _handle_hero_floor_collision. run_binds.
  cbn [set_projectile_manager set_transition_manager _heroes _current_room]. rewrite Hheroes.
  assert (forall (k : unit -> M unit) g0 (body : Room -> nat -> M unit),
            bind (match _current_room g with
                  | None => ret tt
                  | Some room => for_each (map snd (@nil (HeroType * nat))) (body room)
                  end) k g0 = k tt g0) as Hfloor
    by (intros k g0 body; now destruct (_current_room g)).
  rewrite Hfloor.
  unfold _update_game_objects. run_binds.
  cbn [set_projectile_manager set_transition_manager _heroes]. rewrite Hheroes.
  cbn [map for_each]. run_binds.
  cbn [set_projectile_manager set_transition_manager _enemies]. rewrite Henemies.
  cbn [for_each]. run_binds.
  unfold _update_camera. run_binds.
  cbn [set_platform_manager set_projectile_manager set_transition_manager _active_hero].
  rewrite Hactive. run_binds.
  match goal with |- context [bind _check_game_state _ ?g0] =>
    rewrite (bind_returns _ _ _ _ _ (no_heroes_is_game_over g0 Hheroes)) end.
  unfold bind, the_dungeon_manager.
  cbn [set_state set_platform_manager set_projectile_manager set_transition_manager
       _dungeon_manager]. rewrite Hdm.
  eexists _, _. split; reflexivity.
Qed.

End PlacementProperties.

(** * Entering a room *)

Section RoomEntryProperties.
Context `{E : Externals}.

Lemma elem_of_group_add (s t : SpriteRef) (grp : list SpriteRef) :
  s ∈ group_add t grp <-> s ∈ grp \/ s = t.
Proof.
  unfold group_add. destruct (bool_decide (t ∈ grp)) eqn:Hin.
  - apply bool_decide_eq_true_1 in Hin. split; [auto|]. intros [H| ->]; assumption.
  - rewrite elem_of_app, list_elem_of_singleton. tauto.
Qed.

Lemma bind_new_enemy {B} (e : Enemy) (k : nat -> M B) g :
  bind (new_enemy e) k g =
    k (next_ref g)
      (set_next_ref (S (next_ref g))
         (set_enemy_objects (<[next_ref g := e]> (enemy_objects g)) g)).
Proof. reflexivity. Qed.

(** The camera coordinate a transition snaps to lies within the room. *)
Lemma snapped_within_room hero_coord screen room_size :
  exists c, snapped hero_coord screen room_size = inject_Z c /\
            0 <= c <= Z.max 0 (room_size - screen).
Proof. unfold snapped. eexists. split; [reflexivity|]. lia. Qed.

(** X12: When a transition completes into the boss room, the callback returns
    with: the room swapped, the active hero at the spawn point of the new
    room, the camera snapped to a position within the room, the projectiles
    cleared, the enemies list and the enemy sprite group holding exactly one
    new object, a [DemonBoss] at (room.width // 2, room.floor_y - 100), which
    is also in [all_sprites], and the pending door reset to None. *)
Theorem room_change_into_boss_room g dm room r h :
  _dungeon_manager g = Some dm -> get_current_room dm = Some room ->
  _active_hero g = Some r -> hero_objects g !! r = Some h ->
  room_kind room = BOSS ->
  exists g' cx cy,
    _complete_room_transition g = (Returns tt, g') /\
    _current_room g' = Some room /\
    hero_objects g' !! r = Some (repositioned dm room h) /\
    _camera_x g' = inject_Z cx /\ 0 <= cx <= Z.max 0 (room_width room - game_width g) /\
    _camera_y g' = inject_Z cy /\ 0 <= cy <= Z.max 0 (room_height room - game_height g) /\
    projectiles (projectile_manager g') = [] /\
    _enemies g' = [next_ref g] /\
    enemy_sprites (sprites g') = [EnemyRef (next_ref g)] /\
    EnemyRef (next_ref g) ∈ all_sprites (sprites g') /\
    enemy_objects g' !! next_ref g =
      Some (DemonBoss (room_width room / 2) (floor_y room - 100)) /\
    next_ref g' = S (next_ref g) /\
    _pending_door g' = PNone /\
    minimap g' = update_player_position (minimap g) dm.
Proof.
  intros Hdm Hroom Hr Hh Hkind.
  rewrite (complete_room_transition_steps g dm room r h Hdm Hroom Hr Hh).
  destruct (snapped_within_room (x (repositioned dm room h)) (game_width g) (room_width room))
    as (cx & Hcx & Hbx).
  destruct (snapped_within_room (y (repositioned dm room h)) (game_height g) (room_height room))
    as (cy & Hcy & Hby).
  rewrite Hcx, Hcy.
  unfold _handle_room_change, _spawn_room_enemies. run_binds.
  cbn [set_projectile_manager set_camera_x set_camera_y with_hero set_hero_objects
       set_current_room _current_room].
  run_binds. unfold is_boss_room. rewrite Hkind.
  run_binds. rewrite bind_new_enemy. run_binds.
  cbn [set_sprites set_enemies set_next_ref set_enemy_objects set_projectile_manager
       set_camera_x set_camera_y with_hero set_hero_objects set_current_room _current_room].
  rewrite Hkind. cbn [when]. unfold _handle_boss_room_entry. run_binds.
  rewrite (bind_the_dungeon_manager _ _ dm) by exact Hdm.
  run_binds. eexists _, cx, cy. split; [reflexivity|]. cbn.
  rewrite !lookup_insert_eq.
  repeat (split; [first [reflexivity | lia]|]).
  split; [apply elem_of_group_add; now right|]. repeat split.
Qed.

(** X13: In a room narrower than 200 that is neither the start room nor the
    boss room the placement of regular enemies draws from an empty range:
    [_handle_room_change] raises ValueError, after the projectiles were
    cleared and the enemies list and the enemy sprite group emptied. *)
Theorem narrow_room_change_raises g room :
  _current_room g = Some room -> room_kind room = NORMAL -> room_width room < 200 ->
  exists msg g',
    _handle_room_change g = (Raises (ValueError msg), g') /\
    projectiles (projectile_manager g') = [] /\
    _enemies g' = [] /\ enemy_sprites (sprites g') = [].
Proof.
  intros Hroom Hkind Hw. unfold _handle_room_change, _spawn_room_enemies. run_binds.
  cbn [set_projectile_manager _current_room]. rewrite Hroom. run_binds.
  unfold is_boss_room, is_start_room. rewrite Hkind. cbn [negb]. run_binds.
  match goal with |- context [bind (random_randint 1 3) _ ?g0] =>
    destruct (random_randint_1_3 g0) as (n & s & Hn & Hrange) end.
  rewrite (bind_returns _ _ _ _ _ Hn).
  destruct (Z.to_nat n) as [|k] eqn:Hk; [lia|].
  cbn [spawn_regular_enemies]. unfold random_randint at 1, randint.
  replace (room_width room - 100 <? 100) with true by (symmetry; apply Z.ltb_lt; lia).
  unfold bind. cbn [of_result].
  eexists _, _. split; [reflexivity|]. cbn. repeat split.
Qed.

Lemma random_randint_touches_rng a b g :
  exists s, snd (random_randint a b g) = set_rng s g.
Proof.
  unfold random_randint, randint. destruct (b <? a); cbn; eauto.
Qed.

Lemma spawn_regular_enemies_touches_rng n room : forall g,
  exists s, snd (spawn_regular_enemies n room g) = set_rng s g.
Proof.
  induction n as [|n IH]; intros g.
  - exists (rng g). cbn. now rewrite set_rng_same.
  - cbn [spawn_regular_enemies]. unfold bind.
    destruct (random_randint_touches_rng 100 (room_width room - 100) g) as [s Hs].
    destruct (random_randint 100 (room_width room - 100) g) as [[v|e|] g1];
      cbn [snd] in Hs |- *; subst g1; eauto.
    destruct (IH (set_rng s g)) as [s' Hs']. exists s'. now rewrite Hs'.
Qed.

(** X14: [_spawn_room_enemies] empties the enemies list and the enemy sprite
    group but removes nothing from [all_sprites]: whatever room is entered
    and however the call ends, an enemy of the room that was left is still a
    member of [all_sprites], so [all_sprites.update] keeps updating it, while
    it is no longer listed in [_enemies] or [enemy_sprites]. *)
Theorem enemies_of_left_room_stay_in_all_sprites g room e :
  _current_room g = Some room ->
  EnemyRef e ∈ all_sprites (sprites g) -> (e < next_ref g)%nat ->
  let g' := snd (_spawn_room_enemies g) in
  EnemyRef e ∈ all_sprites (sprites g') /\
  (e ∉ _enemies g') /\ (EnemyRef e ∉ enemy_sprites (sprites g')) /\
  hero_sprites (sprites g') = hero_sprites (sprites g).
Proof.
  intros Hroom Hin Hlt. unfold _spawn_room_enemies. run_binds. rewrite Hroom. run_binds.
  destruct (is_boss_room room).
  - rewrite bind_new_enemy. run_binds. cbn.
    split; [apply elem_of_group_add; now left|].
    split; [intros H; apply list_elem_of_singleton in H; lia|].
    split; [|reflexivity].
    intros H. apply elem_of_group_add in H.
    destruct H as [H|H]; [now apply not_elem_of_nil in H | injection H; lia].
  - destruct (negb (is_start_room room)).
    + unfold bind.
      match goal with |- context [random_randint 1 3 ?g0] =>
        destruct (random_randint_touches_rng 1 3 g0) as [s Hs];
        destruct (random_randint 1 3 g0) as [[n|err|] g1] end;
        cbn [snd] in Hs; subst g1.
      * match goal with |- context [spawn_regular_enemies ?k room ?g0] =>
          destruct (spawn_regular_enemies_touches_rng k room g0) as [s' Hs'] end.
        cbv zeta. rewrite Hs'. cbn. repeat split; try assumption; apply not_elem_of_nil.
      * cbn. repeat split; try assumption; apply not_elem_of_nil.
      * cbn. repeat split; try assumption; apply not_elem_of_nil.
    + cbn. repeat split; try assumption; apply not_elem_of_nil.
Qed.

(** * Doors *)

(** X15: [_check_door_traversal] when a door is entered. A walk-through door
    that the dungeon manager reports as entered starts a FADE transition of
    0.8 s with no pending door; so does an interactive door, which is
    consulted only when the walk-through test failed and E is held. When a
    transition is already active no new one is started, but the dungeon
    manager has been moved through the door all the same. *)
Theorem entering_a_door_starts_a_fade g r h room dm prev_x prev_y pressed :
  _current_room g = Some room -> _active_hero g = Some r ->
  hero_objects g !! r = Some h -> _dungeon_manager g = Some dm ->
  let box := door_hitbox h in
  let dm1 := update_current_room_interactions dm
               (rect_x box) (rect_y box) (rect_w box) (rect_h box) in
  let walk := try_enter_walkthrough_door dm1 (rect_x box) (rect_y box) in
  let talk := try_enter_interactive_door (snd walk) (rect_x box) (rect_y box) true in
  let fade g := set_transition_manager
                  (start_transition (_transition_manager g) FADE (8 # 10))
                  (set_pending_door PNone g) in
  (fst walk = true -> is_transitioning (_transition_manager g) = false ->
     _check_door_traversal prev_x prev_y pressed g =
       (Returns tt, fade (set_dungeon_manager (Some (snd walk)) g))) /\
  (fst walk = false -> pressed K_e = true -> fst talk = true ->
   is_transitioning (_transition_manager g) = false ->
     _check_door_traversal prev_x prev_y pressed g =
       (Returns tt, fade (set_dungeon_manager (Some (snd talk)) g))) /\
  (fst walk = true -> is_transitioning (_transition_manager g) = true ->
     _check_door_traversal prev_x prev_y pressed g =
       (Returns tt, set_dungeon_manager (Some (snd walk)) g)).
Proof.
  intros Hroom Hr Hh Hdm box dm1 walk talk fade.
  assert (_check_door_traversal prev_x prev_y pressed g =
          (let* _ := modify (set_dungeon_manager (Some (snd walk))) in
           if fst walk then _start_room_transition PNone
           else if pressed K_e then
             let* _ := modify (set_dungeon_manager (Some (snd talk))) in
             when (fst talk) (_start_room_transition PNone)
           else ret tt) (set_dungeon_manager (Some dm1) g)) as Hcheck.
  { unfold _check_door_traversal. rewrite bind_get, Hroom, Hr.
    rewrite (bind_get_hero _ _ _ _ Hh), (bind_the_dungeon_manager _ _ _ Hdm), bind_modify.
    rewrite (bind_the_dungeon_manager _ _ dm1) by reflexivity.
    fold box. fold dm1. subst talk. fold walk.
    destruct walk as [entered dm2]. cbn [fst snd].
    destruct (try_enter_interactive_door dm2 (rect_x box) (rect_y box) true).
    reflexivity. }
  rewrite Hcheck. unfold _start_room_transition, fade. rewrite bind_modify.
  split; [|split].
  - intros -> Htr. rewrite bind_get. cbn [set_dungeon_manager _transition_manager].
    now rewrite Htr.
  - intros -> -> -> Htr. cbn [when]. rewrite bind_modify, bind_get.
    cbn [set_dungeon_manager _transition_manager]. now rewrite Htr.
  - intros -> Htr. rewrite bind_get. cbn [set_dungeon_manager _transition_manager].
    now rewrite Htr.
Qed.

End RoomEntryProperties.

(** * Starting and resetting a run *)

Section RunProperties.
Context `{E : Externals}.

(** X16: [_create_hero] with a member of [HeroType]: a position whose
    coordinates are not both numbers is rejected with ValueError and the game
    unchanged; otherwise a new hero object is created, archers and clerics
    are handed the projectile manager, and the hero joins the four sprite
    groups of [_initialize_hero] and nothing else: it is not recorded in
    [_heroes] and is not made the active hero. *)
Theorem create_hero_checks_position t px py g :
  (is_number px && is_number py = false ->
     _create_hero (of_HeroType t) px py g =
       (Raises (ValueError "Invalid position coordinates"), g)) /\
  (is_number px && is_number py = true ->
     exists g',
       _create_hero (of_HeroType t) px py g = (Returns (Some (next_ref g)), g') /\
       hero_objects g' !! next_ref g =
         Some match t with
              | KNIGHT => Knight px py
              | ARCHER => hero_set_has_projectile_manager true (Archer px py)
              | CLERIC => hero_set_has_projectile_manager true (Cleric px py)
              end /\
       next_ref g' = S (next_ref g) /\
       HeroRef (next_ref g) ∈ all_sprites (sprites g') /\
       HeroRef (next_ref g) ∈ hero_sprites (sprites g') /\
       HeroRef (next_ref g) ∈ midground_sprites (sprites g') /\
       HeroRef (next_ref g) ∈ damageable_sprites (sprites g') /\
       enemy_sprites (sprites g') = enemy_sprites (sprites g) /\
       _heroes g' = _heroes g /\ _active_hero g' = _active_hero g /\
       state g' = state g).
Proof.
  unfold _create_hero. rewrite as_HeroType_of_HeroType. split.
  - intros Hbad.
    assert (negb (is_number px) || negb (is_number py) = true) as ->
      by (destruct (is_number px), (is_number py); cbn in *; congruence).
    reflexivity.
  - intros Hok. apply andb_true_iff in Hok as [-> ->]. cbn [negb orb].
    unfold _initialize_hero.
    destruct t; rewrite bind_new_hero; run_binds;
      (eexists; split; [reflexivity|]; cbn; rewrite lookup_insert_eq;
       repeat (split; [first [reflexivity | apply elem_of_group_add; now right]|]);
       reflexivity).
Qed.

(** [_initialize_game] when the dungeon can be built, in full: whatever run
    was in progress, the heroes, the enemies and every sprite group are
    replaced; the only hero is a new object at the spawn point of the start
    room, and it is the only sprite. *)
Lemma initialize_game_clean_slate g t dm room :
  _selected_hero_type g = Some t ->
  DungeonManager_new (3, 3) "assets/levels/flat-tileset.csv"
    "assets/environment/old-dark-castle-interior-tileset.png" (_dungeon_template g) = Ok dm ->
  get_current_room dm = Some room ->
  exists g',
    _initialize_game g = (Returns tt, g') /\
    state g' = state g /\ _hero_selection_made g' = _hero_selection_made g /\
    _selected_hero_type g' = Some t /\
    _heroes g' = [(t, next_ref g)] /\ _active_hero g' = Some (next_ref g) /\
    hero_objects g' !! next_ref g = Some (repositioned dm room (created_hero t)) /\
    _enemies g' = [] /\
    all_sprites (sprites g') = [HeroRef (next_ref g)] /\
    hero_sprites (sprites g') = [HeroRef (next_ref g)] /\
    midground_sprites (sprites g') = [HeroRef (next_ref g)] /\
    damageable_sprites (sprites g') = [HeroRef (next_ref g)] /\
    enemy_sprites (sprites g') = [] /\
    _dungeon_manager g' = Some dm /\ _current_room g' = Some room /\
    minimap g' = sync_with_dungeon_manager (clear_all_rooms (minimap g)) dm.
Proof.
  intros Ht Hdm Hroom.
  unfold _initialize_game, cleanup. rewrite bind_modify.
  unfold _initialize_dungeon. rewrite bind_assoc, bind_get.
  cbn [set_minimap set_sprites set_enemies set_heroes _selected_hero_type _dungeon_template].
  rewrite Ht, bind_assoc, Hdm, bind_lift_ok.
  rewrite bind_assoc, bind_modify, bind_assoc, bind_modify, Hroom.
  rewrite bind_assoc, bind_modify. unfold _setup_door_requirements. rewrite bind_ret, bind_get.
  cbn [set_minimap set_sprites set_enemies set_heroes set_dungeon_manager set_current_room
       _current_room _selected_hero_type selected_hero_type_value].
  unfold selected_hero_type_value.
  cbn [set_minimap set_sprites set_enemies set_heroes set_dungeon_manager set_current_room
       _current_room _selected_hero_type].
  rewrite Ht. unfold _create_hero. rewrite as_HeroType_of_HeroType.
  cbn [is_number negb orb].
  assert (match t with
          | KNIGHT => new_hero (Knight (PInt 0) (PInt 0))
          | ARCHER => new_hero (hero_set_has_projectile_manager true (Archer (PInt 0) (PInt 0)))
          | CLERIC => new_hero (hero_set_has_projectile_manager true (Cleric (PInt 0) (PInt 0)))
          end = new_hero (created_hero t)) as -> by now destruct t.
  rewrite bind_assoc, bind_new_hero. unfold _initialize_hero.
  rewrite bind_assoc, bind_modify, bind_ret.
  rewrite (bind_the_dungeon_manager _ _ dm) by reflexivity.
  rewrite (bind_get_hero _ _ _ (created_hero t)) by (cbn; apply lookup_insert_eq).
  unfold repositioned.
  destruct (get_player_spawn_position_for_current_room dm
              (width (created_hero t)) (height (created_hero t))) as [start_x start_y].
  rewrite (bind_modify_hero _ _ _ (created_hero t)) by (cbn; apply lookup_insert_eq).
  rewrite (bind_modify_hero _ _ _ _ _ (lookup_with_hero _ _ _)), with_hero_twice.
  rewrite (bind_modify_hero _ _ _ _ _ (lookup_with_hero _ _ _)), with_hero_twice.
  rewrite bind_modify.
  eexists. split; [reflexivity|]. cbn.
  rewrite insert_insert_eq, lookup_insert_eq. repeat split. exact Ht.
Qed.

(** X17: [select_hero] with a member of [HeroType], when the dungeon of the
    current template can be built and has a current room: the call returns
    with the state PLAYING and the selection recorded; whatever run was in
    progress, the dictionary of heroes holds exactly the new hero, which is
    the active hero and stands at the spawn point of the start room; the
    enemies list is empty, and the hero is the only member of [all_sprites],
    [hero_sprites], [midground_sprites] and [damageable_sprites]. *)
Theorem select_hero_starts_a_run g t dm room :
  DungeonManager_new (3, 3) "assets/levels/flat-tileset.csv"
    "assets/environment/old-dark-castle-interior-tileset.png" (_dungeon_template g) = Ok dm ->
  get_current_room dm = Some room ->
  exists g',
    select_hero (of_HeroType t) g = (Returns tt, g') /\
    state g' = PLAYING /\ _hero_selection_made g' = true /\
    _selected_hero_type g' = Some t /\
    _heroes g' = [(t, next_ref g)] /\ _active_hero g' = Some (next_ref g) /\
    hero_objects g' !! next_ref g = Some (repositioned dm room (created_hero t)) /\
    _enemies g' = [] /\
    all_sprites (sprites g') = [HeroRef (next_ref g)] /\
    hero_sprites (sprites g') = [HeroRef (next_ref g)] /\
    midground_sprites (sprites g') = [HeroRef (next_ref g)] /\
    damageable_sprites (sprites g') = [HeroRef (next_ref g)] /\
    enemy_sprites (sprites g') = [] /\
    _dungeon_manager g' = Some dm /\ _current_room g' = Some room.
Proof.
  intros Hdm Hroom. unfold select_hero, set_game_state.
  rewrite as_HeroType_of_HeroType, !bind_modify.
  match goal with |- context [_initialize_game ?g0] =>
    destruct (initialize_game_clean_slate g0 t dm room eq_refl Hdm Hroom)
      as (g' & Hinit & Hs & Hmade & Hsel & Hheroes & Hactive & Hobj & Henemies &
          Hall & Hhs & Hmid & Hdmg & Hes & Hdm' & Hroom' & _) end.
  exists g'. repeat (split; [assumption|]). assumption.
Qed.

(** X18: [select_hero] when the dungeon cannot be set up: the exception of
    the dungeon constructor, or RuntimeError when the new dungeon has no
    current room, leaves [select_hero] after the selection was recorded, the
    state set to PLAYING and the previous run cleaned up: the dictionary of
    heroes and the sprite groups are empty, while [_active_hero] still refers
    to the hero of the previous run. *)
Theorem select_hero_without_dungeon g t :
  let built := DungeonManager_new (3, 3) "assets/levels/flat-tileset.csv"
                 "assets/environment/old-dark-castle-interior-tileset.png"
                 (_dungeon_template g) in
  forall e,
    built = Err e \/
    (exists dm, built = Ok dm /\ get_current_room dm = None /\
                e = RuntimeError "Failed to initialize dungeon room") ->
    exists g',
      select_hero (of_HeroType t) g = (Raises e, g') /\
      state g' = PLAYING /\ _hero_selection_made g' = true /\
      _selected_hero_type g' = Some t /\
      _heroes g' = [] /\ _enemies g' = [] /\ sprites g' = no_sprites /\
      _active_hero g' = _active_hero g /\ hero_objects g' = hero_objects g.
Proof.
  intros built e Hfail. unfold select_hero, set_game_state.
  rewrite as_HeroType_of_HeroType, !bind_modify.
  unfold _initialize_game, cleanup. rewrite bind_modify.
  unfold _initialize_dungeon. rewrite bind_assoc, bind_get.
  cbn [set_minimap set_sprites set_enemies set_heroes set_state set_hero_selection_made
       set_selected_hero_type _selected_hero_type _dungeon_template].
  rewrite bind_assoc. fold built.
  destruct Hfail as [-> | (dm & -> & Hnone & ->)].
  - rewrite bind_lift_err. eexists. split; [reflexivity|]. cbn. repeat split.
  - rewrite bind_lift_ok, bind_assoc, bind_modify, bind_assoc, bind_modify, Hnone.
    rewrite ?bind_assoc, bind_raise. eexists. split; [reflexivity|]. cbn. repeat split.
Qed.

End RunProperties.

(** * Persistence *)

Section PersistenceProperties.
Context `{E : Externals}.

Lemma set_saveloadmanager_same g : set_saveloadmanager (saveloadmanager g) g = g.
Proof. now destruct g. Qed.

(** [save_game] in closed form. *)
Lemma save_game_cases filename g :
  save_game filename g =
    match _active_hero g, _dungeon_manager g with
    | Some r, Some dm =>
        match _selected_hero_type g with
        | None => (Returns false, g)
        | Some t =>
            match hero_objects g !! r with
            | None => (Dangling, g)
            | Some h =>
                let stored :=
                  sl_save_game (saveloadmanager g)
                    (saved_record t h (get_current_room_position dm)
                       (_dungeon_template g) (_play_time g)) filename in
                (Returns (fst stored), set_saveloadmanager (snd stored) g)
            end
        end
    | _, _ => (Returns false, g)
    end.
Proof.
  unfold save_game, try_except. rewrite bind_get.
  destruct (_active_hero g) as [r|]; [|reflexivity].
  destruct (_dungeon_manager g) as [dm|]; [|reflexivity].
  destruct (_selected_hero_type g) as [t|]; [|reflexivity].
  rewrite bind_ret. unfold bind at 1, get_hero.
  destruct (hero_objects g !! r) as [h|]; [|reflexivity].
  cbv zeta. now destruct (sl_save_game _ _ _).
Qed.

(** X20: [save_game] never raises and changes nothing but the save manager;
    with no active hero, no dungeon manager or no selected hero type it
    returns False and leaves the game, save manager included, exactly as it
    was. *)
Theorem save_game_touches_only_the_save_manager filename g :
  (exists m, snd (save_game filename g) = set_saveloadmanager m g) /\
  (forall e, fst (save_game filename g) <> Raises e) /\
  (_active_hero g = None \/ _dungeon_manager g = None \/ _selected_hero_type g = None ->
     save_game filename g = (Returns false, g)).
Proof.
  rewrite save_game_cases.
  assert (exists m, g = set_saveloadmanager m g) as Hsame
    by (exists (saveloadmanager g); now rewrite set_saveloadmanager_same).
  destruct (_active_hero g) as [r|], (_dungeon_manager g) as [dm|],
           (_selected_hero_type g) as [t|];
    try (split; [exact Hsame|]; split; [discriminate | reflexivity]).
  destruct (hero_objects g !! r) as [h|]; cbv zeta; cbn [fst snd].
  - split; [eauto|]. split; [discriminate|]. intros [H|[H|H]]; discriminate.
  - split; [exact Hsame|]. split; [discriminate|]. intros [H|[H|H]]; discriminate.
Qed.

Lemma saved_record_lookups t h pos template play_time :
  let record := saved_record t h pos template play_time in
  dict_getitem record "hero_type" = Ok (PStr (HeroType_name t)) /\
  dict_getitem record "dungeon_template" = Ok (PStr (DungeonTemplate_name template)) /\
  dict_getitem record "hero_position" = Ok (pair_value (x h, y h)) /\
  dict_getitem record "hero_health" = Ok (PInt (health h)) /\
  dict_getitem record "current_room" = Ok (pair_value pos).
Proof.
  unfold dict_getitem, saved_record. cbv zeta.
  repeat (rewrite ?lookup_insert_eq; rewrite ?lookup_insert_ne by discriminate).
  repeat split.
Qed.

(** X21: [load_game_state] on a record of the form [save_game] writes, when
    the dungeon of the recorded template can be built and accepts the
    recorded room coordinate: it returns True with the recorded hero type and
    template selected, a new active hero at the recorded position with the
    recorded health, and the dungeon manager moved to the recorded
    coordinate. Unlike [load_game] it does not read the play time of the
    record: the play time of the game is left as it was. *)
Theorem load_game_state_restores_saved_record g t h pos template play_time rebuilt start moved :
  DungeonManager_new (3, 3) "assets/levels/flat-tileset.csv"
    "assets/environment/old-dark-castle-interior-tileset.png" template = Ok rebuilt ->
  get_current_room rebuilt = Some start ->
  set_current_room_by_coordinates rebuilt [PInt (fst pos); PInt (snd pos)] = Ok moved ->
  exists g' r' h',
    load_game_state (saved_record t h pos template play_time) g = (Returns true, g') /\
    _active_hero g' = Some r' /\ hero_objects g' !! r' = Some h' /\
    x h' = x h /\ y h' = y h /\ health h' = health h /\
    _selected_hero_type g' = Some t /\ _dungeon_template g' = template /\
    _dungeon_manager g' = Some moved /\
    _heroes g' = [(t, r')] /\
    _play_time g' = _play_time g.
Proof.
  intros Hbuild Hstart Hmove.
  destruct (saved_record_lookups t h pos template play_time)
    as (Htype & Htemplate & Hpos & Hhealth & Hroom).
  cbv zeta in Htype, Htemplate, Hpos, Hhealth, Hroom.
  unfold load_game_state, try_except.
  rewrite Htype, bind_lift_ok, HeroType_getitem_name, bind_lift_ok, bind_modify.
  rewrite Htemplate, bind_lift_ok, DungeonTemplate_getitem_name, bind_lift_ok, bind_modify.
  match goal with |- context [bind _initialize_game _ ?g0] =>
    destruct (initialize_game_returns g0 t rebuilt start eq_refl Hbuild Hstart)
      as (gi & Hinit & Hactive & Hobj & Hheroes & Hdmi & _ & Htpl & Hsel & Hplay & _) end.
  rewrite (bind_returns _ _ _ _ _ Hinit).
  set (r2 := next_ref _) in Hactive, Hobj, Hheroes.
  set (h0 := repositioned rebuilt start (created_hero t)) in Hobj.
  rewrite Hpos, bind_lift_ok. cbn [pair_value fst snd unpack2 iterate]. rewrite bind_lift_ok.
  rewrite (bind_returns _ _ _ _ _
             (assign_active_hero_returns gi r2 h0 hero_set_x (x h) Hactive Hobj)).
  rewrite (bind_returns _ _ _ _ _
             (assign_active_hero_returns (with_hero r2 (hero_set_x (x h) h0) gi) r2 _
                hero_set_y (y h) Hactive (lookup_with_hero _ _ _))).
  rewrite with_hero_twice, Hhealth, bind_lift_ok.
  rewrite (bind_returns _ _ _ _ _
             (assign_active_hero_returns
                (with_hero r2 (hero_set_y (y h) (hero_set_x (x h) h0)) gi) r2 _
                hero_set_health (health h) Hactive (lookup_with_hero _ _ _))).
  rewrite with_hero_twice.
  rewrite (bind_the_dungeon_manager _ _ rebuilt) by exact Hdmi.
  rewrite Hroom, bind_lift_ok. cbn [pair_value iterate]. rewrite bind_lift_ok.
  rewrite Hmove, bind_lift_ok, !bind_modify.
  eexists _, r2, _. split; [reflexivity|].
  cbn. rewrite lookup_insert_eq, Hactive.
  repeat split; try reflexivity; try assumption.
Qed.

(** X22: [load_game_state] never raises. A record without a readable hero
    type makes it return False with the game exactly as it was; a record with
    a hero type but without a readable dungeon template makes it return False
    after the hero type of the record was stored as the selected one. *)
Theorem load_game_state_failures game_state g :
  (forall e, fst (load_game_state game_state g) <> Raises e) /\
  (game_state !! "hero_type" = None \/
   (exists v e, game_state !! "hero_type" = Some v /\ HeroType_getitem v = Err e) ->
     load_game_state game_state g = (Returns false, g)) /\
  (forall t,
     game_state !! "hero_type" = Some (PStr (HeroType_name t)) ->
     game_state !! "dungeon_template" = None \/
     (exists v e, game_state !! "dungeon_template" = Some v /\
                  DungeonTemplate_getitem v = Err e) ->
     load_game_state game_state g = (Returns false, set_selected_hero_type (Some t) g)).
Proof.
  split; [|split].
  - intros e. unfold load_game_state, try_except.
    match goal with |- context [match ?m g with _ => _ end] =>
      destruct (m g) as [[b|e'|] g'] end; discriminate.
  - unfold load_game_state, try_except, dict_getitem.
    intros [-> | (v & e & -> & He)].
    + now rewrite bind_lift_err.
    + now rewrite bind_lift_ok, He, bind_lift_err.
  - intros t Ht Hbad. unfold load_game_state, try_except, dict_getitem.
    rewrite Ht, bind_lift_ok, HeroType_getitem_name, bind_lift_ok, bind_modify.
    destruct Hbad as [-> | (v & e & -> & He)].
    + now rewrite bind_lift_err.
    + now rewrite bind_lift_ok, He, bind_lift_err.
Qed.

End PersistenceProperties.

(** * Leaving a finished run *)

Section ResetProperties.
Context `{E : Externals}.

Lemma reset_game_returns g :
  _reset_game g =
    (Returns tt,
     set_state HERO_SELECT
       (set_minimap (clear_all_rooms (minimap g))
          (set_sprites no_sprites
             (set_enemies []
                (set_heroes []
                   (set_active_hero None
                      (set_selected_hero_type None
                         (set_hero_selection_made false g)))))))).
Proof. reflexivity. Qed.

(** X19: Choosing "main_menu" in the result menu of [_draw_victory] or
    [_draw_game_over] does not leave the game in MENU: the assignment of MENU
    is overwritten by [_reset_game], which ends in HERO_SELECT with the
    selection, the active hero, the heroes, the enemies and the sprite groups
    cleared; the dungeon manager and the current room of the finished run
    stay. After it, [update] does nothing and [save_game] returns False. Any
    other result of the menu leaves the game as it is. *)
Theorem result_menu_resets_to_hero_select action g :
  _draw_game_over action g = _draw_victory action g /\
  (is_main_menu action = false -> _draw_victory action g = (Returns tt, g)) /\
  (is_main_menu action = true ->
     exists g',
       _draw_victory action g = (Returns tt, g') /\
       g' = snd (_reset_game g) /\
       state g' = HERO_SELECT /\ state g' <> MENU /\
       _hero_selection_made g' = false /\ _selected_hero_type g' = None /\
       _active_hero g' = None /\ _heroes g' = [] /\ _enemies g' = [] /\
       sprites g' = no_sprites /\
       _dungeon_manager g' = _dungeon_manager g /\ _current_room g' = _current_room g /\
       (forall frames, run_updates frames g' = (Returns tt, g')) /\
       (forall filename, save_game filename g' = (Returns false, g'))).
Proof.
  split; [reflexivity|]. unfold _draw_victory. split.
  - now intros ->.
  - intros ->. rewrite bind_modify.
    exists (snd (_reset_game (set_state MENU g))).
    split; [now rewrite reset_game_returns|].
    split; [now rewrite !reset_game_returns|].
    rewrite reset_game_returns. cbn [snd].
    set (g' := set_state HERO_SELECT _).
    assert (state g' = HERO_SELECT) as Hs by reflexivity.
    assert (_active_hero g' = None) as Hactive by reflexivity.
    split; [exact Hs|]. split; [rewrite Hs; discriminate|].
    repeat (split; [reflexivity|]). split.
    + intros frames. apply run_updates_not_playing. rewrite Hs. discriminate.
    + intros filename. now rewrite save_game_cases, Hactive.
Qed.

End ResetProperties.

(** * Loading a tile map *)

Section TileLoadingProperties.
Import Tiles.
Context `{T : TileExternals}.

Lemma load_cell_returns st cell ground ground2 :
  parse_sprite (spritesheet (obj st)) "ground.png" = Ok ground ->
  parse_sprite (spritesheet (obj st)) "ground2.png" = Ok ground2 ->
  exists st',
    load_cell st cell = (Ok tt, st') /\
    col st' = col st + 1 /\ row st' = row st /\
    length (acc st') = (length (acc st) + if is_ground cell then 1 else 0)%nat /\
    tile_size (obj st') = tile_size (obj st) /\
    spritesheet (obj st') = spritesheet (obj st) /\
    (cell <> "0" -> obj st' = obj st).
Proof.
  intros Hg Hg2. unfold load_cell, Tile_init, is_ground.
  destruct (String.eqb cell "0") eqn:H0.
  - apply String.eqb_eq in H0. subst cell. eexists. split; [reflexivity|].
    cbn. repeat split; try lia. intros H. now contradiction H.
  - destruct (String.eqb cell "1") eqn:H1.
    + rewrite Hg. eexists. split; [reflexivity|]. cbn. rewrite length_app. cbn.
      repeat split; lia.
    + destruct (String.eqb cell "2") eqn:H2.
      * rewrite Hg2. eexists. split; [reflexivity|]. cbn. rewrite length_app. cbn.
        repeat split; lia.
      * eexists. split; [reflexivity|]. cbn. repeat split; lia.
Qed.

Lemma load_cells_returns cells ground ground2 : forall st,
  parse_sprite (spritesheet (obj st)) "ground.png" = Ok ground ->
  parse_sprite (spritesheet (obj st)) "ground2.png" = Ok ground2 ->
  exists st',
    load_cells st cells = (Ok tt, st') /\
    col st' = col st + Z.of_nat (length cells) /\ row st' = row st /\
    length (acc st') =
      (length (acc st) + length (filter (fun cell => is_ground cell = true) cells))%nat /\
    tile_size (obj st') = tile_size (obj st) /\
    spritesheet (obj st') = spritesheet (obj st) /\
    ("0" ∉ cells -> obj st' = obj st).
Proof.
  induction cells as [|cell cells IH]; intros st Hg Hg2.
  - exists st. split; [reflexivity|]. cbn. repeat split; lia.
  - destruct (load_cell_returns st cell ground ground2 Hg Hg2)
      as (st1 & Hrun & Hcol & Hrow & Hacc & Hsize & Hsheet & Hobj).
    destruct (IH st1) as (st' & Hrun' & Hcol' & Hrow' & Hacc' & Hsize' & Hsheet' & Hobj');
      [now rewrite Hsheet | now rewrite Hsheet |].
    exists st'. cbn [load_cells]. rewrite Hrun. split; [exact Hrun'|].
    rewrite filter_cons.
    repeat split; try congruence.
    + rewrite Hcol', Hcol. cbn [length]. lia.
    + rewrite Hacc', Hacc.
      destruct (decide (is_ground cell = true)) as [Hyes|Hno].
      * rewrite Hyes. cbn [length]. lia.
      * apply not_true_is_false in Hno. rewrite Hno. lia.
    + intros Hnone. rewrite Hobj', Hobj; [reflexivity | |].
      * intros ->. apply Hnone. left.
      * intros Hin. apply Hnone. now right.
Qed.

Lemma load_rows_returns rows ground ground2 : forall st,
  parse_sprite (spritesheet (obj st)) "ground.png" = Ok ground ->
  parse_sprite (spritesheet (obj st)) "ground2.png" = Ok ground2 ->
  exists st',
    load_rows st rows = (Ok tt, st') /\
    row st' = row st + Z.of_nat (length rows) /\
    col st' = match rows with
              | [] => col st
              | _ :: _ => Z.of_nat (length (List.last rows []))
              end /\
    length (acc st') = (length (acc st) + ground_cells rows)%nat /\
    tile_size (obj st') = tile_size (obj st) /\
    spritesheet (obj st') = spritesheet (obj st) /\
    ((forall cells, cells ∈ rows -> "0" ∉ cells) -> obj st' = obj st).
Proof.
  induction rows as [|cells rows IH]; intros st Hg Hg2.
  - exists st. split; [reflexivity|]. unfold ground_cells. cbn. repeat split; lia.
  - cbn [load_rows].
    destruct (load_cells_returns cells ground ground2
                {| acc := acc st; col := 0; row := row st; obj := obj st |} Hg Hg2)
      as (st1 & Hrun & Hcol & Hrow & Hacc & Hsize & Hsheet & Hobj).
    cbn [acc col row obj] in Hcol, Hrow, Hacc, Hsize, Hsheet, Hobj.
    rewrite Hrun.
    destruct (IH {| acc := acc st1; col := col st1; row := row st1 + 1; obj := obj st1 |})
      as (st' & Hrun' & Hrow' & Hcol' & Hacc' & Hsize' & Hsheet' & Hobj');
      [cbn; now rewrite Hsheet | cbn; now rewrite Hsheet |].
    cbn [acc col row obj] in Hcol', Hrow', Hacc', Hsize', Hsheet', Hobj'.
    exists st'. split; [exact Hrun'|].
    repeat split; try congruence.
    + rewrite Hrow', Hrow. cbn [length]. lia.
    + rewrite Hcol'. destruct rows as [|next rows]; [|reflexivity].
      cbn. lia.
    + rewrite Hacc', Hacc. unfold ground_cells. cbn [concat].
      rewrite filter_app, length_app. lia.
    + intros Hnone. rewrite Hobj', Hobj; [reflexivity | |].
      * apply Hnone. left.
      * intros cells' Hin. apply Hnone. now right.
Qed.

(** X23: [load_tiles] on a csv that can be read, with both ground sprites on
    the sheet: it returns one tile per cell that is '1' or '2'; the recorded
    map height is the number of rows times the tile size, and the recorded
    map width is the length of the last row times the tile size (0 for an
    empty file), whatever the lengths of the other rows; without a '0' cell
    the start position is left as it was. *)
Theorem load_tiles_measures_the_map self filename rows ground ground2 :
  read_csv self filename = Ok rows ->
  parse_sprite (spritesheet self) "ground.png" = Ok ground ->
  parse_sprite (spritesheet self) "ground2.png" = Ok ground2 ->
  exists loaded self',
    load_tiles self [filename] = (Ok loaded, self') /\
    length loaded = ground_cells rows /\
    map_h self' = Some (Z.of_nat (length rows) * tile_size self) /\
    map_w self' = Some (Z.of_nat (length (List.last rows [])) * tile_size self) /\
    tile_size self' = tile_size self /\ spritesheet self' = spritesheet self /\
    ((forall cells, cells ∈ rows -> "0" ∉ cells) ->
       start_x self' = start_x self /\ start_y self' = start_y self).
Proof.
  intros Hread Hg Hg2. unfold load_tiles. rewrite Hread.
  destruct (load_rows_returns rows ground ground2
              {| acc := []; col := 0; row := 0; obj := self |} Hg Hg2)
    as (st & Hrun & Hrow & Hcol & Hacc & Hsize & Hsheet & Hobj).
  cbn [acc col row obj length] in Hrow, Hcol, Hacc, Hsize, Hsheet, Hobj.
  rewrite Hrun. eexists _, _. split; [reflexivity|].
  cbn [map_w map_h set_map_size tile_size spritesheet start_x start_y].
  rewrite Hrow, Hcol, Hsize.
  repeat split; try assumption.
  - destruct rows; reflexivity.
  - now rewrite (Hobj H).
  - now rewrite (Hobj H).
Qed.

End TileLoadingProperties.

(** * The mock character statistics *)

Section StatsProperties.
Import MockCharacterStats.

(** X24: [get_hero_stats] knows every hero type by the value of its enum
    member and nothing else: for each member the entry names that hero type,
    has eleven fields and a current health equal to its positive maximum
    health; any other key, the upper-case member names that the save files
    use included, yields None. *)
Theorem hero_stats_cover_the_hero_types :
  (forall t, exists stats hp,
     get_hero_stats (HeroType_value t) = Some stats /\
     stats !! "hero_type" = Some (PStr (HeroType_value t)) /\
     stats !! "max_health" = Some (PInt hp) /\ stats !! "health" = Some (PInt hp) /\
     0 < hp /\ size stats = 11%nat) /\
  (forall name, (forall t, name <> HeroType_value t) -> get_hero_stats name = None) /\
  (forall t, get_hero_stats (HeroType_name t) = None).
Proof.
  split; [|split].
  - intros t. destruct t.
    + exists (stats_entry "knight" 375 50 55 80 (13 # 10) 10 20 (1 # 10) (15 # 10)), 375.
      repeat split; vm_compute; reflexivity.
    + exists (stats_entry "archer" 150 40 40 120 2 8 10 (15 # 100) 2), 150.
      repeat split; vm_compute; reflexivity.
    + exists (stats_entry "cleric" 250 35 85 60 (75 # 100) 12 15 (5 # 100) (18 # 10)), 250.
      repeat split; vm_compute; reflexivity.
  - intros name Hother. unfold get_hero_stats, mock_hero_stats.
    rewrite lookup_insert_ne by (intros <-; now apply (Hother KNIGHT)).
    rewrite lookup_insert_ne by (intros <-; now apply (Hother ARCHER)).
    rewrite lookup_insert_ne by (intros <-; now apply (Hother CLERIC)).
    apply lookup_empty.
  - intros t. destruct t; vm_compute; reflexivity.
Qed.

End StatsProperties.

(** * The statements on concrete runs *)

Import Reference Scenarios.

(** Splits a conjunction of closed facts and evaluates each of them. *)
Ltac evaluate :=
  repeat match goal with |- _ /\ _ => split end;
  try (vm_compute; first [reflexivity | discriminate]).

(** C1, as stated, fails: a save file whose hero position has three
    components makes [load_game] return False after the hero type, the
    dungeon template and the play time of the file replaced those of the
    run, and a new hero replaced the active one. *)
Lemma load_game_partial_apply :
  let g' := snd (load_game "autosave" with_damaged_save) in
  fst (load_game "autosave" with_damaged_save) = Returns false /\
  _selected_hero_type with_damaged_save = Some KNIGHT /\
  _selected_hero_type g' = Some ARCHER /\
  _dungeon_template with_damaged_save = SQUARE /\
  _dungeon_template g' = DEMO /\
  _active_hero with_damaged_save = Some 0%nat /\
  _active_hero g' = Some 1%nat.
Proof. cbv zeta. evaluate. Qed.

(** On a fresh game there is no save file: [load_game] returns False and the
    game is unchanged. *)
Lemma failed_load_returns_false_witness :
  sl_load_game_state (saveloadmanager new_game) "autosave" = Ok None /\
  load_game "autosave" new_game = (Returns false, new_game).
Proof.
  split; [vm_compute; reflexivity|].
  apply (failed_load_returns_false "autosave" new_game). vm_compute. reflexivity.
Defined.


(** A transition that completes into room (1, 0) of the SQUARE dungeon. *)
Lemma room_change_into_normal_room_spawns_nothing_witness :
  exists g',
    _complete_room_transition in_normal_room = (Returns tt, g') /\
    _current_room g' = room_at SQUARE (1, 0) /\
    projectiles (projectile_manager g') = [] /\
    _enemies g' = [] /\
    enemy_sprites (sprites g') = [].
Proof.
  apply (room_change_into_normal_room_spawns_nothing in_normal_room
           {| template := SQUARE; position := (1, 0) |}
           {| grid_pos := (1, 0); room_width := 1600; room_height := 600; floor_y := 500;
              room_kind := NORMAL |}
           0%nat (knight_at 300 436));
    vm_compute; first [reflexivity | discriminate].
Defined.

(** C4, as stated, fails: for a hero 64 wide the box of the door check is 32
    wide, which is half the width and not a quarter of it. *)
Lemma door_hitbox_not_quarter_width :
  width (knight_at 100 436) = 64 /\
  rect_w (door_hitbox (knight_at 100 436)) = 32 /\
  rect_w (door_hitbox (knight_at 100 436)) <> width (knight_at 100 436) / 4.
Proof. evaluate. Qed.

(** A knight, 64 wide: its door box is centred, and away from any door the
    check leaves the game as it is. *)
Lemma door_hitbox_geometry_witness :
  let box := door_hitbox (knight_at 100 436) in
  width (knight_at 100 436) mod 4 = 0 /\
  rect_x box - 100 = (100 + 64) - (rect_x box + rect_w box) /\
  _check_door_traversal 100 436 no_keys in_normal_room = (Returns tt, in_normal_room).
Proof.
  cbv zeta.
  pose proof (door_hitbox_geometry (knight_at 100 436)) as (_ & _ & _ & _ & Hcentred & _).
  pose proof (door_hitbox_geometry (knight_at 300 436)) as (_ & _ & _ & _ & _ & Hdoor).
  split; [vm_compute; reflexivity|]. split.
  - apply Hcentred. vm_compute. reflexivity.
  - apply (Hdoor in_normal_room 0%nat
             {| grid_pos := (1, 0); room_width := 1600; room_height := 600; floor_y := 500;
                room_kind := NORMAL |}
             {| template := SQUARE; position := (1, 0) |} 100 436 no_keys);
      vm_compute; reflexivity.
Defined.

(** C5, as stated, fails: with the only hero dead and the only enemy dead,
    the enemies list is non-empty and every enemy in it is dead, and the
    state after the evaluation is GAME_OVER, not VICTORY. *)
Lemma dead_enemies_without_victory :
  enemies_are all_dead [slain_boss] /\
  enemy_is_alive slain_boss = false /\
  state (snd (_check_game_state all_dead)) = GAME_OVER /\
  state (snd (_check_game_state all_dead)) <> VICTORY.
Proof.
  split.
  - constructor; [vm_compute; reflexivity | constructor].
  - evaluate.
Qed.

(** A living knight and a dead boss: VICTORY. *)
Lemma check_game_state_verdict_witness :
  heroes_are boss_defeated [knight_at 100 436] /\
  enemies_are boss_defeated [slain_boss] /\
  _check_game_state boss_defeated = (Returns tt, set_state VICTORY boss_defeated).
Proof.
  assert (heroes_are boss_defeated [knight_at 100 436]) as Hh
    by (constructor; [vm_compute; reflexivity | constructor]).
  assert (enemies_are boss_defeated [slain_boss]) as He
    by (constructor; [vm_compute; reflexivity | constructor]).
  split; [exact Hh|]. split; [exact He|].
  apply (check_game_state_verdict boss_defeated [knight_at 100 436] [slain_boss] Hh He).
  - constructor. reflexivity.
  - discriminate.
  - constructor; [reflexivity | constructor].
Defined.

(** C6, as stated, fails: a fade is active before and after this tick and
    clamping alone would leave the hero where it is, yet the tick moves the
    hero to the spawn point of the next room, snaps the camera and spawns the
    boss, because the timer fires the room swap at the midpoint of the
    fade. *)
Lemma room_swap_during_transition :
  let g' := snd (update (2 # 10) no_keys no_keys mid_fade) in
  state mid_fade = PLAYING /\
  is_transitioning (_transition_manager mid_fade) = true /\
  is_transitioning (_transition_manager g') = true /\
  x <$> hero_objects mid_fade !! 0%nat = Some 1520 /\
  x <$> hero_objects (snd (_enforce_room_bounds mid_fade)) !! 0%nat = Some 1520 /\
  x <$> hero_objects g' !! 0%nat = Some 100 /\
  (0 < _camera_x mid_fade)%Q /\
  _camera_x g' = 0%Q /\
  _enemies mid_fade = [] /\
  _enemies g' = [1%nat].
Proof. cbv zeta. evaluate. Qed.

(** A tick in the second half of a fade: the timer is quiet and still
    active, the camera and the enemies stay. *)
Lemma transitioning_tick_suspends_gameplay_witness :
  state late_fade = PLAYING /\
  transition_update (_transition_manager late_fade) (1 # 60) = Quiet (fading (31 # 60) true) /\
  _camera_x (snd (update (1 # 60) no_keys no_keys late_fade)) = _camera_x late_fade /\
  _enemies (snd (update (1 # 60) no_keys no_keys late_fade)) = _enemies late_fade.
Proof.
  assert (state late_fade = PLAYING) as Hs by (vm_compute; reflexivity).
  assert (transition_update (_transition_manager late_fade) (1 # 60)
          = Quiet (fading (31 # 60) true)) as Hq by (vm_compute; reflexivity).
  pose proof (proj2 (transitioning_tick_suspends_gameplay (1 # 60) no_keys no_keys
                       late_fade Hs) (fading (31 # 60) true) Hq eq_refl)
    as (_ & Hcx & _ & He & _).
  split; [exact Hs|]. split; [exact Hq|]. split; [exact Hcx | exact He].
Defined.

(** C7, as stated, fails: in a room 50 wide a hero 64 wide ends the clamp at
    x = -14, left of the room. *)
Lemma wide_hero_ends_left_of_room :
  _active_hero cramped = Some 0%nat /\
  _current_room cramped = Some narrow_room /\
  fst (_enforce_room_bounds cramped) = Returns tt /\
  x <$> hero_objects (snd (_enforce_room_bounds cramped)) !! 0%nat = Some (-14) /\
  ~ (0 <= -14).
Proof. evaluate. lia. Qed.

(** A run whose outcome is known, with the state it ends in. *)
Lemma run_with_outcome {A B} (p : A * B) (a : A) : fst p = a -> p = (a, snd p).
Proof. destruct p. cbn. now intros ->. Qed.

(** A knight past the right wall and below the floor is put back at
    (1536, 436). With a dungeon whose room (1, 0) is 150 wide, the tick on
    which the fade into that room reaches its midpoint raises the ValueError
    of [random.randint] from the completion callback: [update] raises it,
    the clamp has not run, and the knight, repositioned by the callback, is
    left with x + width = 164 in the room 150 wide. *)
Lemma room_bounds_enforced_on_playing_tick_witness :
  (let h' := clamp_to_room
               {| grid_pos := (1, 0); room_width := 1600; room_height := 600;
                  floor_y := 500; room_kind := NORMAL |} (knight_at 1580 480) in
   x h' = 1536 /\ y h' = 436 /\
   hero_objects (with_hero 0 h' (set_transition_manager idle out_of_bounds)) !! 0%nat
     = Some h' /\
   x h' + width h' <= 1600 /\ y h' + height h' <= 500 /\ 0 <= x h') /\
  (let g1 := snd (@transition_manager_update Cramped.externals (2 # 10) Cramped.mid_fade) in
   state Cramped.mid_fade = PLAYING /\
   is_transitioning (_transition_manager Cramped.mid_fade) = true /\
   @update Cramped.externals (2 # 10) no_keys no_keys Cramped.mid_fade
     = (Raises (ValueError "empty range for randrange()"), g1) /\
   _current_room g1 = Some Cramped.small_room /\
   x <$> hero_objects g1 !! 0%nat = Some 100 /\
   width <$> hero_objects g1 !! 0%nat = Some 64 /\
   ~ (100 + 64 <= room_width Cramped.small_room)).
Proof.
  cbv zeta.
  assert (state out_of_bounds = PLAYING) as Hs by (vm_compute; reflexivity).
  assert (transition_manager_update (1 # 60) out_of_bounds
          = (Returns tt, set_transition_manager idle out_of_bounds)) as Ht
    by (apply transition_manager_update_quiet; vm_compute; reflexivity).
  assert (_active_hero (set_transition_manager idle out_of_bounds) = Some 0%nat) as Hr
    by (vm_compute; reflexivity).
  assert (hero_objects (set_transition_manager idle out_of_bounds) !! 0%nat
          = Some (knight_at 1580 480)) as Hh by (vm_compute; reflexivity).
  assert (_current_room (set_transition_manager idle out_of_bounds) =
          Some {| grid_pos := (1, 0); room_width := 1600; room_height := 600;
                  floor_y := 500; room_kind := NORMAL |}) as Hroom
    by (vm_compute; reflexivity).
  pose proof (proj1 (room_bounds_enforced_on_playing_tick (1 # 60) no_keys no_keys
                       out_of_bounds Hs)
                _ 0%nat (knight_at 1580 480) _ Ht Hr Hh Hroom)
    as (_ & Hobj & _ & _ & Hx & Hy & H0 & _).
  assert (state Cramped.mid_fade = PLAYING) as Hs' by (vm_compute; reflexivity).
  assert (@transition_manager_update Cramped.externals (2 # 10) Cramped.mid_fade
          = (Raises (ValueError "empty range for randrange()"),
             snd (@transition_manager_update Cramped.externals (2 # 10) Cramped.mid_fade)))
    as Ht'
    by (apply run_with_outcome; vm_compute; reflexivity).
  pose proof (proj2 (proj2 (@room_bounds_enforced_on_playing_tick Cramped.externals
                              (2 # 10) no_keys no_keys Cramped.mid_fade Hs'))
                _ _ Ht') as (Hup & _).
  split.
  - split; [vm_compute; reflexivity|]. split; [vm_compute; reflexivity|].
    split; [exact Hobj|]. split; [exact Hx|]. split; [exact Hy|].
    apply H0. vm_compute. discriminate.
  - split; [exact Hs'|]. split; [vm_compute; reflexivity|]. split; [exact Hup|].
    split; [vm_compute; reflexivity|]. split; [vm_compute; reflexivity|].
    split; [vm_compute; reflexivity|]. vm_compute. intros H. now apply H.
Defined.

(** The string "wizard" is no member of [HeroType]. *)
Lemma unrecognized_hero_type_rejected_witness :
  as_HeroType (PStr "wizard") = None /\
  select_hero (PStr "wizard") new_game = (Raises (ValueError "Invalid hero type"), new_game) /\
  _create_hero (PStr "wizard") (PInt 0) (PInt 0) new_game
    = (Raises (ValueError "Invalid hero type"), new_game).
Proof.
  split; [vm_compute; reflexivity|].
  apply (unrecognized_hero_type_rejected (PStr "wizard") (PInt 0) (PInt 0) new_game).
  vm_compute. reflexivity.
Defined.

(** The only hero and the only enemy are dead: GAME_OVER. *)
Lemma game_over_has_priority_witness :
  heroes_are all_dead [fallen (knight_at 100 436)] /\
  enemies_are all_dead [slain_boss] /\
  _check_game_state all_dead = (Returns tt, set_state GAME_OVER all_dead) /\
  state (snd (_check_game_state all_dead)) <> VICTORY.
Proof.
  assert (heroes_are all_dead [fallen (knight_at 100 436)]) as Hh
    by (constructor; [vm_compute; reflexivity | constructor]).
  assert (enemies_are all_dead [slain_boss]) as He
    by (constructor; [vm_compute; reflexivity | constructor]).
  split; [exact Hh|]. split; [exact He|].
  apply (game_over_has_priority all_dead [fallen (knight_at 100 436)] [slain_boss] Hh He).
  - constructor; [reflexivity | constructor].
  - discriminate.
  - constructor; [reflexivity | constructor].
Defined.

(** * Further statements on concrete runs *)

Import Episodes.

(** Two frames on the game over screen of a lost run change nothing; and
    after the tick on which the boss is found dead, the frames that follow
    leave the victory as it is. *)
Lemma frames_outside_play_change_nothing_witness :
  state lost <> PLAYING /\ run_updates two_frames lost = (Returns tt, lost) /\
  state boss_defeated = PLAYING /\
  state (snd (run_updates [(1 # 60, no_keys, no_keys)] boss_defeated)) = VICTORY /\
  run_updates two_frames (snd (run_updates [(1 # 60, no_keys, no_keys)] boss_defeated))
    = (Returns tt, snd (run_updates [(1 # 60, no_keys, no_keys)] boss_defeated)).
Proof.
  assert (state lost <> PLAYING) as Hs by (vm_compute; discriminate).
  assert (state (snd (run_updates [(1 # 60, no_keys, no_keys)] boss_defeated)) = VICTORY)
    as Hv by (vm_compute; reflexivity).
  split; [exact Hs|].
  split; [exact (proj1 (frames_outside_play_change_nothing two_frames [] lost) Hs)|].
  split; [vm_compute; reflexivity|]. split; [exact Hv|].
  apply (proj2 (frames_outside_play_change_nothing [(1 # 60, no_keys, no_keys)] two_frames
                  boss_defeated)).
  right. exact Hv.
Defined.

(** A tick with the right key held in room (1, 0): the knight walks, and the
    room, the enemies, the sprites, the object counter and the random
    generator stay. *)
Lemma quiet_tick_keeps_room_witness :
  let g' := snd (update (1 # 60) press_right no_keys in_normal_room) in
  transition_update (_transition_manager in_normal_room) (1 # 60) = Quiet idle /\
  x <$> hero_objects g' !! 0%nat = Some 305 /\
  _current_room g' = _current_room in_normal_room /\
  _enemies g' = _enemies in_normal_room /\
  sprites g' = sprites in_normal_room /\
  minimap g' = minimap in_normal_room /\
  next_ref g' = next_ref in_normal_room /\
  rng g' = rng in_normal_room.
Proof.
  cbv zeta.
  assert (transition_update (_transition_manager in_normal_room) (1 # 60) = Quiet idle) as Hq
    by (vm_compute; reflexivity).
  split; [exact Hq|]. split; [vm_compute; reflexivity|].
  exact (quiet_tick_keeps_room (1 # 60) press_right no_keys in_normal_room idle Hq).
Defined.

(** A dead knight in the right door with the right key held: no fade
    starts, where the same tick with the knight alive starts one. *)
Lemma dead_hero_starts_no_transition_witness :
  let g' := snd (update (1 # 60) press_right no_keys dead_at_door) in
  is_transitioning (_transition_manager (snd (update (1 # 60) press_right no_keys at_door)))
    = true /\
  _transition_manager g' = idle /\ _pending_door g' = _pending_door dead_at_door.
Proof.
  cbv zeta. split; [vm_compute; reflexivity|].
  apply (dead_hero_starts_no_transition (1 # 60) press_right no_keys dead_at_door idle 0%nat
           (fallen (knight_at 1520 436))); vm_compute; reflexivity.
Defined.

(** The knight at x = 300 in a room 1600 wide on a screen 800 wide. *)
Lemma update_camera_within_room_witness :
  exists g',
    _update_camera in_normal_room = (Returns tt, g') /\
    (0 <= _camera_x g' <= inject_Z (Z.max 0 (1600 - game_width in_normal_room)))%Q /\
    (0 <= _camera_y g' <= inject_Z (Z.max 0 (600 - game_height in_normal_room)))%Q.
Proof.
  apply (update_camera_within_room in_normal_room 0%nat (knight_at 300 436)
           {| grid_pos := (1, 0); room_width := 1600; room_height := 600; floor_y := 500;
              room_kind := NORMAL |});
    vm_compute; reflexivity.
Defined.

(** A request far to the right of and above the room ends at (800, 0); a
    request inside the bounds is taken as it is. *)
Lemma set_camera_position_within_room_witness :
  _camera_x (snd (_set_camera_position 5000 (-3) in_normal_room)) = 800%Q /\
  _camera_y (snd (_set_camera_position 5000 (-3) in_normal_room)) = 0%Q /\
  exists g',
    _set_camera_position 250 0 in_normal_room = (Returns tt, g') /\
    (_camera_x g' == 250)%Q.
Proof.
  split; [vm_compute; reflexivity|]. split; [vm_compute; reflexivity|].
  destruct (proj2 (set_camera_position_within_room 250 0 in_normal_room)
              {| grid_pos := (1, 0); room_width := 1600; room_height := 600; floor_y := 500;
                 room_kind := NORMAL |} ltac:(vm_compute; reflexivity))
    as (g' & Hrun & _ & _ & Hx & _).
  exists g'. split; [exact Hrun|]. apply Hx. split; vm_compute; discriminate.
Defined.

(** The knight past the wall and below the floor: a second enforcement
    changes nothing; and the knight inside the room is left alone. *)
Lemma enforce_room_bounds_idempotent_witness :
  _enforce_room_bounds (snd (_enforce_room_bounds out_of_bounds))
    = (Returns tt, snd (_enforce_room_bounds out_of_bounds)) /\
  _enforce_room_bounds in_normal_room = (Returns tt, in_normal_room).
Proof.
  split.
  - apply (proj1 (enforce_room_bounds_idempotent out_of_bounds)).
    apply injective_projections; [vm_compute; reflexivity | cbn [snd]; reflexivity].
  - apply (proj2 (enforce_room_bounds_idempotent in_normal_room) 0%nat (knight_at 300 436)
             {| grid_pos := (1, 0); room_width := 1600; room_height := 600; floor_y := 500;
                room_kind := NORMAL |});
      vm_compute; first [reflexivity | discriminate].
Defined.

(** The knight at y = 480, 64 tall, over a floor at 500: lifted to 436 with
    its vertical velocity zeroed. *)
Lemma floor_collision_settles_heroes_witness :
  exists g' h',
    _handle_hero_floor_collision out_of_bounds = (Returns tt, g') /\
    hero_objects g' !! 0%nat = Some h' /\
    y h' = 436 /\ velocity_y h' = Some 0 /\ x h' = 1580.
Proof.
  destruct (floor_collision_settles_heroes out_of_bounds
              {| grid_pos := (1, 0); room_width := 1600; room_height := 600; floor_y := 500;
                 room_kind := NORMAL |})
    as (g' & objs & Hrun & _ & Hlook).
  - vm_compute. reflexivity.
  - intros r Hr. apply list_elem_of_singleton in Hr. subst r.
    exists (knight_at 1580 480). vm_compute. reflexivity.
  - destruct (Hlook 0%nat (knight_at 1580 480) ltac:(vm_compute; reflexivity))
      as (h' & Hh' & Hin & _).
    destruct Hin as (-> & _ & _); [left|].
    eexists g', _. split; [exact Hrun|]. split; [exact Hh'|].
    vm_compute. repeat split.
Defined.


(** A tick on the game as constructed. *)
Lemma tick_before_hero_selection_witness :
  exists msg g',
    update (1 # 60) no_keys no_keys new_game = (Raises (AttributeError msg), g') /\
    state g' = GAME_OVER.
Proof.
  apply (tick_before_hero_selection (1 # 60) no_keys no_keys new_game idle);
    vm_compute; reflexivity.
Defined.

(** The knight walks into the boss room of the DEMO dungeon. *)
Lemma room_change_into_boss_room_witness :
  exists g',
    _complete_room_transition entering_boss_room = (Returns tt, g') /\
    room_kind <$> _current_room g' = Some BOSS /\
    x <$> hero_objects g' !! 0%nat = Some 100 /\
    _enemies g' = [1%nat] /\
    enemy_objects g' !! 1%nat = Some (boss 800 400) /\
    _camera_x g' = 0%Q.
Proof.
  assert (_dungeon_manager entering_boss_room = Some {| template := DEMO; position := (2, 0) |})
    as Hdm by (vm_compute; reflexivity).
  assert (hero_objects entering_boss_room !! 0%nat = Some (knight_at 1520 436)) as Hh
    by (vm_compute; reflexivity).
  destruct (room_change_into_boss_room entering_boss_room
              {| template := DEMO; position := (2, 0) |}
              {| grid_pos := (2, 0); room_width := 1600; room_height := 600; floor_y := 500;
                 room_kind := BOSS |}
              0%nat (knight_at 1520 436) Hdm eq_refl eq_refl Hh eq_refl)
    as (g' & cx & cy & Hrun & Hroom & Hhero & Hcx & Hbx & _ & _ & _ & Henemies & _ & _ &
        Hboss & _).
  exists g'. split; [exact Hrun|].
  rewrite Hroom, Hhero, Henemies. split; [reflexivity|]. split; [vm_compute; reflexivity|].
  split; [reflexivity|]. split; [exact Hboss|].
  replace g' with (snd (_complete_room_transition entering_boss_room)) by (now rewrite Hrun).
  vm_compute. reflexivity.
Defined.

(** A room 50 wide. *)
Lemma narrow_room_change_raises_witness :
  exists msg g',
    _handle_room_change cramped = (Raises (ValueError msg), g') /\
    projectiles (projectile_manager g') = [] /\
    _enemies g' = [] /\ enemy_sprites (sprites g') = [].
Proof.
  apply (narrow_room_change_raises cramped narrow_room); vm_compute; reflexivity.
Defined.

(** The slain boss after the boss room was left. *)
Lemma enemies_of_left_room_stay_in_all_sprites_witness :
  let g' := snd (_spawn_room_enemies after_boss) in
  EnemyRef 1 ∈ all_sprites (sprites g') /\
  (1%nat ∉ _enemies g') /\ (EnemyRef 1 ∉ enemy_sprites (sprites g')) /\
  hero_sprites (sprites g') = hero_sprites (sprites after_boss).
Proof.
  apply (enemies_of_left_room_stay_in_all_sprites after_boss
           {| grid_pos := (1, 2); room_width := 1600; room_height := 600; floor_y := 500;
              room_kind := NORMAL |} 1%nat).
  - vm_compute. reflexivity.
  - assert (all_sprites (sprites after_boss) = [EnemyRef 1]) as -> by (vm_compute; reflexivity).
    left.
  - vm_compute. lia.
Defined.

(** The knight in the right door of room (1, 0). *)
Lemma entering_a_door_starts_a_fade_witness :
  let g' := snd (_check_door_traversal 1515 436 no_keys at_door) in
  _transition_manager g' = fading 0 false /\
  _pending_door g' = PNone /\
  _dungeon_manager g' = Some {| template := DEMO; position := (2, 0) |}.
Proof.
  cbv zeta.
  pose proof (proj1 (entering_a_door_starts_a_fade at_door 0%nat (knight_at 1520 436)
                       {| grid_pos := (1, 0); room_width := 1600; room_height := 600;
                          floor_y := 500; room_kind := NORMAL |}
                       {| template := DEMO; position := (1, 0) |} 1515 436 no_keys
                       ltac:(vm_compute; reflexivity) ltac:(vm_compute; reflexivity)
                       ltac:(vm_compute; reflexivity) ltac:(vm_compute; reflexivity))
                ltac:(vm_compute; reflexivity) ltac:(vm_compute; reflexivity)) as Hrun.
  rewrite Hrun. evaluate.
Defined.

(** A position given as a string. *)
Lemma create_hero_checks_position_witness :
  _create_hero (of_HeroType ARCHER) (PStr "left") (PInt 0) new_game
    = (Raises (ValueError "Invalid position coordinates"), new_game) /\
  exists g',
    _create_hero (of_HeroType ARCHER) (PInt 40) (PBool true) new_game
      = (Returns (Some 0%nat), g') /\
    HeroRef 0 ∈ hero_sprites (sprites g') /\ _heroes g' = [].
Proof.
  split.
  - apply (proj1 (create_hero_checks_position ARCHER (PStr "left") (PInt 0) new_game)).
    reflexivity.
  - destruct (proj2 (create_hero_checks_position ARCHER (PInt 40) (PBool true) new_game)
                eq_refl)
      as (g' & Hrun & _ & _ & _ & Hin & _ & _ & _ & Hheroes & _).
    exists g'. split; [exact Hrun|]. split; [exact Hin | exact Hheroes].
Defined.

(** The knight is selected on a fresh game. *)
Lemma select_hero_starts_a_run_witness :
  state started = PLAYING /\ _heroes started = [(KNIGHT, 0%nat)] /\
  _active_hero started = Some 0%nat /\
  all_sprites (sprites started) = [HeroRef 0] /\
  x <$> hero_objects started !! 0%nat = Some 100.
Proof.
  destruct (select_hero_starts_a_run new_game KNIGHT
              {| template := SQUARE; position := (0, 0) |}
              {| grid_pos := (0, 0); room_width := 1600; room_height := 600; floor_y := 500;
                 room_kind := START |} eq_refl eq_refl)
    as (g' & Hrun & Hs & _ & _ & Hheroes & Hactive & Hobj & _ & Hall & _).
  unfold started. rewrite Hrun. cbn [snd].
  split; [exact Hs|]. split; [exact Hheroes|]. split; [exact Hactive|]. split; [exact Hall|].
  change (x <$> hero_objects g' !! next_ref new_game = Some 100).
  rewrite Hobj. vm_compute. reflexivity.
Defined.

(** The level of the DEMO template is missing. *)
Lemma select_hero_without_dungeon_witness :
  exists g',
    @select_hero Faulty.externals (of_HeroType CLERIC) Faulty.demo_game
      = (Raises (OtherError "No such file or directory"), g') /\
    state g' = PLAYING /\ _hero_selection_made g' = true /\
    _selected_hero_type g' = Some CLERIC /\
    _heroes g' = [] /\ _enemies g' = [] /\ sprites g' = no_sprites /\
    _active_hero g' = _active_hero Faulty.demo_game /\
    hero_objects g' = hero_objects Faulty.demo_game.
Proof.
  apply (@select_hero_without_dungeon Faulty.externals Faulty.demo_game CLERIC).
  left. reflexivity.
Defined.

(** "main_menu" is chosen on the game over screen. *)
Lemma result_menu_resets_to_hero_select_witness :
  is_main_menu (PStr "main_menu") = true /\
  exists g',
    _draw_game_over (PStr "main_menu") lost = (Returns tt, g') /\
    state g' = HERO_SELECT /\ _heroes g' = [] /\ _active_hero g' = None /\
    _dungeon_manager g' = _dungeon_manager lost.
Proof.
  split; [reflexivity|].
  destruct (result_menu_resets_to_hero_select (PStr "main_menu") lost)
    as (Hsame & _ & Hreset).
  destruct (Hreset eq_refl)
    as (g' & Hrun & _ & Hs & _ & _ & _ & Hactive & Hheroes & _ & _ & Hdm & _).
  exists g'. rewrite Hsame. repeat (split; [assumption|]). assumption.
Defined.

(** Saving before any hero was selected. *)
Lemma save_game_touches_only_the_save_manager_witness :
  _active_hero new_game = None /\
  save_game "autosave" new_game = (Returns false, new_game).
Proof.
  split; [reflexivity|].
  apply (save_game_touches_only_the_save_manager "autosave" new_game). left. reflexivity.
Defined.

(** An archer's record loaded into a fresh game. *)
Lemma load_game_state_restores_saved_record_witness :
  exists g' r' h',
    load_game_state archer_record new_game = (Returns true, g') /\
    _active_hero g' = Some r' /\ hero_objects g' !! r' = Some h' /\
    x h' = 300 /\ y h' = 436 /\ health h' = 90 /\
    _selected_hero_type g' = Some ARCHER /\ _dungeon_template g' = DEMO /\
    _dungeon_manager g' = Some {| template := DEMO; position := (1, 0) |} /\
    _heroes g' = [(ARCHER, r')] /\
    _play_time g' = PFloat 0.
Proof.
  apply (load_game_state_restores_saved_record new_game ARCHER
           (hero_set_health 90 (make_hero ARCHER 150 (PInt 300) (PInt 436)))
           (1, 0) DEMO (PFloat 12)
           {| template := DEMO; position := (0, 0) |}
           {| grid_pos := (0, 0); room_width := 1600; room_height := 600; floor_y := 500;
              room_kind := START |}
           {| template := DEMO; position := (1, 0) |});
    reflexivity.
Defined.

(** An empty record, and a record that only names a hero type. *)
Lemma load_game_state_failures_witness :
  load_game_state ∅ in_normal_room = (Returns false, in_normal_room) /\
  load_game_state {[ "hero_type" := PStr "CLERIC" ]} in_normal_room
    = (Returns false, set_selected_hero_type (Some CLERIC) in_normal_room).
Proof.
  destruct (load_game_state_failures ∅ in_normal_room) as (_ & Hnone & _).
  destruct (load_game_state_failures {[ "hero_type" := PStr "CLERIC" ]} in_normal_room)
    as (_ & _ & Htemplate).
  split.
  - apply Hnone. left. reflexivity.
  - apply (Htemplate CLERIC); [|left]; vm_compute; reflexivity.
Defined.

Import Tiles TileReference.

(** A level of three rows with four, two and three cells: seven tiles, a map
    48 high and, by the last row, 48 wide. *)
Lemma load_tiles_measures_the_map_witness :
  exists loaded self',
    load_tiles (blank ground_sheet) [PStr "level.csv"] = (Ok loaded, self') /\
    length loaded = 7%nat /\
    map_h self' = Some 48 /\ map_w self' = Some 48 /\
    start_x self' = 0 /\ start_y self' = 0.
Proof.
  destruct (load_tiles_measures_the_map (blank ground_sheet) (PStr "level.csv") level_rows
              (16, 16) (16, 16) eq_refl eq_refl eq_refl)
    as (loaded & self' & Hrun & Hlen & Hh & Hw & _ & _ & Hstart).
  exists loaded, self'. split; [exact Hrun|]. split; [exact Hlen|].
  split; [exact Hh|]. split; [exact Hw|].
  apply Hstart. intros cells Hin Hzero.
  unfold level_rows in Hin.
  repeat (apply elem_of_cons in Hin as [-> | Hin];
          [repeat (apply elem_of_cons in Hzero as [Hzero | Hzero]; [discriminate|]);
           now apply not_elem_of_nil in Hzero|]).
  now apply not_elem_of_nil in Hin.
Defined.

Import MockCharacterStats.

(** No statistics for a wizard. *)
Lemma hero_stats_cover_the_hero_types_witness :
  get_hero_stats "wizard" = None.
Proof.
  apply (proj1 (proj2 hero_stats_cover_the_hero_types)).
  intros t. destruct t; discriminate.
Defined.
